(** * SCD2 historisation of the Gold tables (AGS.Case)

    A shallow embedding of the Gold reconciliation scripts
    [scripts/gold/apply_gold_salarie.py], [scripts/gold/apply_gold_paiement.py]
    and [scripts/apply_gold_demande_avance.py], and the properties of the
    reconciliation run they implement.

    Conventions of the embedding.
    - A Python [str] is represented by its UTF-8 encoding, a Rocq [string].
    - A dict keyed by strings is a [gmap string _]; a [set] of strings is a
      [gset string], iterated in the order of [elements].
    - A psycopg2 connection with [autocommit = False] is a pair of database
      states: the committed one, visible to everybody, and the pending one of
      the open transaction.  Every statement sent to the server may be hit by
      a storage failure, decided by an oracle carried by the connection.
    - The connection records the write statements it executed, the way a
      test double records calls. *)

From Stdlib Require Import ZArith String Ascii List Lia.
From stdpp Require Import base gmap strings list fin_maps fin_sets.

Local Open Scope string_scope.
Local Open Scope Z_scope.

(** ** hashlib.md5 (RFC 1321) *)

Module MD5.

Definition w32 (x : Z) : Z := x mod 4294967296.

Definition rotl (x c : Z) : Z :=
  w32 (Z.lor (Z.shiftl x c) (Z.shiftr x (32 - c))).

Definition not32 (x : Z) : Z := Z.lxor x 4294967295.

(** floor(2^32 * |sin (i + 1)|) for i = 0..63 *)
Definition K : list Z :=
  [ 3614090360; 3905402710; 606105819; 3250441966; 4118548399; 1200080426;
    2821735955; 4249261313; 1770035416; 2336552879; 4294925233; 2304563134;
    1804603682; 4254626195; 2792965006; 1236535329; 4129170786; 3225465664;
    643717713; 3921069994; 3593408605; 38016083; 3634488961; 3889429448;
    568446438; 3275163606; 4107603335; 1163531501; 2850285829; 4243563512;
    1735328473; 2368359562; 4294588738; 2272392833; 1839030562; 4259657740;
    2763975236; 1272893353; 4139469664; 3200236656; 681279174; 3936430074;
    3572445317; 76029189; 3654602809; 3873151461; 530742520; 3299628645;
    4096336452; 1126891415; 2878612391; 4237533241; 1700485571; 2399980690;
    4293915773; 2240044497; 1873313359; 4264355552; 2734768916; 1309151649;
    4149444226; 3174756917; 718787259; 3951481745 ]%Z.

(** per-round left rotations *)
Definition S : list Z :=
  [ 7; 12; 17; 22; 7; 12; 17; 22; 7; 12; 17; 22; 7; 12; 17; 22;
    5; 9; 14; 20; 5; 9; 14; 20; 5; 9; 14; 20; 5; 9; 14; 20;
    4; 11; 16; 23; 4; 11; 16; 23; 4; 11; 16; 23; 4; 11; 16; 23;
    6; 10; 15; 21; 6; 10; 15; 21; 6; 10; 15; 21; 6; 10; 15; 21 ]%Z.

Definition bytes_of (s : string) : list Z :=
  map (fun a => Z.of_nat (nat_of_ascii a)) (list_ascii_of_string s).

(** [n] bytes of [x], least significant first *)
Fixpoint le_bytes (n : nat) (x : Z) : list Z :=
  match n with
  | O => []
  | Datatypes.S n' => (x mod 256) :: le_bytes n' (x / 256)
  end.

Fixpoint le_word (bs : list Z) : Z :=
  match bs with
  | [] => 0
  | b :: bs' => b + 256 * le_word bs'
  end.

Definition pad (msg : list Z) : list Z :=
  let len := Z.of_nat (length msg) in
  let zeros := Z.to_nat ((55 - len) mod 64) in
  msg ++ [128] ++ repeat 0 zeros ++ le_bytes 8 ((8 * len) mod 18446744073709551616).

(** cut a list in pieces of [n] elements; [fuel] bounds the number of pieces *)
Fixpoint chunks {A} (fuel n : nat) (l : list A) : list (list A) :=
  match fuel, l with
  | O, _ | _, [] => []
  | Datatypes.S fuel', _ => firstn n l :: chunks fuel' n (skipn n l)
  end.

Definition words_of_block (blk : list Z) : list Z :=
  map le_word (chunks 16 4 blk).

Definition state : Type := Z * Z * Z * Z.

Definition step (M : list Z) (st : state) (i : nat) : state :=
  let '(a, b, c, d) := st in
  let iz := Z.of_nat i in
  let '(f, g) :=
    if iz <? 16 then (Z.lor (Z.land b c) (Z.land (not32 b) d), iz)
    else if iz <? 32 then (Z.lor (Z.land d b) (Z.land (not32 d) c), (5 * iz + 1) mod 16)
    else if iz <? 48 then (Z.lxor (Z.lxor b c) d, (3 * iz + 5) mod 16)
    else (Z.lxor c (Z.lor b (not32 d)), (7 * iz) mod 16) in
  let f' := w32 (f + a + nth i K 0 + nth (Z.to_nat g) M 0) in
  (d, w32 (b + rotl f' (nth i S 0)), b, c).

Definition process_block (st : state) (blk : list Z) : state :=
  let '(a0, b0, c0, d0) := st in
  let '(a, b, c, d) := fold_left (step (words_of_block blk)) (seq 0 64) st in
  (w32 (a0 + a), w32 (b0 + b), w32 (c0 + c), w32 (d0 + d)).

Definition init : state := (1732584193, 4023233417, 2562383102, 271733878).

Definition digest (s : string) : list Z :=
  let padded := pad (bytes_of s) in
  let '(a, b, c, d) :=
    fold_left process_block (chunks (length padded) 64 padded) init in
  le_bytes 4 a ++ le_bytes 4 b ++ le_bytes 4 c ++ le_bytes 4 d.

Definition hex_digit (n : Z) : ascii :=
  if n <? 10 then ascii_of_nat (Z.to_nat (48 + n))
  else ascii_of_nat (Z.to_nat (87 + n)).

Fixpoint hex (bs : list Z) : string :=
  match bs with
  | [] => EmptyString
  | b :: bs' => String (hex_digit (b / 16)) (String (hex_digit (b mod 16)) (hex bs'))
  end.

(** [hashlib.md5(s.encode("utf-8")).hexdigest()] *)
Definition hexdigest (s : string) : string := hex (digest s).

End MD5.

(** ** Python exceptions and the connection *)

Inductive exn : Type :=
| RuntimeError (msg : string)
| TypeError (msg : string)
| KeyError (key : string)
| OperationalError.

Inductive res (A : Type) : Type :=
| Ok (a : A)
| Raise (e : exn).
Arguments Ok {A} a.
Arguments Raise {A} e.

(** [datetime.date] *)
Record date : Type := mkDate { year : Z; month : Z; day : Z }.

(** [date '9999-12-31'], the open end of a current version *)
Definition open_end : date := mkDate 9999 12 31.

Section Connection.
Variables DB Stmt : Type.

(** A connection in transaction mode.  [outage n] tells whether the
    [n]-th round trip to the server fails; [issued] lists the write
    statements executed so far. *)
Record conn : Type := mkConn {
  committed : DB;
  pending : DB;
  executed : nat;
  outage : nat -> bool;
  issued : list Stmt
}.

Definition M (A : Type) : Type := conn -> res A * conn.

Definition ret {A} (a : A) : M A := fun c => (Ok a, c).

Definition raise {A} (e : exn) : M A := fun c => (Raise e, c).

Definition bind {A B} (m : M A) (k : A -> M B) : M B := fun c =>
  match m c with
  | (Ok a, c') => k a c'
  | (Raise e, c') => (Raise e, c')
  end.

Definition tick (c : conn) : conn :=
  mkConn (committed c) (pending c) (S (executed c)) (outage c) (issued c).

(** [cur.execute] of a SELECT followed by a fetch *)
Definition query {A} (q : DB -> A) : M A := fun c =>
  if outage c (executed c) then (Raise OperationalError, tick c)
  else (Ok (q (pending c)), tick c).

(** [cur.execute] of an UPDATE or an INSERT *)
Definition exec (w : Stmt) (f : DB -> DB) : M unit := fun c =>
  if outage c (executed c) then (Raise OperationalError, tick c)
  else (Ok tt, mkConn (committed c) (f (pending c)) (S (executed c))
                      (outage c) (issued c ++ [w])).

(** [conn.commit()] *)
Definition commit : M unit := fun c =>
  if outage c (executed c) then (Raise OperationalError, tick c)
  else (Ok tt, mkConn (pending c) (pending c) (S (executed c))
                      (outage c) (issued c)).

(** [conn.rollback()] *)
Definition rollback (c : conn) : conn :=
  mkConn (committed c) (committed c) (executed c) (outage c) (issued c).

(** [get_conn()] followed by [conn.autocommit = False] *)
Definition get_conn (oracle : nat -> bool) (d : DB) : conn :=
  mkConn d d 0 oracle [].

(** [for k in ks: body(k)] *)
Fixpoint for_each {K} (ks : list K) (body : K -> M unit) : M unit :=
  match ks with
  | [] => ret tt
  | k :: ks' => bind (body k) (fun _ => for_each ks' body)
  end.

(** [try: body  except Exception: conn.rollback(); raise  finally:
    conn.close()]: the outcome, the committed database that is left, and
    the write statements that were executed. *)
Definition try_run (body : M unit) (c : conn) : res unit * DB * list Stmt :=
  match body c with
  | (Ok _, c') => (Ok tt, committed c', issued c')
  | (Raise e, c') =>
      let c'' := rollback c' in (Raise e, committed c'', issued c'')
  end.
End Connection.

Arguments committed {DB Stmt} c.
Arguments pending {DB Stmt} c.
Arguments executed {DB Stmt} c.
Arguments outage {DB Stmt} c.
Arguments issued {DB Stmt} c.
Arguments mkConn {DB Stmt}.
Arguments ret {DB Stmt A} a.
Arguments raise {DB Stmt A} e.
Arguments bind {DB Stmt A B} m k.
Arguments tick {DB Stmt} c.
Arguments query {DB Stmt A} q.
Arguments exec {DB Stmt} w f.
Arguments commit {DB Stmt}.
Arguments rollback {DB Stmt} c.
Arguments get_conn {DB Stmt} oracle d.
Arguments for_each {DB Stmt K} ks body.
Arguments try_run {DB Stmt} body c.

Declare Scope py_scope.
Delimit Scope py_scope with py.
Notation "x ← y ; z" := (bind y (fun x => z))
  (at level 20, y at level 100, z at level 200, only parsing) : py_scope.
Notation "x ;; z" := (bind x (fun _ => z))
  (at level 100, z at level 200, only parsing, right associativity) : py_scope.

(** No storage failure at all. *)
Definition healthy : nat -> bool := fun _ => false.

(** [sep.join(parts)] *)
Fixpoint join (sep : string) (parts : list string) : string :=
  match parts with
  | [] => ""
  | [p] => p
  | p :: rest => p ++ sep ++ join sep rest
  end.

(** [date.__str__], that is [isoformat()] *)
Definition digit (n : Z) : string :=
  String (ascii_of_nat (Z.to_nat (48 + n mod 10))) "".

Fixpoint zfill (width : nat) (n : Z) : string :=
  match width with
  | O => ""
  | S width' => zfill width' (n / 10) ++ digit n
  end.

Definition isoformat (d : date) : string :=
  zfill 4 (year d) ++ "-" ++ zfill 2 (month d) ++ "-" ++ zfill 2 (day d).

(** Amounts.  A [numeric] column comes out of psycopg2 as a [Decimal], the
    scripts turn it into a Python [float], and the server turns the [float]
    back into a [numeric] on INSERT.  Binary floating point is not modelled:
    the two types and the conversions between them are left abstract. *)
Class Amounts : Type := {
  decimal : Type;
  pyfloat : Type;
  float_of_decimal : decimal -> pyfloat;
  numeric_of_float : pyfloat -> decimal;
  str_float : pyfloat -> string
}.

(** ** etl.batch_run *)

Record batch_run : Type := mkBatch {
  b_batch_id : Z;
  b_dataset : string;
  b_as_of_date : date;
  b_status : string
}.

#[global] Instance date_eq_dec : EqDecision date.
Proof. solve_decision. Defined.

(** [select batch_id from etl.batch_run where dataset = %s and as_of_date = %s
    and status = 'SUCCESS' order by batch_id desc limit 1], then
    [cur.fetchone()] *)
Definition success_batches (dataset : string) (as_of_date : date)
    (t : list batch_run) : list batch_run :=
  filter (fun b => b_dataset b = dataset /\ b_as_of_date b = as_of_date
                   /\ b_status b = "SUCCESS") t.

Definition select_latest_batch (dataset : string) (as_of_date : date)
    (t : list batch_run) : option Z :=
  match map b_batch_id (success_batches dataset as_of_date t) with
  | [] => None
  | x :: xs => Some (foldr Z.max x xs)
  end.

(** The command line: [--as-of] and [--batch-dataset].  The logical date
    that [args.as_of] denotes is passed along with it, where the script
    parses it with [strptime] and the server casts it in the batch query. *)
Record args : Type := mkArgs { as_of : string; batch_dataset : string }.

(** ** gold/apply_gold_salarie.py *)

Module Salarie.

(** The Python values that reach [md5_hash] in this script. *)
Inductive pyval : Type :=
| PNone
| PStr (s : string)
| PBool (b : bool).

(** [str(v)] *)
Definition str (v : pyval) : string :=
  match v with
  | PNone => "None"
  | PStr s => s
  | PBool true => "True"
  | PBool false => "False"
  end.

(** the local [s] of [md5_hash] *)
Definition joined (values : list pyval) : string :=
  join "||" (map (fun v => match v with PNone => "" | _ => str v end) values).

Definition md5_hash (values : list pyval) : string :=
  MD5.hexdigest (joined values).

(** A nullable text column as psycopg2 hands it over: [None] or a [str]. *)
Definition cell (x : option string) : pyval :=
  match x with
  | None => PNone
  | Some s => PStr s
  end.

(** A row of the view [silver.salarie]. *)
Record silver_salarie : Type := mkSilver {
  s_ref_salarie : option string;
  s_nni : option string;
  s_nom : option string;
  s_prenom : option string
}.

(** A row of [gold.salarie_histo]. *)
Record salarie_histo : Type := mkHisto {
  h_ref_salarie : string;
  h_nni : option string;
  h_nom : option string;
  h_prenom : option string;
  h_valid_from : date;
  h_valid_to : date;
  h_is_current : bool;
  h_is_deleted : bool;
  h_record_hash : string;
  h_batch_id : Z
}.

Record db : Type := mkDb {
  etl_batch_run : list batch_run;
  silver_salarie_view : list silver_salarie;
  gold_salarie_histo : list salarie_histo
}.

(** The write statements of the script. *)
Inductive stmt : Type :=
| Close (ref_salarie : string) (as_of_date : date)
| Insert (v : salarie_histo).

(** The dict that [insert_version] receives: a value of [silver], or [tomb]. *)
Record row : Type := mkRow {
  ref_salarie : string;
  nni : option string;
  nom : option string;
  prenom : option string
}.

(** A value of the dict [gold_current]. *)
Record current : Type := mkCurrent {
  g_nni : option string;
  g_nom : option string;
  g_prenom : option string;
  g_record_hash : string;
  g_is_deleted : bool
}.

Local Open Scope py_scope.

Definition get_latest_batch_id (dataset : string) (as_of : string)
    (as_of_date : date) : M db stmt Z :=
  row ← query (fun d => select_latest_batch dataset as_of_date (etl_batch_run d));
  match row with
  | None =>
      raise (RuntimeError
               ("No SUCCESS batch found in etl.batch_run for dataset=" ++ dataset
                ++ " as_of_date=" ++ as_of))
  | Some b => ret b
  end.

(** the loop [out = {}; for ... in rows: out[str(ref_salarie)] = {...}] of
    [fetch_silver_salarie] *)
Definition silver_dict (rows : list silver_salarie) : gmap string row :=
  foldl (fun out r =>
           <[ str (cell (s_ref_salarie r)) :=
                mkRow (str (cell (s_ref_salarie r)))
                      (Some (str (cell (s_nni r))))
                      (Some (str (cell (s_nom r))))
                      (Some (str (cell (s_prenom r)))) ]> out)
        ∅ rows.

Definition fetch_silver_salarie : M db stmt (gmap string row) :=
  rows ← query silver_salarie_view;
  ret (silver_dict rows).

(** [select ... from gold.salarie_histo where is_current = true].  A table
    is the list of its rows: a query returns them in the order of the list,
    an UPDATE changes a row in place and an INSERT appends one.  The key
    column [ref_salarie] is a text that is not NULL, so that [str] leaves it
    as it is in [fetch_gold_current]. *)
Definition select_current (d : db) : list salarie_histo :=
  filter (fun r => h_is_current r = true) (gold_salarie_histo d).

(** the loop [out = {}; for ... in rows: out[str(ref_salarie)] = {...}] of
    [fetch_gold_current] *)
Definition current_dict (rows : list salarie_histo) : gmap string current :=
  foldl (fun out r =>
           <[ h_ref_salarie r :=
                mkCurrent (h_nni r) (h_nom r) (h_prenom r)
                          (h_record_hash r) (h_is_deleted r) ]> out)
        ∅ rows.

Definition fetch_gold_current : M db stmt (gmap string current) :=
  rows ← query select_current;
  ret (current_dict rows).

(** the effect of the UPDATE of [close_current] on one row *)
Definition close_row (ref : string) (as_of_date : date)
    (r : salarie_histo) : salarie_histo :=
  if bool_decide (h_ref_salarie r = ref) && h_is_current r
  then mkHisto (h_ref_salarie r) (h_nni r) (h_nom r) (h_prenom r)
               (h_valid_from r) as_of_date false (h_is_deleted r)
               (h_record_hash r) (h_batch_id r)
  else r.

Definition set_histo (d : db) (t : list salarie_histo) : db :=
  mkDb (etl_batch_run d) (silver_salarie_view d) t.

Definition close_current (ref : string) (as_of_date : date) : M db stmt unit :=
  exec (Close ref as_of_date)
       (fun d => set_histo d (map (close_row ref as_of_date) (gold_salarie_histo d))).

(** the row written by the INSERT of [insert_version] *)
Definition new_version (r : row) (as_of_date : date) (batch_id : Z)
    (is_deleted : bool) : salarie_histo :=
  let record_hash :=
    md5_hash [cell (nni r); cell (nom r); cell (prenom r); PBool is_deleted] in
  mkHisto (ref_salarie r) (nni r) (nom r) (prenom r)
          as_of_date open_end true is_deleted record_hash batch_id.

Definition insert_version (r : row) (as_of_date : date) (batch_id : Z)
    (is_deleted : bool) : M db stmt unit :=
  let v := new_version r as_of_date batch_id is_deleted in
  exec (Insert v) (fun d => set_histo d (gold_salarie_histo d ++ [v])).

(** body of the loop [for ref in silver_keys] *)
Definition upsert (silver : gmap string row) (gold_current : gmap string current)
    (as_of_date : date) (batch_id : Z) (ref : string) : M db stmt unit :=
  match silver !! ref with
  | None => raise (KeyError ref)
  | Some r =>
      let new_hash := md5_hash [cell (nni r); cell (nom r); cell (prenom r); PBool false] in
      match gold_current !! ref with
      | None => insert_version r as_of_date batch_id false
      | Some g =>
          if negb (bool_decide (g_record_hash g = new_hash)) || g_is_deleted g
          then close_current ref as_of_date ;;
               insert_version r as_of_date batch_id false
          else ret tt
      end
  end.

(** body of the loop [for ref in deleted_refs] *)
Definition tombstone (gold_current : gmap string current)
    (as_of_date : date) (batch_id : Z) (ref : string) : M db stmt unit :=
  match gold_current !! ref with
  | None => raise (KeyError ref)
  | Some g =>
      if negb (g_is_deleted g)
      then close_current ref as_of_date ;;
           let tomb := mkRow ref (g_nni g) (g_nom g) (g_prenom g) in
           insert_version tomb as_of_date batch_id true
      else ret tt
  end.

(** the body of the [try] block of [main] *)
Definition main_try (a : args) (as_of_date : date) : M db stmt unit :=
  batch_id ← get_latest_batch_id (batch_dataset a) (as_of a) as_of_date;
  silver ← fetch_silver_salarie;
  gold_current ← fetch_gold_current;
  let silver_keys : gset string := dom silver in
  let gold_keys : gset string := dom gold_current in
  for_each (elements silver_keys) (upsert silver gold_current as_of_date batch_id) ;;
  let deleted_refs := gold_keys ∖ silver_keys in
  for_each (elements deleted_refs) (tombstone gold_current as_of_date batch_id) ;;
  commit.

Definition main (a : args) (as_of_date : date) (oracle : nat -> bool) (d : db)
    : res unit * db * list stmt :=
  try_run (main_try a as_of_date) (get_conn oracle d).

End Salarie.

(** ** gold/apply_gold_paiement.py *)

Module Paiement.
Section WithAmounts.
Context `{Amounts}.

Inductive pyval : Type :=
| PNone
| PStr (s : string)
| PBool (b : bool)
| PFloat (x : pyfloat)
| PDate (d : date).

Definition str (v : pyval) : string :=
  match v with
  | PNone => "None"
  | PStr s => s
  | PBool true => "True"
  | PBool false => "False"
  | PFloat x => str_float x
  | PDate d => isoformat d
  end.

Definition joined (values : list pyval) : string :=
  join "||" (map (fun v => match v with PNone => "" | _ => str v end) values).

Definition md5_hash (values : list pyval) : string :=
  MD5.hexdigest (joined values).

Definition cell (x : option string) : pyval :=
  match x with None => PNone | Some s => PStr s end.

Definition cell_float (x : option pyfloat) : pyval :=
  match x with None => PNone | Some f => PFloat f end.

Definition cell_date (x : option date) : pyval :=
  match x with None => PNone | Some d => PDate d end.

(** [float(x)] on what a [numeric] column holds *)
Definition float {DB Stmt} (x : option decimal) : M DB Stmt pyfloat :=
  match x with
  | None =>
      raise (TypeError
               "float() argument must be a string or a real number, not 'NoneType'")
  | Some n => ret (float_of_decimal n)
  end.

(** A row of the view [silver.paiement]. *)
Record silver_paiement : Type := mkSilver {
  s_ref_paiement : option string;
  s_ref_salarie : option string;
  s_montant_paye : option decimal;
  s_rib_salarie : option string;
  s_date_paiement : option date;
  s_ref_demande_avance : option string
}.

(** A row of [gold.paiement_histo]. *)
Record paiement_histo : Type := mkHisto {
  h_ref_paiement : string;
  h_ref_salarie : option string;
  h_montant_paye : option decimal;
  h_rib_salarie : option string;
  h_date_paiement : option date;
  h_ref_demande_avance : option string;
  h_valid_from : date;
  h_valid_to : date;
  h_is_current : bool;
  h_is_deleted : bool;
  h_record_hash : string;
  h_batch_id : Z
}.

Record db : Type := mkDb {
  etl_batch_run : list batch_run;
  silver_paiement_view : list silver_paiement;
  gold_paiement_histo : list paiement_histo
}.

Inductive stmt : Type :=
| Close (ref_paiement : string) (as_of_date : date)
| Insert (v : paiement_histo).

(** The dict that [insert_version] receives. *)
Record row : Type := mkRow {
  ref_paiement : string;
  ref_salarie : option string;
  montant_paye : option pyfloat;
  rib_salarie : option string;
  date_paiement : option date;
  ref_demande_avance : option string
}.

(** A value of the dict [gold_current]. *)
Record current : Type := mkCurrent {
  g_ref_salarie : option string;
  g_montant_paye : option decimal;
  g_rib_salarie : option string;
  g_date_paiement : option date;
  g_ref_demande_avance : option string;
  g_record_hash : string;
  g_is_deleted : bool
}.

Local Open Scope py_scope.

Definition get_latest_batch_id (dataset : string) (as_of : string)
    (as_of_date : date) : M db stmt Z :=
  row ← query (fun d => select_latest_batch dataset as_of_date (etl_batch_run d));
  match row with
  | None =>
      raise (RuntimeError
               ("No SUCCESS batch found for dataset=" ++ dataset
                ++ " as_of_date=" ++ as_of))
  | Some b => ret b
  end.

Definition silver_dict (rows : list silver_paiement) : gmap string row :=
  foldl (fun out r =>
           <[ str (cell (s_ref_paiement r)) :=
                mkRow (str (cell (s_ref_paiement r)))
                      (Some (str (cell (s_ref_salarie r))))
                      (float_of_decimal <$> s_montant_paye r)
                      (Some (str (cell (s_rib_salarie r))))
                      (s_date_paiement r)
                      (Some (str (cell (s_ref_demande_avance r)))) ]> out)
        ∅ rows.

Definition fetch_silver_paiement : M db stmt (gmap string row) :=
  rows ← query silver_paiement_view;
  ret (silver_dict rows).

Definition select_current (d : db) : list paiement_histo :=
  filter (fun r => h_is_current r = true) (gold_paiement_histo d).

Definition current_dict (rows : list paiement_histo) : gmap string current :=
  foldl (fun out r =>
           <[ h_ref_paiement r :=
                mkCurrent (h_ref_salarie r) (h_montant_paye r) (h_rib_salarie r)
                          (h_date_paiement r) (h_ref_demande_avance r)
                          (h_record_hash r) (h_is_deleted r) ]> out)
        ∅ rows.

Definition fetch_gold_current : M db stmt (gmap string current) :=
  rows ← query select_current;
  ret (current_dict rows).

Definition close_row (ref : string) (as_of_date : date)
    (r : paiement_histo) : paiement_histo :=
  if bool_decide (h_ref_paiement r = ref) && h_is_current r
  then mkHisto (h_ref_paiement r) (h_ref_salarie r) (h_montant_paye r)
               (h_rib_salarie r) (h_date_paiement r) (h_ref_demande_avance r)
               (h_valid_from r) as_of_date false (h_is_deleted r)
               (h_record_hash r) (h_batch_id r)
  else r.

Definition set_histo (d : db) (t : list paiement_histo) : db :=
  mkDb (etl_batch_run d) (silver_paiement_view d) t.

Definition close_current (ref : string) (as_of_date : date) : M db stmt unit :=
  exec (Close ref as_of_date)
       (fun d => set_histo d (map (close_row ref as_of_date) (gold_paiement_histo d))).

Definition hashed (r : row) (is_deleted : bool) : list pyval :=
  [cell (ref_salarie r); cell_float (montant_paye r); cell (rib_salarie r);
   cell_date (date_paiement r); cell (ref_demande_avance r); PBool is_deleted].

Definition new_version (r : row) (as_of_date : date) (batch_id : Z)
    (is_deleted : bool) : paiement_histo :=
  let record_hash := md5_hash (hashed r is_deleted) in
  mkHisto (ref_paiement r) (ref_salarie r)
          (numeric_of_float <$> montant_paye r) (rib_salarie r)
          (date_paiement r) (ref_demande_avance r)
          as_of_date open_end true is_deleted record_hash batch_id.

Definition insert_version (r : row) (as_of_date : date) (batch_id : Z)
    (is_deleted : bool) : M db stmt unit :=
  let v := new_version r as_of_date batch_id is_deleted in
  exec (Insert v) (fun d => set_histo d (gold_paiement_histo d ++ [v])).

(** body of the loop [for ref in silver_keys] *)
Definition upsert (silver : gmap string row) (gold_current : gmap string current)
    (as_of_date : date) (batch_id : Z) (ref : string) : M db stmt unit :=
  match silver !! ref with
  | None => raise (KeyError ref)
  | Some r =>
      let new_hash := md5_hash (hashed r false) in
      match gold_current !! ref with
      | None => insert_version r as_of_date batch_id false
      | Some g =>
          if negb (bool_decide (g_record_hash g = new_hash)) || g_is_deleted g
          then close_current ref as_of_date ;;
               insert_version r as_of_date batch_id false
          else ret tt
      end
  end.

(** body of the loop [for ref in deleted_refs] *)
Definition tombstone (gold_current : gmap string current)
    (as_of_date : date) (batch_id : Z) (ref : string) : M db stmt unit :=
  match gold_current !! ref with
  | None => raise (KeyError ref)
  | Some g =>
      if negb (g_is_deleted g)
      then close_current ref as_of_date ;;
           montant ← float (g_montant_paye g);
           let tomb :=
             mkRow ref
                   (Some (str (cell (g_ref_salarie g))))
                   (Some montant)
                   (Some (str (cell (g_rib_salarie g))))
                   (g_date_paiement g)
                   (Some (str (cell (g_ref_demande_avance g)))) in
           insert_version tomb as_of_date batch_id true
      else ret tt
  end.

Definition main_try (a : args) (as_of_date : date) : M db stmt unit :=
  batch_id ← get_latest_batch_id (batch_dataset a) (as_of a) as_of_date;
  silver ← fetch_silver_paiement;
  gold_current ← fetch_gold_current;
  let silver_keys : gset string := dom silver in
  let gold_keys : gset string := dom gold_current in
  for_each (elements silver_keys) (upsert silver gold_current as_of_date batch_id) ;;
  let deleted_refs := gold_keys ∖ silver_keys in
  for_each (elements deleted_refs) (tombstone gold_current as_of_date batch_id) ;;
  commit.

Definition main (a : args) (as_of_date : date) (oracle : nat -> bool) (d : db)
    : res unit * db * list stmt :=
  try_run (main_try a as_of_date) (get_conn oracle d).
End WithAmounts.
End Paiement.

(** ** apply_gold_demande_avance.py (the request enriched with its payment) *)

Module DemandeAvance.
Section WithAmounts.
Context `{Amounts}.

Inductive pyval : Type :=
| PNone
| PStr (s : string)
| PBool (b : bool)
| PFloat (x : pyfloat)
| PDate (d : date).

Definition str (v : pyval) : string :=
  match v with
  | PNone => "None"
  | PStr s => s
  | PBool true => "True"
  | PBool false => "False"
  | PFloat x => str_float x
  | PDate d => isoformat d
  end.

Definition joined (values : list pyval) : string :=
  join "||" (map (fun v => match v with PNone => "" | _ => str v end) values).

Definition md5_hash (values : list pyval) : string :=
  MD5.hexdigest (joined values).

Definition cell (x : option string) : pyval :=
  match x with None => PNone | Some s => PStr s end.

Definition cell_float (x : option pyfloat) : pyval :=
  match x with None => PNone | Some f => PFloat f end.

Definition cell_date (x : option date) : pyval :=
  match x with None => PNone | Some d => PDate d end.

(** [float(x)] on what a [numeric] column holds *)
Definition float {DB Stmt} (x : option decimal) : M DB Stmt pyfloat :=
  match x with
  | None =>
      raise (TypeError
               "float() argument must be a string or a real number, not 'NoneType'")
  | Some n => ret (float_of_decimal n)
  end.

(** Rows of the views [silver.demande_avance] and [silver.paiement]. *)
Record silver_demande_avance : Type := mkDemande {
  d_ref_demande_avance : option string;
  d_ref_salarie : option string;
  d_montant_demande : option decimal
}.

Record silver_paiement : Type := mkPaiement {
  p_ref_paiement : option string;
  p_montant_paye : option decimal;
  p_date_paiement : option date;
  p_ref_demande_avance : option string
}.

(** A row of the join of [fetch_silver_demande_with_paiement]. *)
Record joined_row : Type := mkJoined {
  j_ref_demande_avance : option string;
  j_ref_salarie : option string;
  j_montant_demande : option decimal;
  j_montant_paye : option decimal;
  j_date_paiement : option date;
  j_ref_paiement : option string
}.

(** A row of [gold.demande_avance_histo]. *)
Record demande_avance_histo : Type := mkHisto {
  h_ref_demande_avance : string;
  h_ref_salarie : option string;
  h_montant_demande : option decimal;
  h_montant_paye : option decimal;
  h_date_paiement : option date;
  h_ref_paiement : option string;
  h_valid_from : date;
  h_valid_to : date;
  h_is_current : bool;
  h_is_deleted : bool;
  h_record_hash : string;
  h_batch_id : Z
}.

Record db : Type := mkDb {
  etl_batch_run : list batch_run;
  silver_demande_avance_view : list silver_demande_avance;
  silver_paiement_view : list silver_paiement;
  gold_demande_avance_histo : list demande_avance_histo
}.

Inductive stmt : Type :=
| Close (ref_demande_avance : string) (as_of_date : date)
| Insert (v : demande_avance_histo).

(** The dict that [insert_version] receives. *)
Record row : Type := mkRow {
  ref_demande_avance : string;
  ref_salarie : option string;
  montant_demande : option pyfloat;
  montant_paye : option pyfloat;
  date_paiement : option date;
  ref_paiement : option string
}.

(** A value of the dict [gold_current]. *)
Record current : Type := mkCurrent {
  g_ref_salarie : option string;
  g_montant_demande : option decimal;
  g_montant_paye : option decimal;
  g_date_paiement : option date;
  g_ref_paiement : option string;
  g_record_hash : string;
  g_is_deleted : bool
}.

Local Open Scope py_scope.

Definition get_latest_batch_id (dataset : string) (as_of : string)
    (as_of_date : date) : M db stmt Z :=
  row ← query (fun d => select_latest_batch dataset as_of_date (etl_batch_run d));
  match row with
  | None =>
      raise (RuntimeError
               ("No SUCCESS batch found for dataset=" ++ dataset
                ++ " as_of_date=" ++ as_of))
  | Some b => ret b
  end.

(** [silver.demande_avance d left join silver.paiement p
    on p.ref_demande_avance = d.ref_demande_avance]; a NULL never matches. *)
Definition select_demande_with_paiement (d : db) : list joined_row :=
  silver_demande_avance_view d ≫= fun dem =>
    match filter (fun p => p_ref_demande_avance p = d_ref_demande_avance dem
                           /\ is_Some (d_ref_demande_avance dem))
                 (silver_paiement_view d) with
    | [] => [mkJoined (d_ref_demande_avance dem) (d_ref_salarie dem)
                      (d_montant_demande dem) None None None]
    | ps => map (fun p => mkJoined (d_ref_demande_avance dem) (d_ref_salarie dem)
                            (d_montant_demande dem) (p_montant_paye p)
                            (p_date_paiement p) (p_ref_paiement p)) ps
    end.

Definition silver_dict (rows : list joined_row) : gmap string row :=
  foldl (fun out r =>
           <[ str (cell (j_ref_demande_avance r)) :=
                mkRow (str (cell (j_ref_demande_avance r)))
                      (Some (str (cell (j_ref_salarie r))))
                      (float_of_decimal <$> j_montant_demande r)
                      (float_of_decimal <$> j_montant_paye r)
                      (j_date_paiement r)
                      (match j_ref_paiement r with
                       | Some x => Some (str (cell (Some x)))
                       | None => None
                       end) ]> out)
        ∅ rows.

Definition fetch_silver_demande_with_paiement : M db stmt (gmap string row) :=
  rows ← query select_demande_with_paiement;
  ret (silver_dict rows).

Definition select_current (d : db) : list demande_avance_histo :=
  filter (fun r => h_is_current r = true) (gold_demande_avance_histo d).

Definition current_dict (rows : list demande_avance_histo) : gmap string current :=
  foldl (fun out r =>
           <[ h_ref_demande_avance r :=
                mkCurrent (h_ref_salarie r) (h_montant_demande r)
                          (h_montant_paye r) (h_date_paiement r)
                          (h_ref_paiement r) (h_record_hash r)
                          (h_is_deleted r) ]> out)
        ∅ rows.

Definition fetch_gold_current : M db stmt (gmap string current) :=
  rows ← query select_current;
  ret (current_dict rows).

Definition close_row (ref : string) (as_of_date : date)
    (r : demande_avance_histo) : demande_avance_histo :=
  if bool_decide (h_ref_demande_avance r = ref) && h_is_current r
  then mkHisto (h_ref_demande_avance r) (h_ref_salarie r) (h_montant_demande r)
               (h_montant_paye r) (h_date_paiement r) (h_ref_paiement r)
               (h_valid_from r) as_of_date false (h_is_deleted r)
               (h_record_hash r) (h_batch_id r)
  else r.

Definition set_histo (d : db) (t : list demande_avance_histo) : db :=
  mkDb (etl_batch_run d) (silver_demande_avance_view d) (silver_paiement_view d) t.

Definition close_current (ref : string) (as_of_date : date) : M db stmt unit :=
  exec (Close ref as_of_date)
       (fun d => set_histo d (map (close_row ref as_of_date)
                                  (gold_demande_avance_histo d))).

Definition hashed (r : row) (is_deleted : bool) : list pyval :=
  [cell (ref_salarie r); cell_float (montant_demande r);
   cell_float (montant_paye r); cell_date (date_paiement r);
   cell (ref_paiement r); PBool is_deleted].

Definition new_version (r : row) (as_of_date : date) (batch_id : Z)
    (is_deleted : bool) : demande_avance_histo :=
  let record_hash := md5_hash (hashed r is_deleted) in
  mkHisto (ref_demande_avance r) (ref_salarie r)
          (numeric_of_float <$> montant_demande r)
          (numeric_of_float <$> montant_paye r)
          (date_paiement r) (ref_paiement r)
          as_of_date open_end true is_deleted record_hash batch_id.

Definition insert_version (r : row) (as_of_date : date) (batch_id : Z)
    (is_deleted : bool) : M db stmt unit :=
  let v := new_version r as_of_date batch_id is_deleted in
  exec (Insert v) (fun d => set_histo d (gold_demande_avance_histo d ++ [v])).

(** body of the loop [for rda in silver_keys] *)
Definition upsert (silver : gmap string row) (gold_current : gmap string current)
    (as_of_date : date) (batch_id : Z) (rda : string) : M db stmt unit :=
  match silver !! rda with
  | None => raise (KeyError rda)
  | Some r =>
      let new_hash := md5_hash (hashed r false) in
      match gold_current !! rda with
      | None => insert_version r as_of_date batch_id false
      | Some g =>
          if negb (bool_decide (g_record_hash g = new_hash)) || g_is_deleted g
          then close_current rda as_of_date ;;
               insert_version r as_of_date batch_id false
          else ret tt
      end
  end.

(** body of the loop [for rda in deleted_rda] *)
Definition tombstone (gold_current : gmap string current)
    (as_of_date : date) (batch_id : Z) (rda : string) : M db stmt unit :=
  match gold_current !! rda with
  | None => raise (KeyError rda)
  | Some g =>
      if negb (g_is_deleted g)
      then close_current rda as_of_date ;;
           demande ← float (g_montant_demande g);
           paye ← match g_montant_paye g with
                  | Some x => p ← float (Some x); ret (Some p)
                  | None => ret None
                  end;
           let tomb :=
             mkRow rda
                   (Some (str (cell (g_ref_salarie g))))
                   (Some demande)
                   paye
                   (g_date_paiement g)
                   (match g_ref_paiement g with
                    | Some x => Some (str (cell (Some x)))
                    | None => None
                    end) in
           insert_version tomb as_of_date batch_id true
      else ret tt
  end.

Definition main_try (a : args) (as_of_date : date) : M db stmt unit :=
  batch_id ← get_latest_batch_id (batch_dataset a) (as_of a) as_of_date;
  silver ← fetch_silver_demande_with_paiement;
  gold_current ← fetch_gold_current;
  let silver_keys : gset string := dom silver in
  let gold_keys : gset string := dom gold_current in
  for_each (elements silver_keys) (upsert silver gold_current as_of_date batch_id) ;;
  let deleted_rda := gold_keys ∖ silver_keys in
  for_each (elements deleted_rda) (tombstone gold_current as_of_date batch_id) ;;
  commit.

Definition main (a : args) (as_of_date : date) (oracle : nat -> bool) (d : db)
    : res unit * db * list stmt :=
  try_run (main_try a as_of_date) (get_conn oracle d).
End WithAmounts.
End DemandeAvance.

(** ** Vocabulary of the properties *)

Section SalarieVocabulary.
Import Salarie.

(** the key a write statement is about *)
Definition stmt_key (w : stmt) : string :=
  match w with
  | Close ref _ => ref
  | Insert v => h_ref_salarie v
  end.

(** the statements of a run that are about key [k], in order *)
Definition about (k : string) (l : list stmt) : list stmt :=
  filter (fun w => stmt_key w = k) l.

(** what a write statement does to the history table *)
Definition apply_stmt (t : list salarie_histo) (w : stmt) : list salarie_histo :=
  match w with
  | Close ref as_of_date => map (close_row ref as_of_date) t
  | Insert v => t ++ [v]
  end.

Definition apply_stmts (t : list salarie_histo) (l : list stmt)
    : list salarie_histo :=
  foldl apply_stmt t l.

(** the versions of key [k], and the current ones among them *)
Definition versions_of (k : string) (t : list salarie_histo) : list salarie_histo :=
  filter (fun r => h_ref_salarie r = k) t.

Definition current_of (k : string) (t : list salarie_histo) : list salarie_histo :=
  filter (fun r => h_is_current r = true) (versions_of k t).

(** the value of [gold_current] that a row of the table gives *)
Definition to_current (r : salarie_histo) : current :=
  mkCurrent (h_nni r) (h_nom r) (h_prenom r) (h_record_hash r) (h_is_deleted r).

(** Invariant I1: at most one current row per key. *)
Definition I1 (t : list salarie_histo) : Prop :=
  forall k, (length (current_of k t) <= 1)%nat.

(** Two rows that agree on everything but [valid_to] and [is_current]. *)
Definition same_version (r r' : salarie_histo) : Prop :=
  h_ref_salarie r' = h_ref_salarie r /\ h_nni r' = h_nni r
  /\ h_nom r' = h_nom r /\ h_prenom r' = h_prenom r
  /\ h_valid_from r' = h_valid_from r /\ h_is_deleted r' = h_is_deleted r
  /\ h_record_hash r' = h_record_hash r /\ h_batch_id r' = h_batch_id r.

(** [t'] is [t] with some rows closed in place and some rows appended. *)
Definition only_closes_and_appends (t t' : list salarie_histo) : Prop :=
  exists kept added, t' = (kept ++ added)%list /\ Forall2 same_version t kept.

(** the rows of [etl.batch_run] that the batch query selects from *)
Definition success_batch (a : args) (as_of_date : date) (b : batch_run) : Prop :=
  b_dataset b = batch_dataset a /\ b_as_of_date b = as_of_date
  /\ b_status b = "SUCCESS".

(** the statements of the two loops of [main], as decided from the dicts *)
Definition upsert_plan (silver : gmap string row)
    (gold_current : gmap string current) (as_of_date : date) (batch_id : Z)
    (ref : string) : list stmt :=
  match silver !! ref with
  | None => []
  | Some r =>
      match gold_current !! ref with
      | None => [Insert (new_version r as_of_date batch_id false)]
      | Some g =>
          if negb (bool_decide
                     (g_record_hash g
                      = md5_hash [cell (nni r); cell (nom r); cell (prenom r);
                                  PBool false]))
             || g_is_deleted g
          then [Close ref as_of_date;
                Insert (new_version r as_of_date batch_id false)]
          else []
      end
  end.

Definition tombstone_plan (gold_current : gmap string current)
    (as_of_date : date) (batch_id : Z) (ref : string) : list stmt :=
  match gold_current !! ref with
  | None => []
  | Some g =>
      if negb (g_is_deleted g)
      then [Close ref as_of_date;
            Insert (new_version (mkRow ref (g_nni g) (g_nom g) (g_prenom g))
                                as_of_date batch_id true)]
      else []
  end.

Definition run_plan (silver : gmap string row)
    (gold_current : gmap string current) (as_of_date : date) (batch_id : Z)
    : list stmt :=
  (elements (dom silver) ≫= upsert_plan silver gold_current as_of_date batch_id)
  ++ (elements (dom gold_current ∖ dom silver)
        ≫= tombstone_plan gold_current as_of_date batch_id).

(** [m] leaves the committed state alone, and executes on the pending one
    the statements of [plan]: all of them when it returns, the first ones
    of them when a storage failure interrupts it. *)
Definition emits (m : M db stmt unit) (plan : list stmt) : Prop :=
  forall c r c', m c = (r, c') ->
    committed c' = committed c /\ outage c' = outage c
    /\ exists done,
         issued c' = (issued c ++ done)%list
         /\ pending c' = set_histo (pending c)
                           (apply_stmts (gold_salarie_histo (pending c)) done)
         /\ match r with
            | Ok _ => done = plan
            | Raise e =>
                e = OperationalError /\ done `prefix_of` plan
                /\ exists n, outage c n = true
            end.

(** a string without the character of the separator of [md5_hash] *)
Fixpoint no_bar (s : string) : bool :=
  match s with
  | EmptyString => true
  | String c s' => negb (Ascii.eqb c "|") && no_bar s'
  end.

Definition separator_free (x : option string) : Prop :=
  no_bar (default "" x) = true.

(** two values of a nullable text column that are equal, or NULL and the
    empty string *)
Definition same_up_to_null (x y : option string) : Prop :=
  x = y \/ (x = None /\ y = Some "") \/ (x = Some "" /\ y = None).
End SalarieVocabulary.

(** ** Sample data *)

Definition day1 : date := mkDate 2024 1 1.
Definition day2 : date := mkDate 2024 1 2.

Module SalarieSample.
Import Salarie.

Definition cli : args := mkArgs "2024-01-01" "salarie".

Definition batches : list batch_run :=
  [ mkBatch 3 "salarie" day1 "SUCCESS";
    mkBatch 7 "salarie" day1 "SUCCESS";
    mkBatch 9 "salarie" day1 "FAILED";
    mkBatch 8 "paiement" day1 "SUCCESS" ].

(** S1 has changed, S2 is new, S3 has disappeared, S4 is unchanged, S5 was
    deleted before and S6 comes back. *)
Definition snapshot : list silver_salarie :=
  [ mkSilver (Some "S1") (Some "1001") (Some "Dupont") (Some "Jeanne");
    mkSilver (Some "S2") (Some "1002") (Some "Martin") None;
    mkSilver (Some "S4") (Some "1004") (Some "Petit") (Some "Luc");
    mkSilver (Some "S6") (Some "1006") (Some "Roux") (Some "Ines") ].

Definition history : list salarie_histo :=
  [ mkHisto "S1" (Some "1001") (Some "Dupont") (Some "Jean") (mkDate 2023 12 1)
            open_end true false
            (md5_hash [PStr "1001"; PStr "Dupont"; PStr "Jean"; PBool false]) 1;
    mkHisto "S3" (Some "1003") None (Some "Paul") (mkDate 2023 12 1)
            open_end true false
            (md5_hash [PStr "1003"; PNone; PStr "Paul"; PBool false]) 1;
    mkHisto "S4" (Some "1004") (Some "Petit") (Some "Luc") (mkDate 2023 12 1)
            open_end true false
            (md5_hash [PStr "1004"; PStr "Petit"; PStr "Luc"; PBool false]) 1;
    mkHisto "S5" (Some "1005") (Some "Moreau") (Some "Lea") (mkDate 2023 11 1)
            (mkDate 2023 12 1) false false
            (md5_hash [PStr "1005"; PStr "Moreau"; PStr "Lea"; PBool false]) 1;
    mkHisto "S5" (Some "1005") (Some "Moreau") (Some "Lea") (mkDate 2023 12 1)
            open_end true true
            (md5_hash [PStr "1005"; PStr "Moreau"; PStr "Lea"; PBool true]) 2;
    mkHisto "S6" (Some "1006") (Some "Roux") (Some "Ines") (mkDate 2023 12 1)
            open_end true true
            (md5_hash [PStr "1006"; PStr "Roux"; PStr "Ines"; PBool true]) 2 ].

Definition before : db := mkDb batches snapshot history.

(** the run of the sample on a healthy connection *)
Definition run : res unit * db * list stmt := main cli day1 healthy before.
Definition after : db := snd (fst run).
Definition stmts : list stmt := snd run.

(** the same database without a SUCCESS batch for the date *)
Definition unregistered : db :=
  mkDb [mkBatch 9 "salarie" day1 "FAILED"; mkBatch 8 "paiement" day1 "SUCCESS"]
       snapshot history.

(** a history that breaks I1: two current rows for S1 *)
Definition corrupted : db :=
  mkDb batches snapshot
       (mkHisto "S1" (Some "1001") (Some "Dupond") (Some "Jean") (mkDate 2023 11 1)
                open_end true false
                (md5_hash [PStr "1001"; PStr "Dupond"; PStr "Jean"; PBool false]) 1
        :: history).

(** a connection whose fifth round trip fails *)
Definition flaky : nat -> bool := fun n => Nat.eqb n 4.

(** the run of the sample on the flaky connection, and the run that follows
    the completed one *)
Definition broken : res unit * db * list stmt := main cli day1 flaky before.
Definition again : res unit * db * list stmt := main cli day1 healthy after.
End SalarieSample.

Module PaiementSample.
Section WithAmounts.
Context `{Amounts}.
Import Paiement.

Definition cli1 : args := mkArgs "2024-01-01" "paiement".
Definition cli2 : args := mkArgs "2024-01-02" "paiement".

Definition batches : list batch_run :=
  [mkBatch 1 "paiement" day1 "SUCCESS"; mkBatch 2 "paiement" day2 "SUCCESS"].

(** day 1: payment P1 arrives without amount; day 2: P1 is gone *)
Definition first_day : db :=
  mkDb batches
       [mkSilver (Some "P1") (Some "S1") None (Some "FR76") (Some day1) (Some "D1")]
       [].

Definition next_day (d : db) : db :=
  mkDb (etl_batch_run d) [] (gold_paiement_histo d).

(** a history holding a current version of P1 without amount *)
Definition stored : db :=
  mkDb batches []
       [mkHisto "P1" (Some "S1") None (Some "FR76") (Some day1) (Some "D1")
                day1 open_end true false "ab47d61e0ed3a27cb0757c5a98a3d1ee" 1].
End WithAmounts.
End PaiementSample.

Module DemandeAvanceSample.
Section WithAmounts.
Context `{Amounts}.
Import DemandeAvance.

Definition cli1 : args := mkArgs "2024-01-01" "demande_avance".
Definition cli2 : args := mkArgs "2024-01-02" "demande_avance".

Definition batches : list batch_run :=
  [mkBatch 1 "demande_avance" day1 "SUCCESS";
   mkBatch 2 "demande_avance" day2 "SUCCESS"].

(** day 1: request D1 arrives without amount and without payment; day 2:
    D1 is gone *)
Definition first_day : db :=
  mkDb batches [mkDemande (Some "D1") (Some "S1") None] [] [].

Definition next_day (d : db) : db :=
  mkDb (etl_batch_run d) [] [] (gold_demande_avance_histo d).
End WithAmounts.
End DemandeAvanceSample.

(** ** Further vocabulary for [salarie] *)

Section SalarieVocabulary2.
Import Salarie.

(** the value of [silver] that a row of the view gives *)
Definition silver_row_of (x : silver_salarie) : row :=
  mkRow (str (cell (s_ref_salarie x)))
        (Some (str (cell (s_nni x))))
        (Some (str (cell (s_nom x))))
        (Some (str (cell (s_prenom x)))).

(** the rows of the view that land on key [k] of [silver] *)
Definition silver_rows_of (k : string) (rows : list silver_salarie)
    : list silver_salarie :=
  filter (fun x => str (cell (s_ref_salarie x)) = k) rows.

(** a row once it has been closed at [as_of_date] *)
Definition closed_at (as_of_date : date) (v : salarie_histo) : salarie_histo :=
  mkHisto (h_ref_salarie v) (h_nni v) (h_nom v) (h_prenom v) (h_valid_from v)
          as_of_date false (h_is_deleted v) (h_record_hash v) (h_batch_id v).

(** what the write statements of a run do to one row of the table *)
Definition row_after (l : list stmt) (v : salarie_histo) : salarie_histo :=
  foldl (fun v w => match w with
                    | Close ref dd => close_row ref dd v
                    | Insert _ => v
                    end) v l.
End SalarieVocabulary2.

(** ** Vocabulary of the outcomes of a transaction *)

Section Outcomes.
Variables DB Stmt : Type.
Variable step : DB -> Stmt -> DB.

(** [m] leaves the committed state alone and runs write statements on the
    pending one; when it raises, the exception is [OperationalError] after a
    failed round trip, or one that [P] allows; when it returns, [Q] holds. *)
Definition proceeds {A} (P : exn -> Prop) (Q : Prop) (m : M DB Stmt A) : Prop :=
  forall c r c', m c = (r, c') ->
    committed c' = committed c /\ outage c' = outage c
    /\ (exists done, issued c' = (issued c ++ done)%list
                     /\ pending c' = foldl step (pending c) done)
    /\ match r with
       | Ok _ => Q
       | Raise e => (e = OperationalError /\ exists n, outage c n = true) \/ P e
       end.

(** [m] runs write statements and ends the transaction: it commits all of
    them when it returns, and none when it raises. *)
Definition transacts (P : exn -> Prop) (Q : Prop) (m : M DB Stmt unit) : Prop :=
  forall c r c', m c = (r, c') ->
    outage c' = outage c
    /\ exists done, issued c' = (issued c ++ done)%list
         /\ match r with
            | Ok _ => committed c' = foldl step (pending c) done /\ Q
            | Raise e =>
                committed c' = committed c
                /\ ((e = OperationalError /\ exists n, outage c n = true) \/ P e)
            end.
End Outcomes.

Arguments proceeds {DB Stmt} step {A} P Q m.
Arguments transacts {DB Stmt} step P Q m.

(** the exception of [float(None)] *)
Definition float_error : exn :=
  TypeError "float() argument must be a string or a real number, not 'NoneType'".

Section PaiementVocabulary.
Context `{Amounts}.
Import Paiement.

(** what a write statement does to the database *)
Definition paiement_step (d : db) (w : stmt) : db :=
  match w with
  | Close ref as_of_date =>
      set_histo d (map (close_row ref as_of_date) (gold_paiement_histo d))
  | Insert v => set_histo d (gold_paiement_histo d ++ [v])
  end.

(** a key whose tombstone cannot be built: it is absent from the snapshot,
    and its current version is not deleted and has no amount *)
Definition paiement_doomed (d : db) (k : string) : Prop :=
  silver_dict (silver_paiement_view d) !! k = None
  /\ exists g, current_dict (select_current d) !! k = Some g
               /\ g_is_deleted g = false /\ g_montant_paye g = None.
End PaiementVocabulary.

Section DemandeAvanceVocabulary.
Context `{Amounts}.
Import DemandeAvance.

Definition demande_step (d : db) (w : stmt) : db :=
  match w with
  | Close ref as_of_date =>
      set_histo d (map (close_row ref as_of_date) (gold_demande_avance_histo d))
  | Insert v => set_histo d (gold_demande_avance_histo d ++ [v])
  end.

Definition demande_doomed (d : db) (k : string) : Prop :=
  silver_dict (select_demande_with_paiement d) !! k = None
  /\ exists g, current_dict (select_current d) !! k = Some g
               /\ g_is_deleted g = false /\ g_montant_demande g = None.
End DemandeAvanceVocabulary.

(** An instance of [Amounts] to run the reconcilers on: an amount is
    represented by the text that prints it, on both sides. *)
Definition unit_amounts : Amounts :=
  {| decimal := string; pyfloat := string;
     float_of_decimal := fun x => x; numeric_of_float := fun x => x;
     str_float := fun x => x |}.

(** ** gold/apply_gold_demande_avance.py (the request alone) *)

Module DemandeOnly.
Section WithAmounts.
Context `{Amounts}.

Inductive pyval : Type :=
| PNone
| PStr (s : string)
| PBool (b : bool)
| PFloat (x : pyfloat).

Definition str (v : pyval) : string :=
  match v with
  | PNone => "None"
  | PStr s => s
  | PBool true => "True"
  | PBool false => "False"
  | PFloat x => str_float x
  end.

Definition joined (values : list pyval) : string :=
  join "||" (map (fun v => match v with PNone => "" | _ => str v end) values).

Definition md5_hash (values : list pyval) : string :=
  MD5.hexdigest (joined values).

Definition cell (x : option string) : pyval :=
  match x with None => PNone | Some s => PStr s end.

Definition cell_float (x : option pyfloat) : pyval :=
  match x with None => PNone | Some f => PFloat f end.

(** A row of the view [silver.demande_avance]. *)
Record silver_demande_avance : Type := mkSilver {
  s_ref_demande_avance : option string;
  s_ref_salarie : option string;
  s_montant_demande : option decimal
}.

(** A row of [gold.demande_avance_histo], with the columns this script
    names. *)
Record demande_avance_histo : Type := mkHisto {
  h_ref_demande_avance : string;
  h_ref_salarie : option string;
  h_montant_demande : option decimal;
  h_valid_from : date;
  h_valid_to : date;
  h_is_current : bool;
  h_is_deleted : bool;
  h_record_hash : string;
  h_batch_id : Z
}.

Record db : Type := mkDb {
  etl_batch_run : list batch_run;
  silver_demande_avance_view : list silver_demande_avance;
  gold_demande_avance_histo : list demande_avance_histo
}.

Inductive stmt : Type :=
| Close (ref_demande_avance : string) (as_of_date : date)
| Insert (v : demande_avance_histo).

(** The dict that [insert_version] receives: a value of [silver], or [tomb]. *)
Record row : Type := mkRow {
  ref_demande_avance : string;
  ref_salarie : option string;
  montant_demande : option pyfloat
}.

(** A value of the dict [gold_current]: here the loader has already applied
    [str] and [float] to the columns. *)
Record current : Type := mkCurrent {
  g_ref_salarie : string;
  g_montant_demande : option pyfloat;
  g_record_hash : string;
  g_is_deleted : bool
}.

Local Open Scope py_scope.

Definition get_latest_batch_id (dataset : string) (as_of : string)
    (as_of_date : date) : M db stmt Z :=
  row ← query (fun d => select_latest_batch dataset as_of_date (etl_batch_run d));
  match row with
  | None =>
      raise (RuntimeError
               ("No SUCCESS batch found for dataset=" ++ dataset
                ++ " as_of_date=" ++ as_of))
  | Some b => ret b
  end.

Definition silver_dict (rows : list silver_demande_avance) : gmap string row :=
  foldl (fun out r =>
           <[ str (cell (s_ref_demande_avance r)) :=
                mkRow (str (cell (s_ref_demande_avance r)))
                      (Some (str (cell (s_ref_salarie r))))
                      (float_of_decimal <$> s_montant_demande r) ]> out)
        ∅ rows.

Definition fetch_silver_demande : M db stmt (gmap string row) :=
  rows ← query silver_demande_avance_view;
  ret (silver_dict rows).

Definition select_current (d : db) : list demande_avance_histo :=
  filter (fun r => h_is_current r = true) (gold_demande_avance_histo d).

Definition current_dict (rows : list demande_avance_histo) : gmap string current :=
  foldl (fun out r =>
           <[ h_ref_demande_avance r :=
                mkCurrent (str (cell (h_ref_salarie r)))
                          (float_of_decimal <$> h_montant_demande r)
                          (h_record_hash r) (h_is_deleted r) ]> out)
        ∅ rows.

Definition fetch_gold_current : M db stmt (gmap string current) :=
  rows ← query select_current;
  ret (current_dict rows).

Definition close_row (ref : string) (as_of_date : date)
    (r : demande_avance_histo) : demande_avance_histo :=
  if bool_decide (h_ref_demande_avance r = ref) && h_is_current r
  then mkHisto (h_ref_demande_avance r) (h_ref_salarie r) (h_montant_demande r)
               (h_valid_from r) as_of_date false (h_is_deleted r)
               (h_record_hash r) (h_batch_id r)
  else r.

Definition set_histo (d : db) (t : list demande_avance_histo) : db :=
  mkDb (etl_batch_run d) (silver_demande_avance_view d) t.

Definition close_current (ref : string) (as_of_date : date) : M db stmt unit :=
  exec (Close ref as_of_date)
       (fun d => set_histo d (map (close_row ref as_of_date)
                                  (gold_demande_avance_histo d))).

Definition compute_hash (r : row) (is_deleted : bool) : string :=
  md5_hash [cell (ref_salarie r); cell_float (montant_demande r); PBool is_deleted].

Definition new_version (r : row) (as_of_date : date) (batch_id : Z)
    (is_deleted : bool) : demande_avance_histo :=
  let record_hash := compute_hash r is_deleted in
  mkHisto (ref_demande_avance r) (ref_salarie r)
          (numeric_of_float <$> montant_demande r)
          as_of_date open_end true is_deleted record_hash batch_id.

Definition insert_version (r : row) (as_of_date : date) (batch_id : Z)
    (is_deleted : bool) : M db stmt unit :=
  let v := new_version r as_of_date batch_id is_deleted in
  exec (Insert v) (fun d => set_histo d (gold_demande_avance_histo d ++ [v])).

(** body of the loop [for rda, row in silver.items()] *)
Definition upsert (gold_current : gmap string current)
    (as_of_date : date) (batch_id : Z) (item : string * row) : M db stmt unit :=
  let '(rda, r) := item in
  let new_hash := compute_hash r false in
  match gold_current !! rda with
  | None => insert_version r as_of_date batch_id false
  | Some g =>
      if negb (bool_decide (g_record_hash g = new_hash)) || g_is_deleted g
      then close_current rda as_of_date ;;
           insert_version r as_of_date batch_id false
      else ret tt
  end.

(** body of the loop [for rda in deleted_rda] *)
Definition tombstone (gold_current : gmap string current)
    (as_of_date : date) (batch_id : Z) (rda : string) : M db stmt unit :=
  match gold_current !! rda with
  | None => raise (KeyError rda)
  | Some g =>
      if negb (g_is_deleted g)
      then close_current rda as_of_date ;;
           let tomb := mkRow rda (Some (g_ref_salarie g)) (g_montant_demande g) in
           insert_version tomb as_of_date batch_id true
      else ret tt
  end.

(** the body of the [try] block of [main]; the dataset of the batch lookup
    is fixed, and the dict [silver] is iterated in the order of
    [map_to_list] *)
Definition main_try (as_of : string) (as_of_date : date) : M db stmt unit :=
  batch_id ← get_latest_batch_id "demande_avance" as_of as_of_date;
  silver ← fetch_silver_demande;
  gold_current ← fetch_gold_current;
  let silver_keys : gset string := dom silver in
  let gold_keys : gset string := dom gold_current in
  for_each (map_to_list silver) (upsert gold_current as_of_date batch_id) ;;
  let deleted_rda := gold_keys ∖ silver_keys in
  for_each (elements deleted_rda) (tombstone gold_current as_of_date batch_id) ;;
  commit.

Definition main (as_of : string) (as_of_date : date) (oracle : nat -> bool) (d : db)
    : res unit * db * list stmt :=
  try_run (main_try as_of as_of_date) (get_conn oracle d).
End WithAmounts.
End DemandeOnly.

Section DemandeOnlyVocabulary.
Context `{Amounts}.
Import DemandeOnly.

End DemandeOnlyVocabulary.

Module DemandeOnlySample.
Section WithAmounts.
Context `{Amounts}.
Import DemandeOnly.

(** a history holding a current version of D1 without amount, and a
    snapshot without D1 *)
Definition stored : db :=
  mkDb [mkBatch 2 "demande_avance" day2 "SUCCESS"] []
       [mkHisto "D1" (Some "S1") None day1 open_end true false
                "0b2837c5ee8bbe0b1b4a0a9b5f3f6b5c" 1].
End WithAmounts.
End DemandeOnlySample.

(** ** Statements that the server may refuse *)

(** What makes a round trip raise, by the class of psycopg2 that it raises:
    the connection is lost ([OperationalError]), the server does not accept
    the statement ([ProgrammingError]), or a row breaks a constraint
    ([IntegrityError]). *)
Inductive dberror : Type :=
| ConnectionLost
| ProgrammingError
| IntegrityError.

Inductive result (A : Type) : Type :=
| Returns (a : A)
| Raises (e : dberror).
Arguments Returns {A} a.
Arguments Raises {A} e.

Section Transactions.
Variables DB Stmt : Type.

(** called when the transaction ends: what does not survive it *)
Variable at_end : DB -> DB.

Definition Tx (A : Type) : Type := conn DB Stmt -> result A * conn DB Stmt.

Definition tret {A} (a : A) : Tx A := fun c => (Returns a, c).

Definition tbind {A B} (m : Tx A) (k : A -> Tx B) : Tx B := fun c =>
  match m c with
  | (Returns a, c') => k a c'
  | (Raises e, c') => (Raises e, c')
  end.

(** [cur.execute] of one statement, with what it gives back to the client;
    [w] is recorded when the statement writes.  A statement that the server
    refuses writes nothing.  The server then accepts nothing more in the
    transaction but a rollback, which the model does not record: every
    function below stops at the exception, and the scripts roll back. *)
Definition execute {A} (w : list Stmt) (f : DB -> dberror + A * DB) : Tx A :=
  fun c =>
    if outage c (executed c) then (Raises ConnectionLost, tick c)
    else match f (pending c) with
         | inl e => (Raises e, tick c)
         | inr (a, d) =>
             (Returns a,
              mkConn (committed c) d (S (executed c)) (outage c)
                     (issued c ++ w)%list)
         end.

(** [conn.commit()] *)
Definition tcommit : Tx unit := fun c =>
  if outage c (executed c) then (Raises ConnectionLost, tick c)
  else (Returns tt,
        mkConn (at_end (pending c)) (at_end (pending c)) (S (executed c))
               (outage c) (issued c)).

(** [for x in xs: body(x)] *)
Fixpoint tfor_each {K} (xs : list K) (body : K -> Tx unit) : Tx unit :=
  match xs with
  | [] => tret tt
  | x :: xs' => tbind (body x) (fun _ => tfor_each xs' body)
  end.
End Transactions.

Arguments Tx DB Stmt A : clear implicits.
Arguments tret {DB Stmt A} a.
Arguments tbind {DB Stmt A B} m k.
Arguments execute {DB Stmt A} w f.
Arguments tcommit {DB Stmt} at_end.
Arguments tfor_each {DB Stmt K} xs body.

Declare Scope tx_scope.
Delimit Scope tx_scope with tx.
Notation "x ← y ; z" := (tbind y (fun x => z))
  (at level 20, y at level 100, z at level 200, only parsing) : tx_scope.
Notation "x ;; z" := (tbind x (fun _ => z))
  (at level 100, z at level 200, only parsing, right associativity) : tx_scope.

(** [execute_values] sends its rows in pages: [n] rows per statement;
    [fuel] bounds the number of pages *)
Fixpoint pages {A} (fuel n : nat) (l : list A) : list (list A) :=
  match fuel, l with
  | O, _ | _, [] => []
  | S fuel', _ => take n l :: pages fuel' n (drop n l)
  end.

(** ** common.py, and the deletion sync of bronze/load_file.py *)

(** The values that the loader sends and that a cell holds, when they are
    not [None] or NULL.  Their types and the casts between them are not
    modelled: a column keeps the value that it is given, and [text s] is the
    value of the [str] [s]. *)
Class Values : Type := {
  val : Type;
  val_eq_dec :: EqDecision val;
  text : string -> val
}.

Module Common.
Section WithValues.
Context `{Values}.

(** A row of [etl.batch_run], with the columns that the code names. *)
Record batch_row : Type := mkRun {
  r_batch_id : Z;
  r_dataset : string;
  r_as_of_date : date;
  r_source_name : string;
  r_source_checksum : string;
  r_status : string;
  r_message : option string;
  r_finished_at : option Z
}.

(** A table that the loader writes: its columns, the column that is its
    primary key, and its rows; a row is the map of its columns that are not
    NULL.  No column has a default.  The list stands for the rows that the
    table holds: the server returns them in no order that it promises, and
    an UPDATE may move a row. *)
Record table : Type := mkTable {
  t_cols : list string;
  t_key : string;
  t_rows : list (gmap string val)
}.

(** The database: [etl.batch_run], the tables by name, and the temporary
    table [tmp_keys] of the session when it exists. *)
Record db : Type := mkDb {
  etl_batch_run : list batch_row;
  tables : gmap string table;
  tmp_keys : option (list string)
}.

Inductive stmt : Type :=
| InsertBatch (r : batch_row)
| UpdateBatch (batch_id : Z) (status message : string)
| UpsertPage (name : string) (page : list (gmap string val))
| DeleteAll (name : string)
| CreateTmpKeys
| InsertTmpKeys (page : list string)
| DeleteMissing (name pk : string).

(** [create temporary table ... on commit drop] *)
Definition drop_tmp (d : db) : db :=
  mkDb (etl_batch_run d) (tables d) None.

Definition commit : Tx db stmt unit := tcommit drop_tmp.

Definition set_batch_run (d : db) (t : list batch_row) : db :=
  mkDb t (tables d) (tmp_keys d).

Definition set_rows (d : db) (name : string) (t : table)
    (rows : list (gmap string val)) : db :=
  mkDb (etl_batch_run d)
       (<[name := mkTable (t_cols t) (t_key t) rows]> (tables d))
       (tmp_keys d).

Local Open Scope tx_scope.

(** [select batch_id, status from etl.batch_run where dataset=%s and
    as_of_date=%s and source_checksum=%s] *)
Definition same_file (dataset : string) (as_of_date : date)
    (checksum : string) (t : list batch_row) : list batch_row :=
  filter (fun r => r_dataset r = dataset /\ r_as_of_date r = as_of_date
                   /\ r_source_checksum r = checksum) t.

(** [register_batch].  [as_of_date] is the date that the text denotes, and
    [new_id] the value that the default of the column [batch_id] gives to
    the inserted row.  The query has no [order by]: [cur.fetchone()] gives
    the first row in the order of the table. *)
Definition register_batch (dataset : string) (as_of_date : date)
    (source_name checksum : string) (new_id : Z) : Tx db stmt Z :=
  let insert :=
    let r := mkRun new_id dataset as_of_date source_name checksum "STARTED"
                   None None in
    batch_id ← execute [InsertBatch r]
                 (fun d => inr (new_id, set_batch_run d (etl_batch_run d ++ [r])));
    commit ;;
    tret batch_id in
  row ← execute [] (fun d => inr (head (same_file dataset as_of_date checksum
                                                   (etl_batch_run d)), d));
  match row with
  | Some r =>
      if bool_decide (r_status r = "SUCCESS") || bool_decide (r_status r = "SKIPPED")
      then tret (-1)
      else insert
  | None => insert
  end.

(** the effect of the UPDATE of [finish_batch] on one row; [now] is the
    server's [now()] *)
Definition finish_row (batch_id : Z) (status message : string) (now : Z)
    (r : batch_row) : batch_row :=
  if bool_decide (r_batch_id r = batch_id)
  then mkRun (r_batch_id r) (r_dataset r) (r_as_of_date r) (r_source_name r)
             (r_source_checksum r) status (Some message) (Some now)
  else r.

Definition finish_batch (batch_id : Z) (status message : string) (now : Z)
    : Tx db stmt unit :=
  execute [UpdateBatch batch_id status message]
    (fun d => inr (tt, set_batch_run d
                         (map (finish_row batch_id status message now)
                              (etl_batch_run d)))) ;;
  commit.

(** the row that one line of [values] proposes for insertion: the columns
    of [cols] with their values, a [None] leaving the column NULL *)
Definition proposed (cols : list string) (vals : list (option val))
    : gmap string val :=
  foldl (fun p cv => match cv.2 with
                     | Some v => <[cv.1 := v]> p
                     | None => delete cv.1 p
                     end) ∅ (zip cols vals).

(** [do update set c = excluded.c], for the columns other than the key *)
Definition overwrite (pk_col : string) (cols : list string)
    (p x : gmap string val) : gmap string val :=
  foldl (fun x c => if bool_decide (c = pk_col) then x
                    else match p !! c with
                         | Some v => <[c := v]> x
                         | None => delete c x
                         end) x cols.

(** what [insert ... on conflict (pk_col) do update] does with one proposed
    row: it updates the rows that have its key, and is inserted when there
    is none.  Where the row sits in the list afterwards is not meant: the
    rows of the result are to be read by key. *)
Definition upsert_one (pk_col : string) (cols : list string)
    (t : list (gmap string val)) (p : gmap string val)
    : list (gmap string val) :=
  if bool_decide (Exists (fun x => x !! pk_col = p !! pk_col) t)
  then map (fun x => if bool_decide (x !! pk_col = p !! pk_col)
                     then overwrite pk_col cols p x else x) t
  else (t ++ [p])%list.

(** The statement over the rows of a page, in order.  The key of a proposed
    row may not be NULL, and [touched] holds the keys that the statement has
    inserted or updated so far: it may not affect a row a second time. *)
Fixpoint upsert_rows (pk_col : string) (cols : list string)
    (page : list (gmap string val)) (touched : list val)
    (t : list (gmap string val)) : dberror + list (gmap string val) :=
  match page with
  | [] => inr t
  | p :: page' =>
      match p !! pk_col with
      | None => inl IntegrityError
      | Some k =>
          if bool_decide (k ∈ touched) then inl ProgrammingError
          else upsert_rows pk_col cols page' (k :: touched)
                           (upsert_one pk_col cols t p)
      end
  end.

(** the statement of [upsert_table] on one page of [values]: it is refused
    when [set_clause] is empty, when the table or one of the columns does
    not exist, when a column is named twice, and when [pk_col] is not the
    key of the table *)
Definition insert_on_conflict (name pk_col : string) (cols : list string)
    (page : list (list (option val))) (d : db) : dberror + unit * db :=
  match tables d !! name with
  | Some t =>
      if bool_decide (filter (fun c => c ≠ pk_col) cols ≠ []
                      /\ Forall (fun c => c ∈ t_cols t) cols /\ NoDup cols
                      /\ pk_col = t_key t)
      then match upsert_rows pk_col cols (map (proposed cols) page) []
                             (t_rows t) with
           | inl e => inl e
           | inr rows => inr (tt, set_rows d name t rows)
           end
      else inl ProgrammingError
  | None => inl ProgrammingError
  end.

(** [upsert_table]; a record is the map of its values that are not [None],
    and [execute_values] sends pages of 100 rows *)
Definition upsert_table (name pk_col : string) (rows : list (gmap string val))
    (cols : list string) : Tx db stmt unit :=
  match rows with
  | [] => tret tt
  | _ =>
      let values := map (fun r => map (fun c => r !! c) cols) rows in
      tfor_each (pages (length values) 100 values)
        (fun page =>
           execute [UpsertPage name (map (proposed cols) page)]
                   (insert_on_conflict name pk_col cols page)) ;;
      commit
  end.

(** the columns of a row of [etl.batch_run] that the reconcilers read *)
Definition as_batch_run (r : batch_row) : batch_run :=
  mkBatch (r_batch_id r) (r_dataset r) (r_as_of_date r) (r_status r).

(** the rows that [delete ... where not exists (select 1 from tmp_keys k
    where k.pk = t.pk)] keeps *)
Definition kept (pk : string) (keys : list string)
    (t : list (gmap string val)) : list (gmap string val) :=
  filter (fun x => x !! pk ∈ (Some ∘ text) <$> keys) t.

(** [sync_deletions_snapshot] of bronze/load_file.py; it gives back
    [cur.rowcount], and leaves the commit to its caller *)
Definition sync_deletions_snapshot (name pk : string) (pk_values : list string)
    : Tx db stmt Z :=
  match pk_values with
  | [] =>
      execute [DeleteAll name]
        (fun d => match tables d !! name with
                  | None => inl ProgrammingError
                  | Some t => inr (Z.of_nat (length (t_rows t)),
                                   set_rows d name t [])
                  end)
  | _ =>
      execute [CreateTmpKeys]
        (fun d => match tmp_keys d with
                  | Some _ => inl ProgrammingError
                  | None => inr (tt, mkDb (etl_batch_run d) (tables d) (Some []))
                  end) ;;
      tfor_each (pages (length pk_values) 1000 pk_values)
        (fun page =>
           execute [InsertTmpKeys page]
             (fun d => match tmp_keys d with
                       | None => inl ProgrammingError
                       | Some ks =>
                           inr (tt, mkDb (etl_batch_run d) (tables d)
                                         (Some (ks ++ page)%list))
                       end)) ;;
      execute [DeleteMissing name pk]
        (fun d => match tables d !! name, tmp_keys d with
                  | Some t, Some ks =>
                      if bool_decide (pk ∈ t_cols t) then
                        let rows := kept pk ks (t_rows t) in
                        inr (Z.of_nat (length (t_rows t))
                             - Z.of_nat (length rows),
                             set_rows d name t rows)
                      else inl ProgrammingError
                  | _, _ => inl ProgrammingError
                  end)
  end.

End WithValues.
End Common.

(** ** A sample load *)

(** values as their text *)
Definition string_values : Values :=
  {| val := string; text := fun s => s |}.

Module LoaderSample.
Import Common.

Definition salarie_cols : list string :=
  ["ref_salarie"; "nni"; "nom"; "prenom"; "rib"].

Definition record (ref nni nom prenom rib : string)
    : gmap string (@val string_values) :=
  {[ "ref_salarie" := ref; "nni" := nni; "nom" := nom; "prenom" := prenom;
     "rib" := rib ]}.

(** the database after the file of [day1], with S1 and S2, has been loaded *)
Definition loaded : @db string_values :=
  mkDb [mkRun 1 "salarie" day1 "erp" "5f2c" "SUCCESS"
              (Some "Ingestion salarie OK (2 rows)") (Some 100)]
       {[ "silver_raw.salarie" :=
            mkTable salarie_cols "ref_salarie"
              [record "S1" "1001" "Diallo" "Awa" "MR01";
               record "S2" "1002" "Sow" "Ali" "MR02"] ]}
       None.

(** the file of [day2]: S2 has a new name, S3 is new, S1 is gone *)
Definition file : list (gmap string (@val string_values)) :=
  [record "S2" "1002" "Sy" "Ali" "MR02";
   record "S3" "1003" "Ba" "Paul" "MR03"].

Definition file_keys : list string := ["S2"; "S3"].

(** a file in which S2 comes twice *)
Definition repeated : list (gmap string (@val string_values)) :=
  [record "S2" "1002" "Sy" "Ali" "MR02";
   record "S3" "1003" "Ba" "Paul" "MR03";
   record "S2" "1002" "Sow" "Ali" "MR02"].

End LoaderSample.

(** * Properties *)

(** ** The digest on the test suite of RFC 1321 and on two blocks *)

Example md5_empty : MD5.hexdigest "" = "d41d8cd98f00b204e9800998ecf8427e".
Proof. by vm_compute. Qed.

Example md5_abc : MD5.hexdigest "abc" = "900150983cd24fb0d6963f7d28e17f72".
Proof. by vm_compute. Qed.

Example md5_message_digest :
  MD5.hexdigest "message digest" = "f96b697d7cb7938d525a2f31aaf161d0".
Proof. by vm_compute. Qed.

Example md5_two_blocks :
  MD5.hexdigest "aaaaaaaaaaaaaaaaaaaaaaaaaaaaaaaaaaaaaaaaaaaaaaaaaaaaaaaaaaaaaaaaaaaaaa"
  = "0f5c6c4e740bfcc08c3c26ccb2673d46".
Proof. by vm_compute. Qed.

Local Open Scope list_scope.

(** ** The connection monad *)

Section MonadFacts.
Context {DB Stmt : Type}.
Implicit Types c : conn DB Stmt.

Lemma bind_ok {A B} (m : M DB Stmt A) (k : A -> M DB Stmt B) c a c1 :
  m c = (Ok a, c1) -> bind m k c = k a c1.
Proof. intros H. unfold bind. by rewrite H. Qed.

Lemma bind_raise {A B} (m : M DB Stmt A) (k : A -> M DB Stmt B) c e c1 :
  m c = (Raise e, c1) -> bind m k c = (Raise e, c1).
Proof. intros H. unfold bind. by rewrite H. Qed.

Lemma bind_assoc {A B C} (m : M DB Stmt A) (k : A -> M DB Stmt B)
    (h : B -> M DB Stmt C) c :
  bind (bind m k) h c = bind m (fun a => bind (k a) h) c.
Proof. unfold bind. by destruct (m c) as [[a|e] c1]. Qed.

Lemma query_inv {A} (q : DB -> A) c r c1 :
  query q c = (r, c1) ->
  c1 = tick c
  /\ (outage c (executed c) = true /\ r = Raise OperationalError
      \/ outage c (executed c) = false /\ r = Ok (q (pending c))).
Proof.
  unfold query. destruct (outage c (executed c)); intros [= <- <-]; auto.
Qed.
End MonadFacts.

Section SalarieHoare.
Import Salarie.
Implicit Types c : conn db stmt.
Implicit Types t : list salarie_histo.
Implicit Types l : list stmt.

Lemma set_histo_same d : set_histo d (gold_salarie_histo d) = d.
Proof. by destruct d. Qed.

Lemma set_histo_twice d t t' : set_histo (set_histo d t) t' = set_histo d t'.
Proof. done. Qed.

Lemma apply_stmts_app t l l' :
  apply_stmts t (l ++ l') = apply_stmts (apply_stmts t l) l'.
Proof. apply foldl_app. Qed.

Lemma emits_ret : emits (ret tt) [].
Proof.
  intros c r c' [= <- <-]. repeat split; try done.
  exists []. rewrite app_nil_r. simpl. by rewrite set_histo_same.
Qed.

Lemma emits_exec w f :
  (forall d, f d = set_histo d (apply_stmt (gold_salarie_histo d) w)) ->
  emits (exec w f) [w].
Proof.
  intros Hf c r c'. unfold exec.
  destruct (outage c (executed c)) eqn:Ho; intros [= <- <-]; simpl;
    repeat split; try done.
  - exists []. rewrite app_nil_r. simpl. rewrite set_histo_same.
    repeat split; try done; [apply prefix_nil | eauto].
  - exists [w]. by rewrite Hf.
Qed.

Lemma emits_bind m k plan1 plan2 :
  emits m plan1 -> emits k plan2 ->
  emits (bind m (fun _ => k)) (plan1 ++ plan2).
Proof.
  intros Hm Hk c r c'. unfold bind.
  destruct (m c) as [[[]|e] c1] eqn:E; destruct (Hm _ _ _ E) as (Hc & Ho & done1 & Hi & Hp & Hr).
  - intros E2. destruct (Hk _ _ _ E2) as (Hc2 & Ho2 & done2 & Hi2 & Hp2 & Hr2).
    subst done1. split; [congruence|]. split; [congruence|].
    exists (plan1 ++ done2). rewrite Hi2, Hi, Hp2, Hp, app_assoc. simpl.
    rewrite apply_stmts_app. repeat split; try done.
    destruct r; [by subst|]. destruct Hr2 as (-> & Hpre & n & Hn).
    split; [done|]. split; [by apply prefix_app|]. exists n. congruence.
  - intros [= <- <-]. repeat split; try done.
    exists done1. destruct Hr as (-> & Hpre & Hn). repeat split; try done.
    by apply prefix_app_r.
Qed.

Lemma emits_for_each {K} (ks : list K) (body : K -> M db stmt unit)
    (plan : K -> list stmt) :
  (forall k, k ∈ ks -> emits (body k) (plan k)) ->
  emits (for_each ks body) (ks ≫= plan).
Proof.
  induction ks as [|k ks IH]; intros H; simpl.
  - apply emits_ret.
  - apply emits_bind.
    + apply H. left.
    + apply IH. intros k' Hk'. apply H. by right.
Qed.
End SalarieHoare.

Section SalarieRun.
Import Salarie.
Implicit Types c : conn db stmt.
Implicit Types t : list salarie_histo.
Implicit Types l : list stmt.

Lemma emits_close_current ref as_of_date :
  emits (close_current ref as_of_date) [Close ref as_of_date].
Proof. by apply emits_exec. Qed.

Lemma emits_insert_version r as_of_date batch_id is_deleted :
  emits (insert_version r as_of_date batch_id is_deleted)
        [Insert (new_version r as_of_date batch_id is_deleted)].
Proof. by apply emits_exec. Qed.

Lemma emits_upsert silver gold_current as_of_date batch_id ref :
  ref ∈ dom silver ->
  emits (upsert silver gold_current as_of_date batch_id ref)
        (upsert_plan silver gold_current as_of_date batch_id ref).
Proof.
  intros [r Hr]%elem_of_dom. unfold upsert, upsert_plan. rewrite Hr.
  destruct (gold_current !! ref) as [g|].
  - destruct (negb _ || _).
    + apply (emits_bind _ _ [_] [_]);
        [apply emits_close_current | apply emits_insert_version].
    + apply emits_ret.
  - apply emits_insert_version.
Qed.

Lemma emits_tombstone gold_current as_of_date batch_id ref :
  ref ∈ dom gold_current ->
  emits (tombstone gold_current as_of_date batch_id ref)
        (tombstone_plan gold_current as_of_date batch_id ref).
Proof.
  intros [g Hg]%elem_of_dom. unfold tombstone, tombstone_plan. rewrite Hg.
  destruct (negb _).
  - apply (emits_bind _ _ [_] [_]);
      [apply emits_close_current | apply emits_insert_version].
  - apply emits_ret.
Qed.

Lemma emits_loops silver gold_current as_of_date batch_id :
  emits (bind (for_each (elements (dom silver))
                 (upsert silver gold_current as_of_date batch_id))
           (fun _ => for_each (elements (dom gold_current ∖ dom silver))
                       (tombstone gold_current as_of_date batch_id)))
        (run_plan silver gold_current as_of_date batch_id).
Proof.
  apply emits_bind; apply emits_for_each; intros k Hk; rewrite elem_of_elements in Hk.
  - by apply emits_upsert.
  - apply emits_tombstone. by apply elem_of_difference in Hk as [Hk _].
Qed.

(** What a run leaves behind, in terms of the statements decided from the
    two dicts that it loaded. *)
Lemma main_inv a as_of_date oracle d r d' l :
  main a as_of_date oracle d = (r, d', l) ->
  let silver := silver_dict (silver_salarie_view d) in
  let gold_current := current_dict (select_current d) in
  let found := select_latest_batch (batch_dataset a) as_of_date (etl_batch_run d) in
  match r with
  | Ok _ =>
      exists b, found = Some b
        /\ l = run_plan silver gold_current as_of_date b
        /\ d' = set_histo d (apply_stmts (gold_salarie_histo d) l)
  | Raise e =>
      d' = d
      /\ match found with
         | None => l = []
         | Some b => l `prefix_of` run_plan silver gold_current as_of_date b
         end
      /\ (e = OperationalError /\ (exists n, oracle n = true)
             /\ (found = None -> oracle O = true)
          \/ found = None /\ oracle O = false
             /\ e = RuntimeError
                      ("No SUCCESS batch found in etl.batch_run for dataset="
                       +:+ batch_dataset a +:+ " as_of_date=" +:+ as_of a))
  end.
Proof.
  intros Hmain silver gold_current found.
  unfold main, try_run, main_try, get_latest_batch_id in Hmain.
  set (c0 := get_conn oracle d) in Hmain.
  unfold bind at 1 in Hmain. unfold bind at 1 in Hmain.
  destruct (query _ c0) as [r1 c1] eqn:Q1.
  apply query_inv in Q1 as [-> [[Ho ->]|[Ho ->]]]; simpl in Ho.
  { injection Hmain as <- <- <-. simpl. repeat split; try done.
    - destruct found; [apply prefix_nil | done].
    - left. split; [done|]. split; [eauto | done]. }
  simpl in Hmain. fold found in Hmain.
  destruct found as [b|] eqn:Hfound; simpl in Hmain.
  2:{ injection Hmain as <- <- <-. simpl. repeat split; try done. by right. }
  unfold fetch_silver_salarie, fetch_gold_current in Hmain.
  unfold bind at 1 in Hmain. unfold bind at 1 in Hmain.
  destruct (query _ (tick c0)) as [r2 c2] eqn:Q2.
  apply query_inv in Q2 as [-> [[Ho2 ->]|[Ho2 ->]]]; simpl in Ho2.
  { injection Hmain as <- <- <-. simpl. repeat split; try done.
    - apply prefix_nil.
    - left. split; [done|]. split; [eauto | done]. }
  simpl in Hmain. fold silver in Hmain.
  unfold bind at 1 in Hmain. unfold bind at 1 in Hmain.
  destruct (query _ (tick (tick c0))) as [r3 c3] eqn:Q3.
  apply query_inv in Q3 as [-> [[Ho3 ->]|[Ho3 ->]]]; simpl in Ho3.
  { injection Hmain as <- <- <-. simpl. repeat split; try done.
    - apply prefix_nil.
    - left. split; [done|]. split; [eauto | done]. }
  simpl in Hmain. fold gold_current in Hmain.
  set (c3 := tick (tick (tick c0))) in Hmain.
  rewrite <- bind_assoc in Hmain.
  unfold bind at 1 in Hmain.
  destruct (bind _ _ c3) as [r4 c4] eqn:Q4.
  apply (emits_loops silver gold_current as_of_date b) in Q4
    as (Hc & Hout & done & Hi & Hp & Hr).
  simpl in Hc, Hout, Hi, Hp.
  destruct r4 as [[]|e].
  - subst done. unfold commit in Hmain. rewrite Hout in Hmain.
    destruct (oracle (executed c4)) eqn:Ho4; simpl in Hmain;
      rewrite ?Hc, ?Hp, ?Hi in Hmain; injection Hmain as <- <- <-.
    + split; [done|]. split; [by rewrite Hr|]. left. split; [done|]. split; [eauto | done].
    + exists b. by rewrite <- Hr.
  - simpl in Hmain. rewrite Hc, Hi in Hmain. injection Hmain as <- <- <-.
    destruct Hr as (-> & Hpre & Hn). split; [done|]. split; [done|].
    left. split; [done|]. split; [eauto | done].
Qed.
End SalarieRun.

(** ** Statements are scoped by key *)

Section SalarieKeys.
Import Salarie.
Implicit Types t : list salarie_histo.
Implicit Types l : list stmt.
Implicit Types k ref : string.

Lemma about_app k l l' : about k (l ++ l') = about k l ++ about k l'.
Proof. apply filter_app. Qed.

Lemma about_cons_same k w l :
  stmt_key w = k -> about k (w :: l) = w :: about k l.
Proof. intros H. unfold about. by rewrite filter_cons_True. Qed.

Lemma about_all k l : (forall w, w ∈ l -> stmt_key w = k) -> about k l = l.
Proof.
  induction l as [|w l IH]; intros H; [done|]. unfold about.
  rewrite filter_cons_True by (apply H; left).
  f_equal. apply IH. intros w' Hw'. apply H. by right.
Qed.

Lemma about_none k l : (forall w, w ∈ l -> stmt_key w ≠ k) -> about k l = [].
Proof.
  induction l as [|w l IH]; intros H; [done|]. unfold about.
  rewrite filter_cons_False by (apply H; left).
  apply IH. intros w' Hw'. apply H. by right.
Qed.

Lemma about_bind k (ks : list string) (plan : string -> list stmt) :
  (forall k' w, w ∈ plan k' -> stmt_key w = k') ->
  NoDup ks ->
  about k (ks ≫= plan) = if decide (k ∈ ks) then plan k else [].
Proof.
  intros Hplan. induction 1 as [|k0 ks Hk0 Hnd IH]; [done|].
  rewrite bind_cons, about_app, IH.
  destruct (decide (k = k0)) as [->|Hne].
  - rewrite about_all by apply Hplan.
    rewrite (decide_False (P := k0 ∈ ks)) by done.
    rewrite decide_True by left. by rewrite app_nil_r.
  - rewrite about_none by (intros w Hw; by rewrite (Hplan _ _ Hw)).
    simpl. destruct (decide (k ∈ ks)) as [Hin|Hnin].
    + rewrite decide_True by (by right). done.
    + rewrite decide_False; [done|]. by intros [?|?]%elem_of_cons.
Qed.

Lemma silver_dict_key rows k r :
  silver_dict rows !! k = Some r -> ref_salarie r = k.
Proof.
  unfold silver_dict.
  assert (forall acc : gmap string row,
            (forall k r, acc !! k = Some r -> ref_salarie r = k) ->
            forall k r, foldl (fun out r =>
              <[ str (cell (s_ref_salarie r)) :=
                   mkRow (str (cell (s_ref_salarie r)))
                         (Some (str (cell (s_nni r))))
                         (Some (str (cell (s_nom r))))
                         (Some (str (cell (s_prenom r)))) ]> out) acc rows !! k
              = Some r -> ref_salarie r = k) as H.
  { induction rows as [|x rows IH]; intros acc Hacc; [exact Hacc|].
    simpl. apply IH. intros k' r'. rewrite lookup_insert.
    case_decide; [intros [= <-]; by subst | apply Hacc]. }
  apply H. intros k' r'. by rewrite lookup_empty.
Qed.

Lemma upsert_plan_key silver_rows gold_current as_of_date b k w :
  w ∈ upsert_plan (silver_dict silver_rows) gold_current as_of_date b k ->
  stmt_key w = k.
Proof.
  unfold upsert_plan.
  destruct (silver_dict silver_rows !! k) as [r|] eqn:Hr; [|by intros ?%elem_of_nil].
  apply silver_dict_key in Hr.
  destruct (gold_current !! k) as [g|].
  - destruct (negb _ || _); [|by intros ?%elem_of_nil].
    intros [->|[->|?%elem_of_nil]%elem_of_cons]%elem_of_cons; done.
  - intros [->|?%elem_of_nil]%elem_of_cons; done.
Qed.

Lemma tombstone_plan_key gold_current as_of_date b k w :
  w ∈ tombstone_plan gold_current as_of_date b k -> stmt_key w = k.
Proof.
  unfold tombstone_plan. destruct (gold_current !! k) as [g|]; [|by intros ?%elem_of_nil].
  destruct (negb _); [|by intros ?%elem_of_nil].
  intros [->|[->|?%elem_of_nil]%elem_of_cons]%elem_of_cons; done.
Qed.

(** The statements of a run about one key are those of its upsert when the
    key is in the snapshot, and those of its tombstone otherwise. *)
Lemma about_run_plan silver_rows gold_current as_of_date b k :
  let silver := silver_dict silver_rows in
  about k (run_plan silver gold_current as_of_date b)
  = match silver !! k with
    | Some _ => upsert_plan silver gold_current as_of_date b k
    | None => tombstone_plan gold_current as_of_date b k
    end.
Proof.
  intros silver. unfold run_plan. rewrite about_app.
  rewrite !about_bind; try apply NoDup_elements;
    [| intros ??; apply tombstone_plan_key | intros ??; apply upsert_plan_key].
  destruct (silver !! k) as [r|] eqn:Hr.
  - rewrite decide_True by (apply elem_of_elements, elem_of_dom; eauto).
    rewrite decide_False; [by rewrite app_nil_r|].
    rewrite elem_of_elements, elem_of_difference, elem_of_dom.
    intros [_ Hn]. apply Hn, elem_of_dom. eauto.
  - rewrite decide_False
      by (rewrite elem_of_elements, elem_of_dom, Hr; by intros [??]).
    simpl. case_decide as Hin; [done|].
    unfold tombstone_plan. destruct (gold_current !! k) as [g|] eqn:Hg; [|done].
    destruct Hin. rewrite elem_of_elements, elem_of_difference, !elem_of_dom, Hr, Hg.
    split; [eauto | by intros [??]].
Qed.

Lemma close_row_key ref as_of_date r :
  h_ref_salarie (close_row ref as_of_date r) = h_ref_salarie r.
Proof. unfold close_row. by destruct (_ && _). Qed.

Lemma close_row_other ref as_of_date r :
  h_ref_salarie r ≠ ref -> close_row ref as_of_date r = r.
Proof. intros H. unfold close_row. by rewrite bool_decide_eq_false_2. Qed.

Lemma versions_of_close_same k as_of_date t :
  versions_of k (map (close_row k as_of_date) t)
  = map (close_row k as_of_date) (versions_of k t).
Proof.
  unfold versions_of. induction t as [|r t IH]; [done|]. simpl.
  destruct (decide (h_ref_salarie r = k)) as [Hk|Hk].
  - rewrite !filter_cons_True by (by rewrite ?close_row_key). simpl. by f_equal.
  - rewrite !filter_cons_False by (by rewrite ?close_row_key). done.
Qed.

Lemma versions_of_close_other k ref as_of_date t :
  ref ≠ k ->
  versions_of k (map (close_row ref as_of_date) t) = versions_of k t.
Proof.
  intros Hne. unfold versions_of. induction t as [|r t IH]; [done|]. simpl.
  destruct (decide (h_ref_salarie r = k)) as [Hk|Hk].
  - rewrite !filter_cons_True by (by rewrite ?close_row_key).
    rewrite close_row_other by congruence. by f_equal.
  - rewrite !filter_cons_False by (by rewrite ?close_row_key). done.
Qed.

(** Projecting the table on a key commutes with running statements. *)
Lemma versions_of_apply_stmts k l t :
  versions_of k (apply_stmts t l) = apply_stmts (versions_of k t) (about k l).
Proof.
  revert t. induction l as [|w l IH]; intros t; [done|].
  unfold apply_stmts in *. simpl. rewrite IH. unfold about.
  destruct (decide (stmt_key w = k)) as [Hk|Hk].
  - rewrite filter_cons_True by done. simpl. f_equal.
    destruct w as [ref dd|v]; simpl in *.
    + subst ref. apply versions_of_close_same.
    + unfold versions_of. rewrite filter_app. f_equal.
      by rewrite filter_cons_True.
  - rewrite filter_cons_False by done. f_equal.
    destruct w as [ref dd|v]; simpl in *.
    + by apply versions_of_close_other.
    + unfold versions_of. rewrite filter_app, filter_cons_False by done.
      by rewrite app_nil_r.
Qed.
End SalarieKeys.

(** ** The dict of current versions *)

Section SalarieCurrent.
Import Salarie.
Implicit Types t : list salarie_histo.
Implicit Types l : list stmt.
Implicit Types k ref : string.

Lemma current_dict_fold (rows : list salarie_histo) (acc : gmap string current) k :
  foldl (fun out r =>
           <[ h_ref_salarie r :=
                mkCurrent (h_nni r) (h_nom r) (h_prenom r)
                          (h_record_hash r) (h_is_deleted r) ]> out) acc rows !! k
  = match last (versions_of k rows) with
    | Some r => Some (to_current r)
    | None => acc !! k
    end.
Proof.
  revert acc. induction rows as [|x rows IH]; intros acc; [done|].
  simpl. rewrite IH. unfold versions_of.
  destruct (decide (h_ref_salarie x = k)) as [Hk|Hk].
  - rewrite filter_cons_True by done. rewrite last_cons.
    destruct (last _); [done|]. subst k. by rewrite lookup_insert_eq.
  - rewrite filter_cons_False by done.
    destruct (last _); [done|]. by rewrite lookup_insert_ne.
Qed.

Lemma versions_of_select_current k d :
  versions_of k (select_current d) = current_of k (gold_salarie_histo d).
Proof.
  unfold versions_of, select_current, current_of, versions_of.
  induction (gold_salarie_histo d) as [|r t IH]; [done|].
  destruct (decide (h_is_current r = true)) as [Hc|Hc];
    destruct (decide (h_ref_salarie r = k)) as [Hk|Hk];
    rewrite ?(filter_cons_True (fun r => h_is_current r = true)) by done;
    rewrite ?(filter_cons_False (fun r => h_is_current r = true)) by done;
    rewrite ?(filter_cons_True (fun r => h_ref_salarie r = k)) by done;
    rewrite ?(filter_cons_False (fun r => h_ref_salarie r = k)) by done;
    rewrite ?(filter_cons_True (fun r => h_is_current r = true)) by done;
    rewrite ?(filter_cons_False (fun r => h_is_current r = true)) by done;
    by rewrite IH.
Qed.

(** [gold_current[k]] is read off the last current row of [k]. *)
Lemma current_dict_lookup d k :
  current_dict (select_current d) !! k
  = to_current <$> last (current_of k (gold_salarie_histo d)).
Proof.
  unfold current_dict. rewrite current_dict_fold, versions_of_select_current.
  by destruct (last _).
Qed.

Lemma current_of_apply_stmts k l t :
  current_of k (apply_stmts t l)
  = filter (fun r => h_is_current r = true)
           (apply_stmts (versions_of k t) (about k l)).
Proof. unfold current_of. by rewrite versions_of_apply_stmts. Qed.

Lemma closed_not_current k as_of_date t :
  filter (fun r => h_is_current r = true)
         (map (close_row k as_of_date) (versions_of k t)) = [].
Proof.
  unfold versions_of. induction t as [|r t IH]; [done|].
  destruct (decide (h_ref_salarie r = k)) as [Hk|Hk].
  - rewrite filter_cons_True by done. simpl.
    rewrite filter_cons_False; [done|].
    unfold close_row. rewrite bool_decide_eq_true_2 by done. simpl.
    destruct (h_is_current r) eqn:E; simpl; [done | by rewrite E].
  - by rewrite filter_cons_False.
Qed.
End SalarieCurrent.

Section SalarieEffects.
Import Salarie.
Implicit Types t : list salarie_histo.
Implicit Types l : list stmt.
Implicit Types k ref : string.

Lemma no_current_row d k :
  current_dict (select_current d) !! k = None ->
  current_of k (gold_salarie_histo d) = [].
Proof.
  rewrite current_dict_lookup. intros H. apply last_None.
  by destruct (last _).
Qed.

(** After the statements of a run, the current rows of a key are the
    version inserted for it, if any, and those it had otherwise. *)
Lemma current_of_run d silver_rows as_of_date b k :
  let plan := run_plan (silver_dict silver_rows)
                (current_dict (select_current d)) as_of_date b in
  current_of k (apply_stmts (gold_salarie_histo d) plan)
  = match last (about k plan) with
    | Some (Insert v) => [v]
    | _ => current_of k (gold_salarie_histo d)
    end.
Proof.
  intros plan. rewrite current_of_apply_stmts. unfold plan.
  rewrite about_run_plan. unfold upsert_plan, tombstone_plan, apply_stmts.
  destruct (silver_dict silver_rows !! k) as [r|];
    destruct (current_dict (select_current d) !! k) as [g|] eqn:Hg;
    try destruct (negb _ || _); try destruct (negb _); simpl;
    rewrite ?filter_app, ?closed_not_current; try done.
  fold (current_of k (gold_salarie_histo d)).
  by rewrite no_current_row.
Qed.

Lemma only_closes_and_appends_refl t : only_closes_and_appends t t.
Proof.
  exists t, []. rewrite app_nil_r. split; [done|].
  induction t; constructor; [by repeat split | done].
Qed.

Lemma same_version_close ref as_of_date r r' :
  same_version r r' -> same_version r (close_row ref as_of_date r').
Proof. unfold close_row. by destruct (_ && _). Qed.

Lemma only_closes_and_appends_stmts t0 l t :
  only_closes_and_appends t0 t ->
  only_closes_and_appends t0 (apply_stmts t l).
Proof.
  revert t. induction l as [|w l IH]; intros t H; [done|].
  unfold apply_stmts. simpl. apply IH.
  destruct H as (kept & added & -> & Hkept). destruct w as [ref dd|v]; simpl.
  - exists (map (close_row ref dd) kept), (map (close_row ref dd) added).
    rewrite map_app. split; [done|].
    clear IH. induction Hkept; simpl; constructor;
      [by apply same_version_close | done].
  - exists kept, (added ++ [v]). by rewrite app_assoc.
Qed.
End SalarieEffects.

(** ** The batch registry *)

Section Batches.
Lemma foldr_max_spec (x : Z) (xs : list Z) :
  foldr Z.max x xs ∈ x :: xs /\ forall y, y ∈ x :: xs -> y <= foldr Z.max x xs.
Proof.
  induction xs as [|z xs [IHin IHle]]; simpl.
  - split; [left|]. intros y ->%list_elem_of_singleton. lia.
  - split.
    + destruct (Z.max_spec z (foldr Z.max x xs)) as [[_ ->]|[_ ->]].
      * apply elem_of_cons in IHin as [->|?]; [left | right; by right].
      * right. left.
    + intros y [->|[->|Hy]%elem_of_cons]%elem_of_cons.
      * specialize (IHle x ltac:(left)). lia.
      * lia.
      * specialize (IHle y ltac:(by right)). lia.
Qed.

Lemma elem_of_success_batches a as_of_date t b :
  b ∈ success_batches (batch_dataset a) as_of_date t
  <-> b ∈ t /\ success_batch a as_of_date b.
Proof. unfold success_batches, success_batch. rewrite list_elem_of_filter. tauto. Qed.

Lemma select_latest_batch_None a as_of_date t :
  select_latest_batch (batch_dataset a) as_of_date t = None
  <-> forall b, b ∈ t -> ~ success_batch a as_of_date b.
Proof.
  unfold select_latest_batch. split.
  - intros H b Hb Hs.
    assert (b ∈ success_batches (batch_dataset a) as_of_date t) as Hin
      by (by apply elem_of_success_batches).
    destruct (success_batches _ _ _); [by apply elem_of_nil in Hin | done].
  - intros H.
    destruct (success_batches _ _ _) as [|b bs] eqn:E; [done|].
    destruct (H b); apply (elem_of_success_batches a as_of_date t b);
      rewrite E; left.
Qed.

Lemma select_latest_batch_Some a as_of_date t n :
  select_latest_batch (batch_dataset a) as_of_date t = Some n ->
  (exists b, b ∈ t /\ success_batch a as_of_date b /\ b_batch_id b = n)
  /\ forall b, b ∈ t -> success_batch a as_of_date b -> b_batch_id b <= n.
Proof.
  unfold select_latest_batch.
  destruct (map b_batch_id _) as [|x xs] eqn:E; [done|]. intros [= <-].
  destruct (foldr_max_spec x xs) as [Hin Hle]. rewrite <- E in Hin, Hle. split.
  - apply list_elem_of_fmap in Hin as (b & Hb & Hin).
    apply elem_of_success_batches in Hin as [??]. eauto.
  - intros b Hb Hs. apply Hle, list_elem_of_fmap. exists b. split; [done|].
    by apply elem_of_success_batches.
Qed.
End Batches.

(** ** Properties of a reconciliation run of [salarie] *)

Section SalarieTheorems.
Import Salarie.
Implicit Types t : list salarie_histo.
Implicit Types l : list stmt.
Implicit Types k ref : string.

(** A run on a healthy connection that finds its batch completes. *)
Lemma main_healthy_completes a as_of_date d b :
  select_latest_batch (batch_dataset a) as_of_date (etl_batch_run d) = Some b ->
  exists d' l, main a as_of_date healthy d = (Ok tt, d', l).
Proof.
  intros Hb. destruct (main a as_of_date healthy d) as [[[[]|e] d'] l] eqn:E; [eauto|].
  apply main_inv in E as (_ & _ & [(_ & [n Hn] & _)|[Hnone _]]); [done | congruence].
Qed.

(** C1. Pass A.  In a run that completes, the statements about a key [k] of
    the snapshot are: one INSERT of a non-deleted version of [k] valid from
    the as-of date when [k] has no current version; the close of [k]
    followed by such an INSERT when the stored hash differs from the hash
    of the snapshot attributes with [is_deleted = False], or the current
    version is a tombstone; nothing otherwise. *)
Theorem upsert_classification a as_of_date oracle d d' l k r :
  main a as_of_date oracle d = (Ok tt, d', l) ->
  silver_dict (silver_salarie_view d) !! k = Some r ->
  exists batch_id,
    select_latest_batch (batch_dataset a) as_of_date (etl_batch_run d)
    = Some batch_id
    /\ let new_hash :=
         md5_hash [cell (nni r); cell (nom r); cell (prenom r); PBool false] in
       let inserted :=
         mkHisto k (nni r) (nom r) (prenom r) as_of_date open_end true false
                 new_hash batch_id in
       about k l
       = match current_dict (select_current d) !! k with
         | None => [Insert inserted]
         | Some g =>
             if decide (g_record_hash g ≠ new_hash \/ g_is_deleted g = true)
             then [Close k as_of_date; Insert inserted]
             else []
         end.
Proof.
  intros Hmain Hr. apply main_inv in Hmain as (b & Hb & -> & _).
  exists b. split; [done|]. simpl.
  rewrite about_run_plan, Hr. unfold upsert_plan. rewrite Hr.
  pose proof (silver_dict_key _ _ _ Hr) as Hk.
  unfold new_version. rewrite Hk.
  destruct (current_dict (select_current d) !! k) as [g|]; [|done].
  destruct (decide (g_record_hash g
                    = md5_hash [cell (nni r); cell (nom r); cell (prenom r);
                                PBool false])) as [Heq|Hne];
    destruct (g_is_deleted g) eqn:Hdel;
    rewrite ?(bool_decide_eq_true_2 _ Heq), ?(bool_decide_eq_false_2 _ Hne);
    simpl; case_decide; try done; try tauto.
  destruct H as [?|?]; done.
Qed.

(** Pass B of [salarie].  In a run that completes, the statements about a
    key [k] that has a current version and is absent from the snapshot are:
    the close of [k] followed by the INSERT of a tombstone that carries the
    attributes of the current version, when that version is not deleted;
    nothing when it is a tombstone already. *)
Lemma salarie_tombstone_classification a as_of_date oracle d d' l k g :
  main a as_of_date oracle d = (Ok tt, d', l) ->
  silver_dict (silver_salarie_view d) !! k = None ->
  current_dict (select_current d) !! k = Some g ->
  exists batch_id,
    select_latest_batch (batch_dataset a) as_of_date (etl_batch_run d)
    = Some batch_id
    /\ about k l
       = if g_is_deleted g then []
         else [Close k as_of_date;
               Insert (mkHisto k (g_nni g) (g_nom g) (g_prenom g) as_of_date
                         open_end true true
                         (md5_hash [cell (g_nni g); cell (g_nom g);
                                    cell (g_prenom g); PBool true])
                         batch_id)].
Proof.
  intros Hmain Hr Hg. apply main_inv in Hmain as (b & Hb & -> & _).
  exists b. split; [done|].
  rewrite about_run_plan, Hr. unfold tombstone_plan. rewrite Hg.
  by destruct (g_is_deleted g).
Qed.

(** C3. Invariant I1 is preserved by a run, whatever its outcome: when no
    key has two current rows before, none has after. *)
Theorem I1_preserved a as_of_date oracle d r d' l :
  main a as_of_date oracle d = (r, d', l) ->
  I1 (gold_salarie_histo d) ->
  I1 (gold_salarie_histo d').
Proof.
  intros Hmain HI. apply main_inv in Hmain. destruct r as [[]|e].
  - destruct Hmain as (b & _ & -> & ->). intros k. simpl.
    rewrite current_of_run. destruct (last _) as [[|v]|]; simpl; auto.
  - by destruct Hmain as (-> & _).
Qed.

(** C6. A run is atomic: either it completes, and then the statements it
    executed are all those of the run on a healthy connection and are all
    committed, or it raises, and then the committed database is the one it
    started from. *)
Theorem run_atomic a as_of_date oracle d r d' l :
  main a as_of_date oracle d = (r, d', l) ->
  r = Ok tt
  /\ main a as_of_date healthy d = (Ok tt, d', l)
  /\ d' = set_histo d (apply_stmts (gold_salarie_histo d) l)
  \/ (exists e, r = Raise e) /\ d' = d.
Proof.
  intros Hmain. apply main_inv in Hmain. destruct r as [[]|e].
  - left. destruct Hmain as (b & Hb & Hl & Hd). split; [done|]. split; [|done].
    destruct (main_healthy_completes _ _ _ _ Hb) as (d2 & l2 & E).
    rewrite E. apply main_inv in E as (b2 & Hb2 & -> & ->).
    rewrite Hb in Hb2. injection Hb2 as <-. by rewrite Hd, Hl.
  - right. destruct Hmain as (-> & _). eauto.
Qed.

(** C10. A run only closes rows in place and appends rows.  The committed
    history table it leaves is the one it found, row for row, up to
    [valid_to] and [is_current], followed by new rows; so is the pending
    table after each of the write statements it executes; no row is removed,
    and the other tables are left as they are. *)
Theorem writer_frame a as_of_date oracle d r d' l :
  main a as_of_date oracle d = (r, d', l) ->
  etl_batch_run d' = etl_batch_run d
  /\ silver_salarie_view d' = silver_salarie_view d
  /\ only_closes_and_appends (gold_salarie_histo d) (gold_salarie_histo d')
  /\ forall done, done `prefix_of` l ->
       only_closes_and_appends (gold_salarie_histo d)
         (apply_stmts (gold_salarie_histo d) done).
Proof.
  intros Hmain. apply main_inv in Hmain.
  assert (forall done,
            only_closes_and_appends (gold_salarie_histo d)
              (apply_stmts (gold_salarie_histo d) done)) as Hall.
  { intros done.
    apply only_closes_and_appends_stmts, only_closes_and_appends_refl. }
  destruct r as [[]|e].
  - destruct Hmain as (b & _ & _ & ->). repeat split; try done. apply Hall.
  - destruct Hmain as (-> & _). repeat split; try done.
    apply only_closes_and_appends_refl.
Qed.

Lemma run_plan_batch silver gold_current as_of_date b v :
  Insert v ∈ run_plan silver gold_current as_of_date b -> h_batch_id v = b.
Proof.
  unfold run_plan. rewrite elem_of_app, !list_elem_of_bind.
  intros [(k & Hv & _)|(k & Hv & _)]; revert Hv.
  - unfold upsert_plan. destruct (silver !! k) as [r|]; [|by intros ?%elem_of_nil].
    destruct (gold_current !! k) as [g|].
    + destruct (negb _ || _); [|by intros ?%elem_of_nil].
      intros [?|[[= ->]|?%elem_of_nil]%elem_of_cons]%elem_of_cons; done.
    + intros [[= ->]|?%elem_of_nil]%elem_of_cons; done.
  - unfold tombstone_plan. destruct (gold_current !! k) as [g|]; [|by intros ?%elem_of_nil].
    destruct (negb _); [|by intros ?%elem_of_nil].
    intros [?|[[= ->]|?%elem_of_nil]%elem_of_cons]%elem_of_cons; done.
Qed.

(** C8. Provenance.  When [etl.batch_run] has no SUCCESS row for the
    dataset and the date, the run raises, with the [RuntimeError] of the
    batch lookup unless the lookup itself was hit by a storage failure, and
    it has executed no write statement and left the database as it was.
    When there is such a row, every version the run inserts carries the
    greatest [batch_id] of these rows. *)
Theorem provenance_precondition a as_of_date oracle d r d' l :
  main a as_of_date oracle d = (r, d', l) ->
  ((forall b, b ∈ etl_batch_run d -> ~ success_batch a as_of_date b) ->
     (exists e, r = Raise e) /\ d' = d /\ l = []
     /\ (oracle O = false ->
         r = Raise (RuntimeError
                      ("No SUCCESS batch found in etl.batch_run for dataset="
                       +:+ batch_dataset a +:+ " as_of_date=" +:+ as_of a))))
  /\ (forall b0, b0 ∈ etl_batch_run d -> success_batch a as_of_date b0 ->
      exists b, b ∈ etl_batch_run d /\ success_batch a as_of_date b
        /\ (forall x, x ∈ etl_batch_run d -> success_batch a as_of_date x ->
                      b_batch_id x <= b_batch_id b)
        /\ forall v, Insert v ∈ l -> h_batch_id v = b_batch_id b).
Proof.
  intros Hmain. apply main_inv in Hmain. split.
  - intros Hnone%select_latest_batch_None. rewrite Hnone in Hmain.
    destruct r as [[]|e].
    + by destruct Hmain as (b & ? & _).
    + destruct Hmain as (-> & -> & He). repeat split; eauto.
      intros Ho. destruct He as [(_ & _ & Ho')|(_ & _ & ->)]; [|done].
      rewrite Ho' in Ho; done.
  - intros b0 Hb0 Hs0.
    destruct (select_latest_batch (batch_dataset a) as_of_date (etl_batch_run d))
      as [n|] eqn:Hn.
    2:{ destruct (proj1 (select_latest_batch_None a _ _) Hn b0); done. }
    destruct (select_latest_batch_Some _ _ _ _ Hn) as [(b & Hb & Hs & <-) Hmax].
    exists b. split; [done|]. split; [done|]. split; [done|]. intros v Hv.
    apply (run_plan_batch (silver_dict (silver_salarie_view d))
             (current_dict (select_current d)) as_of_date).
    destruct r as [[]|e].
    + destruct Hmain as (b' & [= <-] & <- & _). done.
    + destruct Hmain as (_ & [rest ->] & _). apply elem_of_app. by left.
Qed.

Lemma bind_all_nil {A B} (f : A -> list B) (ks : list A) :
  (forall x, x ∈ ks -> f x = []) -> ks ≫= f = [].
Proof.
  induction ks as [|x ks IH]; intros H; [done|].
  rewrite bind_cons, H by left. apply IH. intros x' Hx'. apply H. by right.
Qed.

(** The dict of current versions that the next run loads. *)
Lemma current_dict_after_run d silver_rows as_of_date b k :
  let plan := run_plan (silver_dict silver_rows)
                (current_dict (select_current d)) as_of_date b in
  current_dict (select_current
                  (set_histo d (apply_stmts (gold_salarie_histo d) plan))) !! k
  = match last (about k plan) with
    | Some (Insert v) => Some (to_current v)
    | _ => current_dict (select_current d) !! k
    end.
Proof.
  intros plan. rewrite !current_dict_lookup. simpl. unfold plan.
  rewrite current_of_run. by destruct (last (about _ _)) as [[|v]|].
Qed.

(** Right after a run, the snapshot being the same, nothing is left to do. *)
Lemma nothing_left_to_do d as_of_date b b' :
  let silver := silver_dict (silver_salarie_view d) in
  let plan := run_plan silver (current_dict (select_current d)) as_of_date b in
  run_plan silver
    (current_dict (select_current
                     (set_histo d (apply_stmts (gold_salarie_histo d) plan))))
    as_of_date b' = [].
Proof.
  intros silver plan. unfold plan, silver. clear plan silver.
  set (rows := silver_salarie_view d).
  unfold run_plan at 1.
  rewrite !bind_all_nil; [done | |].
  - intros k Hk. unfold tombstone_plan.
    assert (silver_dict rows !! k = None) as Hr.
    { apply elem_of_elements, elem_of_difference in Hk as [_ Hk].
      by apply not_elem_of_dom in Hk. }
    rewrite current_dict_after_run, about_run_plan.
    rewrite Hr. unfold tombstone_plan.
    destruct (current_dict (select_current d) !! k) as [g|] eqn:Hg; [|done].
    destruct (g_is_deleted g) eqn:Hdel; simpl; [by rewrite Hdel | done].
  - intros k Hk. unfold upsert_plan.
    destruct (silver_dict rows !! k) as [r|] eqn:Hr; [|done].
    rewrite current_dict_after_run, about_run_plan.
    rewrite Hr. unfold upsert_plan. rewrite Hr.
    destruct (current_dict (select_current d) !! k) as [g|] eqn:Hg.
    + destruct (negb _ || g_is_deleted g) eqn:Hc; simpl.
      * by rewrite bool_decide_eq_true_2.
      * by rewrite Hc.
    + simpl. by rewrite bool_decide_eq_true_2.
Qed.

(** C4. Idempotence.  A run that starts from the database a completed run
    has left, the snapshot and the batch registry being the same, executes
    no write statement and leaves the database as it is. *)
Theorem reconciliation_idempotent a as_of_date oracle1 oracle2 d d1 l1 r2 d2 l2 :
  main a as_of_date oracle1 d = (Ok tt, d1, l1) ->
  main a as_of_date oracle2 d1 = (r2, d2, l2) ->
  l2 = [] /\ d2 = d1 /\ (r2 = Ok tt \/ r2 = Raise OperationalError).
Proof.
  intros H1 H2. apply main_inv in H1 as (b & Hb & -> & ->).
  apply main_inv in H2. simpl in H2. rewrite Hb in H2.
  destruct r2 as [[]|e].
  - destruct H2 as (b' & _ & -> & ->). rewrite !nothing_left_to_do. auto.
  - rewrite nothing_left_to_do in H2.
    destruct H2 as (-> & ->%prefix_nil_inv & [(-> & _)|(? & _)]); [auto | done].
Qed.
End SalarieTheorems.

(** ** The fingerprint *)

Section Fingerprint.
Import Salarie.

Lemma join_cons_cons sep p q r :
  join sep (p :: q :: r) = (p +:+ sep +:+ join sep (q :: r))%string.
Proof. done. Qed.

Lemma split_at_bar p q s s' :
  no_bar p = true -> no_bar q = true ->
  (p +:+ String "|" s = q +:+ String "|" s')%string -> p = q /\ s = s'.
Proof.
  revert q. induction p as [|a p IH]; intros [|c q]; simpl.
  - intros _ _ [= ->]. done.
  - intros _ Hq [= <- _]. done.
  - intros Hp _ [= -> _]. done.
  - intros [_ Hp]%andb_prop [_ Hq]%andb_prop [= -> Hrest].
    destruct (IH _ Hp Hq Hrest) as [-> ->]. done.
Qed.

Lemma join_bars_inj ps qs :
  length ps = length qs ->
  Forall (fun p => no_bar p = true) ps -> Forall (fun q => no_bar q = true) qs ->
  join "||" ps = join "||" qs -> ps = qs.
Proof.
  revert qs. induction ps as [|p ps IH]; intros [|q qs]; try done.
  intros [= Hlen] Hps Hqs. 
  apply Forall_cons in Hps as [Hp Hps]. apply Forall_cons in Hqs as [Hq Hqs].
  destruct ps as [|p2 ps]; destruct qs as [|q2 qs]; try done.
  - simpl. by intros ->.
  - rewrite !join_cons_cons. intros [-> [= Hrest]]%split_at_bar; try done.
    f_equal. by apply IH.
Qed.

Lemma joined_cells (xs : list (option string)) (d : bool) :
  joined (map cell xs ++ [PBool d])
  = join "||" (map (default "") xs ++ [if d then "True" else "False"]).
Proof.
  unfold joined. rewrite map_app, map_map.
  replace (map _ [PBool d]) with [if d then "True" else "False"]
    by (by destruct d).
  f_equal. f_equal. apply map_ext. by intros [s|].
Qed.

Lemma same_up_to_null_default x y :
  same_up_to_null x y <-> default "" x = default "" y.
Proof.
  unfold same_up_to_null. destruct x as [s|], y as [s'|]; simpl;
    (split; [intros [E|[[E1 E2]|[E1 E2]]]; congruence | intros E; subst; auto]).
Qed.

Lemma same_up_to_null_map xs ys :
  Forall2 same_up_to_null xs ys <-> map (default "") xs = map (default "") ys.
Proof.
  split.
  - induction 1 as [|x y xs ys Hxy%same_up_to_null_default _ IH]; [done|].
    simpl. by rewrite Hxy, IH.
  - revert ys. induction xs as [|x xs IH]; intros [|y ys]; try done.
    intros [= Hxy Hrest].
    constructor; [by apply same_up_to_null_default | by apply IH].
Qed.

(** C7, as the code has it.  The fingerprint is the MD5 digest of the
    values joined by the separator, so that inputs with the same joined
    string have the same fingerprint.  For attribute lists of the same
    length whose values do not contain the character of the separator, the
    joined strings are equal exactly when the deletion flags are equal and
    the attributes are equal up to NULL against the empty string. *)
Theorem fingerprint_sensitivity (xs ys : list (option string)) (d d' : bool) :
  length xs = length ys ->
  Forall separator_free xs -> Forall separator_free ys ->
  (joined (map cell xs ++ [PBool d]) = joined (map cell ys ++ [PBool d'])
   <-> Forall2 same_up_to_null xs ys /\ d = d')
  /\ (Forall2 same_up_to_null xs ys /\ d = d' ->
      md5_hash (map cell xs ++ [PBool d]) = md5_hash (map cell ys ++ [PBool d'])).
Proof.
  intros Hlen Hxs Hys.
  assert (Forall2 same_up_to_null xs ys /\ d = d' ->
          joined (map cell xs ++ [PBool d]) = joined (map cell ys ++ [PBool d']))
    as Hback.
  { intros [Hsame%same_up_to_null_map ->]. by rewrite !joined_cells, Hsame. }
  split; [split; [|exact Hback] | intros HB; unfold md5_hash; by rewrite (Hback HB)].
  rewrite !joined_cells. intros Hj. apply join_bars_inj in Hj.
  - apply app_inj_tail in Hj as [Hm Hd]. split; [by apply same_up_to_null_map|].
    by destruct d, d'.
  - by rewrite !length_app, !length_map, Hlen.
  - apply Forall_app. split; [by apply Forall_map | by destruct d; repeat constructor].
  - apply Forall_app. split; [by apply Forall_map | by destruct d'; repeat constructor].
Qed.

Lemma fingerprint_sensitivity_witness :
  md5_hash (map cell [None; Some "Dupont"; Some "Jean"] ++ [PBool false])
  = md5_hash (map cell [Some ""; Some "Dupont"; Some "Jean"] ++ [PBool false]).
Proof.
  apply (fingerprint_sensitivity [None; Some "Dupont"; Some "Jean"]
           [Some ""; Some "Dupont"; Some "Jean"] false false).
  - reflexivity.
  - repeat constructor.
  - repeat constructor.
  - split; [|reflexivity].
    constructor; [right; by left|]. repeat (constructor; [by left|]). constructor.
Defined.

(** C7 as stated fails: two attribute lists that differ by more than NULL
    against the empty string, and have the same fingerprint. *)
Lemma fingerprint_separator_collision :
  let xs := [Some "a||b"; Some "c"; Some "d"] in
  let ys := [Some "a"; Some "b||c"; Some "d"] in
  ~ Forall2 same_up_to_null xs ys
  /\ md5_hash (map cell xs ++ [PBool false]) = md5_hash (map cell ys ++ [PBool false]).
Proof.
  split.
  - intros Hsame%same_up_to_null_map. discriminate Hsame.
  - unfold md5_hash. f_equal.
Qed.
End Fingerprint.

(** ** Closing the current version *)

Section CloseCurrent.
Import Salarie.
Implicit Types t : list salarie_histo.
Implicit Types l : list stmt.
Implicit Types k ref : string.

(** I1 can be checked on the keys that occur in the table. *)
Lemma I1_by_rows t :
  Forall (fun r => (length (current_of (h_ref_salarie r) t) <= 1)%nat) t -> I1 t.
Proof.
  intros H k. destruct (current_of k t) as [|r rest] eqn:E; [simpl; lia|].
  assert (r ∈ current_of k t) as Hr by (rewrite E; left).
  unfold current_of, versions_of in Hr.
  apply list_elem_of_filter in Hr as [_ Hr].
  apply list_elem_of_filter in Hr as [Hk Hr].
  rewrite Forall_forall in H. specialize (H r Hr). by rewrite Hk, E in H.
Qed.

(** The statements of a run about one key are at most a close followed by
    an insert, and a close only comes for a key with a current version. *)
Lemma about_run_plan_shape silver_rows d as_of_date b k :
  let plan := run_plan (silver_dict silver_rows)
                (current_dict (select_current d)) as_of_date b in
  about k plan = []
  \/ (exists v, about k plan = [Insert v])
  \/ (exists v, about k plan = [Close k as_of_date; Insert v])
     /\ current_of k (gold_salarie_histo d) ≠ [].
Proof.
  intros plan. unfold plan. rewrite about_run_plan.
  assert (forall g, current_dict (select_current d) !! k = Some g ->
                    current_of k (gold_salarie_histo d) ≠ []) as Hne.
  { intros g. rewrite current_dict_lookup. intros H E. by rewrite E in H. }
  unfold upsert_plan, tombstone_plan.
  destruct (silver_dict silver_rows !! k) as [r|];
    destruct (current_dict (select_current d) !! k) as [g|];
    try destruct (negb _ || _); try destruct (negb _); eauto 10.
Qed.

(** C5, as the code has it.  When a run executes the close of a key [k],
    the close carries the as-of date, and the rows that the UPDATE affects
    are the current rows that [k] had when the run started: there is at
    least one, there is exactly one when the history satisfied I1, each of
    them is left the same version with [valid_to] the as-of date and
    [is_current] false, every other row is left as it was, and no row of
    [k] is current afterwards.  Their number is not inspected: the run does
    not raise on its account, only on a storage failure. *)
Theorem close_affects_current_rows a as_of_date oracle d r d' l before k dd after :
  main a as_of_date oracle d = (r, d', l) ->
  l = before ++ Close k dd :: after ->
  let t := apply_stmts (gold_salarie_histo d) before in
  let t' := apply_stmt t (Close k dd) in
  dd = as_of_date
  /\ current_of k t = current_of k (gold_salarie_histo d)
  /\ (1 <= length (current_of k t))%nat
  /\ (I1 (gold_salarie_histo d) -> length (current_of k t) = 1%nat)
  /\ length t' = length t
  /\ (forall i x, t !! i = Some x ->
        exists x', t' !! i = Some x'
          /\ if decide (h_ref_salarie x = k /\ h_is_current x = true)
             then same_version x x' /\ h_valid_to x' = as_of_date
                  /\ h_is_current x' = false
             else x' = x)
  /\ current_of k t' = []
  /\ (r = Ok tt \/ r = Raise OperationalError).
Proof.
  intros Hmain Hl t t'.
  apply main_inv in Hmain.
  assert (exists b rest,
            run_plan (silver_dict (silver_salarie_view d))
              (current_dict (select_current d)) as_of_date b = l ++ rest
            /\ (r = Ok tt \/ r = Raise OperationalError))
    as (b & rest & Hplan & Hr).
  { destruct r as [[]|e].
    - destruct Hmain as (b & _ & -> & _). exists b, []. by rewrite app_nil_r; auto.
    - destruct Hmain as (_ & Hpre & He).
      destruct (select_latest_batch _ _ _) as [b|].
      + destruct Hpre as [rest Hrest]. exists b, rest. split; [done|].
        destruct He as [(-> & _)|(? & _)]; [auto | done].
      + subst l. by destruct before. }
  assert (about k before = []) as Hbefore.
  { pose proof (about_run_plan_shape (silver_salarie_view d) d as_of_date b k) as Hs.
    cbv zeta in Hs. rewrite Hplan, Hl in Hs.
    rewrite <- app_assoc, about_app in Hs. simpl in Hs.
    rewrite (about_cons_same k (Close k dd)) in Hs by done.
    destruct (about k before) as [|w ws]; [done|].
    destruct Hs as [Hs|[[v Hs]|[[v Hs] _]]]; [done | |].
    - injection Hs as -> Hs. by destruct ws.
    - injection Hs as -> Hs. destruct ws as [|w ws]; [done|].
      injection Hs as -> Hs. by destruct ws. }
  assert (current_of k t = current_of k (gold_salarie_histo d)) as Ht.
  { unfold t. by rewrite current_of_apply_stmts, Hbefore. }
  assert (dd = as_of_date /\ current_of k (gold_salarie_histo d) ≠ [])
    as [Hdd Hne].
  { pose proof (about_run_plan_shape (silver_salarie_view d) d as_of_date b k) as Hs.
    cbv zeta in Hs. rewrite Hplan, Hl in Hs.
    rewrite <- app_assoc, about_app, Hbefore in Hs. simpl in Hs.
    rewrite (about_cons_same k (Close k dd)) in Hs by done.
    destruct Hs as [Hs|[[v Hs]|[[v Hs] Hne]]]; [done..|].
    injection Hs as -> _. done. }
  rewrite Ht. split; [done|]. split; [done|].
  split; [|split; [|split; [|split; [|split; [|done]]]]].
  - destruct (current_of k (gold_salarie_histo d)); [done | simpl; lia].
  - intros HI. specialize (HI k).
    destruct (current_of k (gold_salarie_histo d)); [done | simpl in *; lia].
  - unfold t'. simpl. by rewrite length_map.
  - intros i x Hi. unfold t'. simpl. rewrite list_lookup_fmap, Hi. simpl.
    eexists. split; [done|]. subst dd. unfold close_row.
    destruct (decide (h_ref_salarie x = k /\ h_is_current x = true))
      as [[Hk Hc]|Hn].
    + rewrite bool_decide_eq_true_2, Hc by done. simpl. by repeat split.
    + destruct (bool_decide (h_ref_salarie x = k)) eqn:E; [|done].
      apply bool_decide_eq_true in E.
      destruct (h_is_current x) eqn:Hc; [|done]. by destruct Hn.
  - unfold t'. simpl. unfold current_of. rewrite versions_of_close_same.
    apply closed_not_current.
Qed.
End CloseCurrent.

(** ** The sample run *)

Section SalarieSampleFacts.
Import Salarie SalarieSample.

Lemma upsert_classification_witness :
  exists batch_id,
    select_latest_batch (batch_dataset cli) day1 (etl_batch_run before)
    = Some batch_id
    /\ let new_hash :=
         md5_hash [cell (Some "1001"); cell (Some "Dupont");
                   cell (Some "Jeanne"); PBool false] in
       let inserted :=
         mkHisto "S1" (Some "1001") (Some "Dupont") (Some "Jeanne") day1
                 open_end true false new_hash batch_id in
       about "S1" stmts
       = match current_dict (select_current before) !! "S1" with
         | None => [Insert inserted]
         | Some g =>
             if decide (g_record_hash g ≠ new_hash \/ g_is_deleted g = true)
             then [Close "S1" day1; Insert inserted]
             else []
         end.
Proof.
  apply (upsert_classification cli day1 healthy before after stmts "S1"
           (mkRow "S1" (Some "1001") (Some "Dupont") (Some "Jeanne")));
    by vm_compute.
Defined.

Lemma I1_preserved_witness : I1 (gold_salarie_histo after).
Proof.
  apply (I1_preserved cli day1 healthy before (Ok tt) after stmts).
  - by vm_compute.
  - apply I1_by_rows. repeat (constructor; [vm_compute; lia|]). constructor.
Defined.

Lemma reconciliation_idempotent_witness :
  snd again = [] /\ snd (fst again) = after
  /\ (fst (fst again) = Ok tt \/ fst (fst again) = Raise OperationalError).
Proof.
  apply (reconciliation_idempotent cli day1 healthy healthy before after stmts
           (fst (fst again)) (snd (fst again)) (snd again));
    by vm_compute.
Defined.

Lemma close_affects_current_rows_witness :
  let t := apply_stmts (gold_salarie_histo before) (take 2 stmts) in
  let t' := apply_stmt t (Close "S6" day1) in
  day1 = day1
  /\ current_of "S6" t = current_of "S6" (gold_salarie_histo before)
  /\ (1 <= length (current_of "S6" t))%nat
  /\ (I1 (gold_salarie_histo before) -> length (current_of "S6" t) = 1%nat)
  /\ length t' = length t
  /\ (forall i x, t !! i = Some x ->
        exists x', t' !! i = Some x'
          /\ if decide (h_ref_salarie x = "S6" /\ h_is_current x = true)
             then same_version x x' /\ h_valid_to x' = day1
                  /\ h_is_current x' = false
             else x' = x)
  /\ current_of "S6" t' = []
  /\ (Ok tt = Ok tt \/ Ok tt = Raise OperationalError).
Proof.
  apply (close_affects_current_rows cli day1 healthy before (Ok tt) after stmts
           (take 2 stmts) "S6" day1 (drop 3 stmts));
    by vm_compute.
Defined.

Lemma run_atomic_witness :
  fst (fst broken) = Ok tt
  /\ main cli day1 healthy before = (Ok tt, snd (fst broken), snd broken)
  /\ snd (fst broken)
     = set_histo before (apply_stmts (gold_salarie_histo before) (snd broken))
  \/ (exists e, fst (fst broken) = Raise e) /\ snd (fst broken) = before.
Proof.
  apply (run_atomic cli day1 flaky before (fst (fst broken)) (snd (fst broken))
           (snd broken)).
  by vm_compute.
Defined.

Lemma writer_frame_witness :
  etl_batch_run after = etl_batch_run before
  /\ silver_salarie_view after = silver_salarie_view before
  /\ only_closes_and_appends (gold_salarie_histo before) (gold_salarie_histo after)
  /\ forall done, done `prefix_of` stmts ->
       only_closes_and_appends (gold_salarie_histo before)
         (apply_stmts (gold_salarie_histo before) done).
Proof.
  apply (writer_frame cli day1 healthy before (Ok tt) after stmts).
  by vm_compute.
Defined.

Lemma provenance_precondition_witness :
  fst (fst (main cli day1 healthy unregistered))
  = Raise (RuntimeError
             "No SUCCESS batch found in etl.batch_run for dataset=salarie as_of_date=2024-01-01")
  /\ exists b, b ∈ etl_batch_run before /\ b_batch_id b = 7
       /\ forall v, Insert v ∈ stmts -> h_batch_id v = b_batch_id b.
Proof.
  split.
  - destruct (provenance_precondition cli day1 healthy unregistered
                (fst (fst (main cli day1 healthy unregistered)))
                (snd (fst (main cli day1 healthy unregistered)))
                (snd (main cli day1 healthy unregistered)))
      as [Hnone _]; [by vm_compute|].
    destruct Hnone as (_ & _ & _ & Herr); [|by apply Herr].
    intros b Hb (Hd & _ & Hs).
    repeat (apply elem_of_cons in Hb as [->|Hb];
            [first [discriminate Hd | discriminate Hs]|]).
    by apply elem_of_nil in Hb.
  - destruct (provenance_precondition cli day1 healthy before (Ok tt) after stmts)
      as [_ Hsome]; [by vm_compute|].
    destruct (Hsome (mkBatch 3 "salarie" day1 "SUCCESS"))
      as (b & Hb & Hs & Hmax & Hv); [left | by repeat split |].
    exists b. split; [done|]. split; [|done].
    assert (7 <= b_batch_id b) as Hge.
    { apply (Hmax (mkBatch 7 "salarie" day1 "SUCCESS")); [right; left | by repeat split]. }
    destruct Hs as (Hd & _ & Hst).
    repeat (apply elem_of_cons in Hb as [->|Hb];
            [first [done | simpl in Hge; lia | discriminate Hd
                   | discriminate Hst]|]).
    by apply elem_of_nil in Hb.
Defined.

(** C5 as stated fails: closes that affect no row, or two rows, pass. *)
Lemma close_row_count_is_not_checked :
  (length (current_of "S9" (gold_salarie_histo before)) = 0%nat
   /\ fst (close_current "S9" day1 (get_conn healthy before)) = Ok tt)
  /\ (length (current_of "S1" (gold_salarie_histo corrupted)) = 2%nat
      /\ fst (fst (main cli day1 healthy corrupted)) = Ok tt
      /\ exists v, about "S1" (snd (main cli day1 healthy corrupted))
                   = [Close "S1" day1; Insert v]).
Proof.
  split; [by vm_compute|]. split; [by vm_compute|]. split; [by vm_compute|].
  eexists. vm_compute. reflexivity.
Qed.
End SalarieSampleFacts.

(** ** Tombstones of rows without amount *)

Section NullAmounts.
Context `{Amounts}.

(** C9. In both reconcilers a version without amount can be written by a
    run, and the run that has to tombstone it raises [TypeError] out of
    [float(None)], so that nothing of that run is committed. *)
Theorem tombstone_partial_on_null_amount :
  (exists d1 l1 v,
      Paiement.main PaiementSample.cli1 day1 healthy PaiementSample.first_day
      = (Ok tt, d1, l1)
      /\ Paiement.select_current d1 = [v]
      /\ Paiement.h_montant_paye v = None
      /\ Paiement.h_is_deleted v = false
      /\ Paiement.main PaiementSample.cli2 day2 healthy (PaiementSample.next_day d1)
         = (Raise (TypeError
                     "float() argument must be a string or a real number, not 'NoneType'"),
            PaiementSample.next_day d1,
            [Paiement.Close (Paiement.h_ref_paiement v) day2]))
  /\ (exists d1 l1 v,
      DemandeAvance.main DemandeAvanceSample.cli1 day1 healthy
        DemandeAvanceSample.first_day
      = (Ok tt, d1, l1)
      /\ DemandeAvance.select_current d1 = [v]
      /\ DemandeAvance.h_montant_demande v = None
      /\ DemandeAvance.h_is_deleted v = false
      /\ DemandeAvance.main DemandeAvanceSample.cli2 day2 healthy
           (DemandeAvanceSample.next_day d1)
         = (Raise (TypeError
                     "float() argument must be a string or a real number, not 'NoneType'"),
            DemandeAvanceSample.next_day d1,
            [DemandeAvance.Close (DemandeAvance.h_ref_demande_avance v) day2])).
Proof.
  split.
  - eexists _, _, _. split; [vm_compute; reflexivity|]. by vm_compute.
  - eexists _, _, _. split; [vm_compute; reflexivity|]. by vm_compute.
Qed.

(** C2 on [paiement]: the tombstone of a current version without amount is
    not written; the run raises after the close and is rolled back. *)
Theorem paiement_tombstone_not_written :
  Paiement.silver_dict (Paiement.silver_paiement_view PaiementSample.stored)
    !! "P1" = None
  /\ (exists g, Paiement.current_dict (Paiement.select_current PaiementSample.stored)
                  !! "P1" = Some g
                /\ Paiement.g_is_deleted g = false
                /\ Paiement.g_montant_paye g = None)
  /\ Paiement.main PaiementSample.cli2 day2 healthy PaiementSample.stored
     = (Raise (TypeError
                 "float() argument must be a string or a real number, not 'NoneType'"),
        PaiementSample.stored, [Paiement.Close "P1" day2]).
Proof.
  split; [by vm_compute|]. split; [|by vm_compute].
  eexists. split; [vm_compute; reflexivity|]. by vm_compute.
Qed.
End NullAmounts.

(** ** The loaders of [salarie] *)

Section SalarieLoaders.
Import Salarie.
Implicit Types c : conn db stmt.
Implicit Types k : string.

Lemma silver_dict_fold (rows : list silver_salarie) (acc : gmap string row) k :
  foldl (fun out r =>
           <[ str (cell (s_ref_salarie r)) :=
                mkRow (str (cell (s_ref_salarie r)))
                      (Some (str (cell (s_nni r))))
                      (Some (str (cell (s_nom r))))
                      (Some (str (cell (s_prenom r)))) ]> out) acc rows !! k
  = match last (silver_rows_of k rows) with
    | Some x => Some (silver_row_of x)
    | None => acc !! k
    end.
Proof.
  revert acc. induction rows as [|x rows IH]; intros acc; [done|].
  simpl. rewrite IH. unfold silver_rows_of.
  destruct (decide (str (cell (s_ref_salarie x)) = k)) as [Hk|Hk].
  - rewrite filter_cons_True by done. rewrite last_cons.
    destruct (last _); [done|]. rewrite <- Hk. by rewrite lookup_insert_eq.
  - rewrite filter_cons_False by done.
    destruct (last _); [done|]. by rewrite lookup_insert_ne.
Qed.

Lemma silver_dict_lookup rows k :
  silver_dict rows !! k = silver_row_of <$> last (silver_rows_of k rows).
Proof.
  unfold silver_dict. rewrite silver_dict_fold. by destruct (last _).
Qed.

(** X. [fetch_silver_salarie], when its round trip succeeds, changes nothing
    and returns a dict in which a key holds the last row of the view whose
    [str(ref_salarie)] it is; the value carries its key, and its attributes
    are strings, a NULL of the view being the text [None]. *)
Theorem fetch_silver_salarie_last_wins c :
  outage c (executed c) = false ->
  exists silver,
    fetch_silver_salarie c = (Ok silver, tick c)
    /\ (forall k, silver !! k
                  = silver_row_of
                      <$> last (silver_rows_of k (silver_salarie_view (pending c))))
    /\ forall k r, silver !! k = Some r ->
         ref_salarie r = k
         /\ (exists x, x ∈ silver_salarie_view (pending c)
               /\ nni r = Some (default "None" (s_nni x))
               /\ nom r = Some (default "None" (s_nom x))
               /\ prenom r = Some (default "None" (s_prenom x))).
Proof.
  intros Ho. exists (silver_dict (silver_salarie_view (pending c))).
  split; [|split].
  - unfold fetch_silver_salarie, bind, query. by rewrite Ho.
  - intros k. apply silver_dict_lookup.
  - intros k r. rewrite silver_dict_lookup.
    destruct (last _) as [x|] eqn:Hlast; [|done]. intros [= <-].
    apply last_Some_elem_of in Hlast.
    apply list_elem_of_filter in Hlast as [Hk Hx]. split; [done|].
    exists x. split; [done|].
    unfold silver_row_of; simpl.
    by destruct (s_nni x), (s_nom x), (s_prenom x).
Qed.

(** X. [fetch_gold_current], when its round trip succeeds, changes nothing
    and returns a dict in which a key holds the last of its current rows in
    the table; a key without current row is not in the dict. *)
Theorem fetch_gold_current_last_wins c :
  outage c (executed c) = false ->
  exists gold_current,
    fetch_gold_current c = (Ok gold_current, tick c)
    /\ (forall k, gold_current !! k
                  = to_current
                      <$> last (current_of k (gold_salarie_histo (pending c))))
    /\ forall k, k ∈ dom gold_current
                 <-> current_of k (gold_salarie_histo (pending c)) ≠ [].
Proof.
  intros Ho. exists (current_dict (select_current (pending c))).
  split; [|split].
  - unfold fetch_gold_current, bind, query. by rewrite Ho.
  - intros k. apply current_dict_lookup.
  - intros k. rewrite elem_of_dom, current_dict_lookup, <- last_is_Some.
    by rewrite fmap_is_Some.
Qed.
End SalarieLoaders.

(** ** What a run of [salarie] does to the rows it finds *)

Section SalarieRows.
Import Salarie.
Implicit Types t : list salarie_histo.
Implicit Types l : list stmt.
Implicit Types k ref : string.

Lemma close_row_not_current ref as_of_date v :
  h_is_current v = false -> close_row ref as_of_date v = v.
Proof. intros H. unfold close_row. rewrite H. by rewrite andb_false_r. Qed.

Lemma close_row_current as_of_date v :
  h_is_current v = true ->
  close_row (h_ref_salarie v) as_of_date v = closed_at as_of_date v.
Proof.
  intros H. unfold close_row. by rewrite H, bool_decide_eq_true_2.
Qed.

Lemma row_after_cons w l v :
  row_after (w :: l) v
  = row_after l (match w with
                 | Close ref dd => close_row ref dd v
                 | Insert _ => v
                 end).
Proof. done. Qed.

Lemma apply_stmts_lookup l t i v :
  t !! i = Some v -> apply_stmts t l !! i = Some (row_after l v).
Proof.
  revert t v. induction l as [|w l IH]; intros t v Hi; [done|].
  rewrite row_after_cons. unfold apply_stmts. simpl. apply IH.
  destruct w as [ref dd|u]; simpl.
  - by rewrite list_lookup_fmap, Hi.
  - by apply lookup_app_l_Some.
Qed.

Lemma row_after_about l v :
  row_after l v = row_after (about (h_ref_salarie v) l) v.
Proof.
  revert v. induction l as [|w l IH]; intros v; [done|].
  destruct (decide (stmt_key w = h_ref_salarie v)) as [Hk|Hk].
  - rewrite about_cons_same by done. rewrite !row_after_cons, IH.
    f_equal. f_equal. destruct w; [apply close_row_key | done].
  - unfold about. rewrite filter_cons_False by done.
    fold (about (h_ref_salarie v) l). rewrite <- IH, row_after_cons.
    f_equal. destruct w as [ref dd|u]; [|done].
    apply close_row_other. by intros <-.
Qed.

Lemma row_after_not_current l v :
  h_is_current v = false -> row_after l v = v.
Proof.
  intros H. induction l as [|w l IH]; [done|].
  rewrite row_after_cons. destruct w as [ref dd|u]; [|done].
  by rewrite close_row_not_current.
Qed.

(** The statements of a run about one key, with the row they insert. *)
Lemma about_run_plan_cases silver_rows d as_of_date b k :
  let gold_current := current_dict (select_current d) in
  let plan := run_plan (silver_dict silver_rows) gold_current as_of_date b in
  about k plan = [] /\ (silver_dict silver_rows !! k = None \/ is_Some (gold_current !! k))
  \/ (exists r, about k plan = [Insert (new_version r as_of_date b false)]
        /\ ref_salarie r = k /\ gold_current !! k = None)
  \/ (exists r del,
        about k plan = [Close k as_of_date; Insert (new_version r as_of_date b del)]
        /\ ref_salarie r = k /\ is_Some (gold_current !! k)).
Proof.
  intros gold_current plan. unfold plan. rewrite about_run_plan.
  unfold upsert_plan, tombstone_plan.
  destruct (silver_dict silver_rows !! k) as [r|] eqn:Hr.
  - apply silver_dict_key in Hr.
    destruct (gold_current !! k) as [g|]; [|right; left; eauto].
    destruct (negb _ || _); [right; right; eauto 10 | left; eauto].
  - destruct (gold_current !! k) as [g|]; [|left; eauto].
    destruct (negb _); [right; right | left; eauto].
    exists (mkRow k (g_nni g) (g_nom g) (g_prenom g)), true. eauto.
Qed.
End SalarieRows.

(** ** Further properties of a run of [salarie] *)

Section SalarieMore.
Import Salarie.
Implicit Types t : list salarie_histo.
Implicit Types l : list stmt.
Implicit Types k ref : string.


(** X. A row that is not current when a run starts is the same row, at the
    same place, in the table the run leaves. *)
Theorem closed_versions_untouched a as_of_date oracle d r d' l i v :
  main a as_of_date oracle d = (r, d', l) ->
  gold_salarie_histo d !! i = Some v ->
  h_is_current v = false ->
  gold_salarie_histo d' !! i = Some v.
Proof.
  intros Hmain Hi Hv. apply main_inv in Hmain. destruct r as [[]|e].
  - destruct Hmain as (b & _ & _ & ->). simpl.
    rewrite (apply_stmts_lookup _ _ _ _ Hi). by rewrite row_after_not_current.
  - by destruct Hmain as (-> & _).
Qed.

(** X. A run changes no row of a key it executes no statement about: the
    versions of such a key are the same, in the same order. *)
Theorem other_keys_untouched a as_of_date oracle d r d' l k :
  main a as_of_date oracle d = (r, d', l) ->
  (forall w, w ∈ l -> stmt_key w ≠ k) ->
  versions_of k (gold_salarie_histo d') = versions_of k (gold_salarie_histo d).
Proof.
  intros Hmain Hk. apply main_inv in Hmain. destruct r as [[]|e].
  - destruct Hmain as (b & _ & Hl & ->). simpl.
    by rewrite versions_of_apply_stmts, about_none.
  - by destruct Hmain as (-> & _).
Qed.

(** X. The boundary of a change.  When a completed run has closed key [k],
    every row of [k] that was current has become the same row closed at the
    as-of date, at the same place; and [k] has one current row, valid from
    the as-of date to the open end. *)
Theorem closed_and_reopened_at_as_of a as_of_date oracle d d' l k dd :
  main a as_of_date oracle d = (Ok tt, d', l) ->
  Close k dd ∈ l ->
  dd = as_of_date
  /\ (forall i v, gold_salarie_histo d !! i = Some v ->
                  h_ref_salarie v = k -> h_is_current v = true ->
                  gold_salarie_histo d' !! i = Some (closed_at as_of_date v))
  /\ exists w, current_of k (gold_salarie_histo d') = [w]
               /\ h_valid_from w = as_of_date /\ h_valid_to w = open_end.
Proof.
  intros Hmain Hin. apply main_inv in Hmain as (b & _ & -> & ->). simpl.
  assert (Close k dd ∈ about k (run_plan (silver_dict (silver_salarie_view d))
                                  (current_dict (select_current d)) as_of_date b))
    as Hin' by (by apply list_elem_of_filter).
  destruct (about_run_plan_cases (silver_salarie_view d) d as_of_date b k)
    as [[Hnil _]|[(r & Hins & _)|(r & del & Hci & _)]]; cbv zeta in *.
  { rewrite Hnil in Hin'. by apply elem_of_nil in Hin'. }
  { rewrite Hins in Hin'. by apply list_elem_of_singleton in Hin'. }
  rewrite Hci in Hin'.
  assert (dd = as_of_date) as ->.
  { apply elem_of_cons in Hin' as [[= ->]|Hin']; [done|].
    by apply list_elem_of_singleton in Hin'. }
  split; [done|]. split.
  - intros i v Hi Hk Hcur.
    rewrite (apply_stmts_lookup _ _ _ _ Hi), row_after_about, Hk, Hci.
    rewrite !row_after_cons. subst k. by rewrite close_row_current.
  - rewrite current_of_run, Hci. simpl. eauto.
Qed.

(** X. What the next run will load.  After a completed run the dict of
    current versions holds every key of the snapshot with a version that is
    not deleted and carries the hash of the snapshot attributes; any other
    key it holds has a tombstone. *)
Theorem history_in_line_with_snapshot a as_of_date oracle d d' l k :
  main a as_of_date oracle d = (Ok tt, d', l) ->
  match silver_dict (silver_salarie_view d) !! k with
  | Some r =>
      exists g, current_dict (select_current d') !! k = Some g
        /\ g_is_deleted g = false
        /\ g_record_hash g
           = md5_hash [cell (nni r); cell (nom r); cell (prenom r); PBool false]
  | None =>
      forall g, current_dict (select_current d') !! k = Some g ->
                g_is_deleted g = true
  end.
Proof.
  intros Hmain. apply main_inv in Hmain as (b & _ & -> & ->).
  rewrite current_dict_after_run, about_run_plan.
  unfold upsert_plan, tombstone_plan.
  destruct (silver_dict (silver_salarie_view d) !! k) as [r|] eqn:Hr.
  - destruct (current_dict (select_current d) !! k) as [g|] eqn:Hg.
    + destruct (negb _ || _) eqn:Hc; simpl; [eauto|].
      exists g. apply orb_false_elim in Hc as [Hh Hd].
      apply negb_false_iff, bool_decide_eq_true in Hh. done.
    + simpl. eauto.
  - destruct (current_dict (select_current d) !! k) as [g|] eqn:Hg.
    + destruct (g_is_deleted g) eqn:Hd; simpl; by intros ? [= <-].
    + done.
Qed.

(** X. After a completed run, the keys that have a current version are those
    that had one and those of the snapshot: a key never loses its current
    version, and no other key gets one. *)
Theorem current_keys_after_run a as_of_date oracle d d' l :
  main a as_of_date oracle d = (Ok tt, d', l) ->
  dom (current_dict (select_current d'))
  = dom (current_dict (select_current d)) ∪ dom (silver_dict (silver_salarie_view d)).
Proof.
  intros Hmain. apply main_inv in Hmain as (b & _ & -> & ->).
  apply set_eq. intros k. rewrite elem_of_union, !elem_of_dom.
  rewrite current_dict_after_run, about_run_plan.
  unfold upsert_plan, tombstone_plan.
  destruct (silver_dict (silver_salarie_view d) !! k) as [r|] eqn:Hr;
    destruct (current_dict (select_current d) !! k) as [g|] eqn:Hg;
    try destruct (negb _ || _); try destruct (negb _); simpl; rewrite ?Hg;
    split; eauto; intros [[? [=]]|[? [=]]].
Qed.

(** X. When the history satisfies I1, a completed run leaves exactly one
    current row for every key of the snapshot and for every key that had a
    current row. *)
Theorem exactly_one_current a as_of_date oracle d d' l k :
  main a as_of_date oracle d = (Ok tt, d', l) ->
  I1 (gold_salarie_histo d) ->
  is_Some (silver_dict (silver_salarie_view d) !! k)
  \/ current_of k (gold_salarie_histo d) ≠ [] ->
  length (current_of k (gold_salarie_histo d')) = 1%nat.
Proof.
  intros Hmain HI Hk. apply main_inv in Hmain as (b & _ & -> & ->). simpl.
  rewrite current_of_run.
  destruct (about_run_plan_cases (silver_salarie_view d) d as_of_date b k)
    as [[Hnil Hwhy]|[(r & -> & _)|(r & del & -> & _)]]; cbv zeta in *; [|done..].
  rewrite Hnil. simpl.
  assert (current_of k (gold_salarie_histo d) ≠ []) as Hne.
  { destruct Hk as [[r Hr]|Hne]; [|done].
    destruct Hwhy as [Hnone|[g Hg]]; [congruence|].
    rewrite current_dict_lookup in Hg. intros E. by rewrite E in Hg. }
  specialize (HI k).
  destruct (current_of k (gold_salarie_histo d)) as [|x [|y rest]];
    [done | done | simpl in HI; lia].
Qed.
End SalarieMore.

(** ** Outcomes of a transaction *)

Section OutcomeFacts.
Context {DB Stmt : Type} (step : DB -> Stmt -> DB).
Implicit Types c : conn DB Stmt.
Implicit Types P : exn -> Prop.

Lemma bind_query {A B} (q : DB -> A) (k : A -> M DB Stmt B) c :
  bind (query q) k c
  = if outage c (executed c) then (Raise OperationalError, tick c)
    else k (q (pending c)) (tick c).
Proof. unfold bind, query. by destruct (outage c (executed c)). Qed.

Lemma proceeds_ret {A} P (Q : Prop) (a : A) : Q -> proceeds step P Q (ret a).
Proof.
  intros HQ c r c' [= <- <-]. repeat split; try done.
  exists []. by rewrite app_nil_r.
Qed.

Lemma proceeds_raise {A} P (Q : Prop) e : P e -> proceeds step P Q (raise (A := A) e).
Proof.
  intros HP c r c' [= <- <-]. repeat split; try done.
  - exists []. by rewrite app_nil_r.
  - by right.
Qed.

Lemma proceeds_exec P w f :
  (forall d, f d = step d w) -> proceeds step P True (exec w f).
Proof.
  intros Hf c r c'. unfold exec.
  destruct (outage c (executed c)) eqn:Ho; intros [= <- <-]; simpl;
    repeat split; try done.
  - exists []. by rewrite app_nil_r.
  - left. eauto.
  - exists [w]. by rewrite Hf.
Qed.

Lemma proceeds_weaken {A} P P' (Q Q' : Prop) (m : M DB Stmt A) :
  (forall e, P e -> P' e) -> (Q -> Q') ->
  proceeds step P Q m -> proceeds step P' Q' m.
Proof.
  intros HP HQ Hm c r c' E. destruct (Hm _ _ _ E) as (Hc & Ho & Hd & Hr).
  repeat split; try done. destruct r as [a|e]; [auto|].
  destruct Hr as [?|?]; auto.
Qed.

Lemma proceeds_bind {A B} P (Q1 Q2 : Prop) (m : M DB Stmt A) (k : A -> M DB Stmt B) :
  proceeds step P Q1 m -> (forall a, proceeds step P Q2 (k a)) ->
  proceeds step P (Q1 /\ Q2) (bind m k).
Proof.
  intros Hm Hk c r c'. unfold bind.
  destruct (m c) as [[a|e] c1] eqn:E;
    destruct (Hm _ _ _ E) as (Hc & Ho & (done1 & Hi & Hp) & Hr).
  - intros E2. destruct (Hk _ _ _ _ E2) as (Hc2 & Ho2 & (done2 & Hi2 & Hp2) & Hr2).
    split; [congruence|]. split; [congruence|]. split.
    + exists (done1 ++ done2). by rewrite Hi2, Hi, Hp2, Hp, app_assoc, foldl_app.
    + destruct r as [b|e]; [done|].
      destruct Hr2 as [(-> & n & Hn)|?]; [left|by right].
      split; [done|]. exists n. congruence.
  - intros [= <- <-]. repeat split; eauto.
Qed.

Lemma proceeds_for_each {K} P (Q : K -> Prop) (ks : list K)
    (body : K -> M DB Stmt unit) :
  (forall k, k ∈ ks -> proceeds step P (Q k) (body k)) ->
  proceeds step P (forall k, k ∈ ks -> Q k) (for_each ks body).
Proof.
  induction ks as [|k ks IH]; intros H; simpl.
  - apply proceeds_ret. by intros k ?%elem_of_nil.
  - apply (proceeds_weaken P P (Q k /\ forall k', k' ∈ ks -> Q k')); [done| |].
    + intros [Hk Hks] k' [->|?]%elem_of_cons; auto.
    + apply proceeds_bind; [apply H; left|]. intros _. apply IH.
      intros k' Hk'. apply H. by right.
Qed.

Lemma transacts_commit P : transacts step P True commit.
Proof.
  intros c r c'. unfold commit.
  destruct (outage c (executed c)) eqn:Ho; intros [= <- <-]; simpl;
    (split; [done|]); exists []; rewrite app_nil_r; (split; [done|]).
  - split; [done|]. left. eauto.
  - done.
Qed.

Lemma transacts_bind {A} P (Q1 Q2 : Prop) (m : M DB Stmt A)
    (k : A -> M DB Stmt unit) :
  proceeds step P Q1 m -> (forall a, transacts step P Q2 (k a)) ->
  transacts step P (Q1 /\ Q2) (bind m k).
Proof.
  intros Hm Hk c r c'. unfold bind.
  destruct (m c) as [[a|e] c1] eqn:E;
    destruct (Hm _ _ _ E) as (Hc & Ho & (done1 & Hi & Hp) & Hr).
  - intros E2. destruct (Hk _ _ _ _ E2) as (Ho2 & done2 & Hi2 & Hr2).
    split; [congruence|]. exists (done1 ++ done2).
    split; [by rewrite Hi2, Hi, app_assoc|].
    destruct r as [[]|e].
    + destruct Hr2 as [-> ?]. by rewrite Hp, foldl_app.
    + destruct Hr2 as [-> Hr2]. split; [done|].
      destruct Hr2 as [(-> & n & Hn)|?]; [left|by right].
      split; [done|]. exists n. congruence.
  - intros [= <- <-]. split; [done|]. exists done1. eauto.
Qed.

(** The script around a transaction: what is committed when it ends. *)
Lemma try_run_transacts P (Q : Prop) (m : M DB Stmt unit) c r d' l :
  transacts step P Q m ->
  try_run m c = (r, d', l) ->
  exists done, l = issued c ++ done
    /\ match r with
       | Ok _ => d' = foldl step (pending c) done /\ Q
       | Raise e =>
           d' = committed c
           /\ ((e = OperationalError /\ exists n, outage c n = true) \/ P e)
       end.
Proof.
  intros Hm. unfold try_run. destruct (m c) as [[[]|e] c1] eqn:E;
    destruct (Hm _ _ _ E) as (Ho & ws & Hi & Hr); intros [= <- <- <-];
    exists ws; (split; [done|]); simpl.
  - done.
  - by destruct Hr as [-> ?].
Qed.
End OutcomeFacts.

(** ** A run of [paiement] *)

Section PaiementRun.
Context `{Amounts}.
Import Paiement.
Implicit Types c : conn db stmt.
Implicit Types k ref : string.

Lemma paiement_proceeds_close P ref as_of_date :
  proceeds paiement_step P True (close_current ref as_of_date).
Proof. by apply proceeds_exec. Qed.

Lemma paiement_proceeds_insert P r as_of_date b del :
  proceeds paiement_step P True (insert_version r as_of_date b del).
Proof. by apply proceeds_exec. Qed.

Lemma paiement_proceeds_float (x : option decimal) :
  proceeds paiement_step (fun e => e = float_error /\ x = None) (x ≠ None)
           (float (DB := db) (Stmt := stmt) x).
Proof.
  destruct x as [n|]; [by apply proceeds_ret | by apply proceeds_raise].
Qed.

Lemma paiement_proceeds_upsert silver gold_current as_of_date b ref :
  ref ∈ dom silver ->
  proceeds paiement_step (fun _ => False) True
           (upsert silver gold_current as_of_date b ref).
Proof.
  intros [r Hr]%elem_of_dom. unfold upsert. rewrite Hr.
  destruct (gold_current !! ref) as [g|]; [|apply paiement_proceeds_insert].
  destruct (negb _ || _); [|by apply proceeds_ret].
  apply (proceeds_weaken _ (fun _ => False) _ (True /\ True)); [done | done |].
  apply proceeds_bind; [apply paiement_proceeds_close|].
  intros _. apply paiement_proceeds_insert.
Qed.

Lemma paiement_proceeds_tombstone gold_current as_of_date b ref g :
  gold_current !! ref = Some g ->
  proceeds paiement_step
           (fun e => e = float_error
                     /\ g_is_deleted g = false /\ g_montant_paye g = None)
           (~ (g_is_deleted g = false /\ g_montant_paye g = None))
           (tombstone gold_current as_of_date b ref).
Proof.
  intros Hg. unfold tombstone. rewrite Hg.
  destruct (g_is_deleted g) eqn:Hd; simpl.
  { apply proceeds_ret. by intros [? _]. }
  apply (proceeds_weaken _
           (fun e => e = float_error /\ g_montant_paye g = None) _
           (True /\ (g_montant_paye g ≠ None /\ True))).
  - intros e [-> ?]. done.
  - intros (_ & Hne & _) [_ ?]. done.
  - apply proceeds_bind; [apply paiement_proceeds_close|]. intros _.
    apply proceeds_bind; [apply paiement_proceeds_float|]. intros montant.
    apply paiement_proceeds_insert.
Qed.

(** What a run of [paiement] leaves behind. *)
Lemma paiement_main_inv a as_of_date oracle d r d' l :
  main a as_of_date oracle d = (r, d', l) ->
  let found :=
    select_latest_batch (batch_dataset a) as_of_date (etl_batch_run d) in
  match r with
  | Ok _ =>
      d' = foldl paiement_step d l /\ is_Some found
      /\ forall k, ~ paiement_doomed d k
  | Raise e =>
      d' = d
      /\ ((e = OperationalError /\ exists n, oracle n = true)
          \/ (e = RuntimeError ("No SUCCESS batch found for dataset="
                                +:+ batch_dataset a +:+ " as_of_date=" +:+ as_of a)
              /\ found = None /\ oracle O = false)
          \/ (e = float_error /\ exists k, paiement_doomed d k))
  end.
Proof.
  intros Hmain found. unfold main, main_try, get_latest_batch_id in Hmain.
  set (c0 := get_conn oracle d) in Hmain.
  set (silver := silver_dict (silver_paiement_view d)).
  set (gold_current := current_dict (select_current d)).
  set (P := fun e => e = float_error /\ exists k, paiement_doomed d k).
  set (Q := forall k, k ∈ elements (dom gold_current ∖ dom silver) ->
                      forall g, gold_current !! k = Some g ->
                                ~ (g_is_deleted g = false /\ g_montant_paye g = None)).
  assert (forall b,
            transacts paiement_step P (True /\ Q /\ True)
              (bind (for_each (elements (dom silver))
                       (upsert silver gold_current as_of_date b))
                 (fun _ =>
                    bind (for_each (elements (dom gold_current ∖ dom silver))
                            (tombstone gold_current as_of_date b))
                         (fun _ => commit)))) as Hrest.
  { intros b. apply transacts_bind.
    - apply (proceeds_weaken _ (fun _ => False) _
               (forall k, k ∈ elements (dom silver) -> True)); [done | done |].
      apply proceeds_for_each. intros k Hk%elem_of_elements.
      by apply paiement_proceeds_upsert.
    - intros _. apply transacts_bind; [|intros _; apply transacts_commit].
      apply proceeds_for_each. intros k Hk.
      pose proof Hk as Hk'. apply elem_of_elements, elem_of_difference in Hk' as [Hg Hs].
      apply elem_of_dom in Hg as [g Hg]. apply not_elem_of_dom in Hs.
      apply (proceeds_weaken _
               (fun e => e = float_error
                         /\ g_is_deleted g = false /\ g_montant_paye g = None) _
               (~ (g_is_deleted g = false /\ g_montant_paye g = None))).
      + intros e (-> & Hd & Hm). split; [done|]. exists k. split; [done|]. eauto.
      + intros Hn g' Hg'. congruence.
      + by apply paiement_proceeds_tombstone. }
  unfold try_run in Hmain.
  rewrite bind_assoc, bind_query in Hmain. simpl in Hmain.
  destruct (oracle O) eqn:Ho0.
  { injection Hmain as <- <- <-. split; [done|]. left. eauto. }
  fold found in Hmain. destruct found as [b|] eqn:Hfound.
  2:{ injection Hmain as <- <- <-. split; [done|]. right. by left. }
  unfold fetch_silver_paiement, fetch_gold_current in Hmain.
  change (bind (ret b) ?k (tick c0)) with (k b (tick c0)) in Hmain.
  cbv beta in Hmain.
  rewrite bind_assoc, bind_query in Hmain. simpl in Hmain.
  destruct (oracle 1%nat) eqn:Ho1.
  { injection Hmain as <- <- <-. split; [done|]. left. eauto. }
  change (bind (ret ?x) ?k ?c) with (k x c) in Hmain. cbv beta in Hmain.
  rewrite bind_assoc, bind_query in Hmain. simpl in Hmain.
  destruct (oracle 2%nat) eqn:Ho2.
  { injection Hmain as <- <- <-. split; [done|]. left. eauto. }
  change (bind (ret ?x) ?k ?c) with (k x c) in Hmain. cbv beta in Hmain.
  fold silver gold_current in Hmain.
  match type of Hmain with
  | context [bind ?m ?k ?c] =>
      pose proof (try_run_transacts paiement_step P _ (bind m k) c r d' l (Hrest b))
        as Hrun
  end.
  unfold try_run in Hrun. specialize (Hrun Hmain).
  destruct Hrun as (ws & Hl & Hr). simpl in Hl, Hr. subst l.
  destruct r as [[]|e].
  - destruct Hr as (-> & _ & HQ & _). split; [done|]. split; [done|].
    intros k (Hs & g & Hg & Hd & Hm). apply (HQ k) with g; [|done..].
    apply elem_of_elements, elem_of_difference. split.
    + apply elem_of_dom. eauto.
    + by apply not_elem_of_dom.
  - destruct Hr as (-> & [(-> & Hn)|HP]); (split; [done|]).
    + by left.
    + right. by right.
Qed.
End PaiementRun.

Section PaiementTheorems.
Context `{Amounts}.
Import Paiement.

(** X. A run of [paiement] is atomic, whatever makes it raise: either it
    completes and all the write statements it executed are committed, or it
    raises and the committed database is the one it started from. *)
Theorem paiement_run_atomic a as_of_date oracle d r d' l :
  main a as_of_date oracle d = (r, d', l) ->
  r = Ok tt /\ d' = foldl paiement_step d l
  \/ (exists e, r = Raise e) /\ d' = d.
Proof.
  intros Hmain. apply paiement_main_inv in Hmain. destruct r as [[]|e].
  - left. by destruct Hmain as (-> & _).
  - right. destruct Hmain as (-> & _). eauto.
Qed.

End PaiementTheorems.

(** ** A run of [demande_avance], enriched with the payment *)

Section DemandeAvanceRun.
Context `{Amounts}.
Import DemandeAvance.
Implicit Types c : conn db stmt.
Implicit Types k ref : string.

Lemma demande_proceeds_close P ref as_of_date :
  proceeds demande_step P True (close_current ref as_of_date).
Proof. by apply proceeds_exec. Qed.

Lemma demande_proceeds_insert P r as_of_date b del :
  proceeds demande_step P True (insert_version r as_of_date b del).
Proof. by apply proceeds_exec. Qed.

Lemma demande_proceeds_float (x : option decimal) :
  proceeds demande_step (fun e => e = float_error /\ x = None) (x ≠ None)
           (float (DB := db) (Stmt := stmt) x).
Proof.
  destruct x as [n|]; [by apply proceeds_ret | by apply proceeds_raise].
Qed.

Lemma demande_proceeds_upsert silver gold_current as_of_date b ref :
  ref ∈ dom silver ->
  proceeds demande_step (fun _ => False) True
           (upsert silver gold_current as_of_date b ref).
Proof.
  intros [r Hr]%elem_of_dom. unfold upsert. rewrite Hr.
  destruct (gold_current !! ref) as [g|]; [|apply demande_proceeds_insert].
  destruct (negb _ || _); [|by apply proceeds_ret].
  apply (proceeds_weaken _ (fun _ => False) _ (True /\ True)); [done | done |].
  apply proceeds_bind; [apply demande_proceeds_close|].
  intros _. apply demande_proceeds_insert.
Qed.

Lemma demande_proceeds_tombstone gold_current as_of_date b ref g :
  gold_current !! ref = Some g ->
  proceeds demande_step
           (fun e => e = float_error
                     /\ g_is_deleted g = false /\ g_montant_demande g = None)
           (~ (g_is_deleted g = false /\ g_montant_demande g = None))
           (tombstone gold_current as_of_date b ref).
Proof.
  intros Hg. unfold tombstone. rewrite Hg.
  destruct (g_is_deleted g) eqn:Hd; simpl.
  { apply proceeds_ret. by intros [? _]. }
  apply (proceeds_weaken _
           (fun e => e = float_error /\ g_montant_demande g = None) _
           (True /\ (g_montant_demande g ≠ None /\ (True /\ True)))).
  - intros e [-> ?]. done.
  - intros (_ & Hne & _) [_ ?]. done.
  - apply proceeds_bind; [apply demande_proceeds_close|]. intros _.
    apply proceeds_bind; [apply demande_proceeds_float|]. intros demande.
    apply proceeds_bind; [|intros paye; apply demande_proceeds_insert].
    destruct (g_montant_paye g) as [x|]; [|by apply proceeds_ret].
    apply (proceeds_weaken _ (fun e => e = float_error /\ Some x = None) _
             (Some x ≠ None /\ True)); [by intros e [_ ?] | done |].
    apply proceeds_bind; [apply demande_proceeds_float|].
    intros p. by apply proceeds_ret.
Qed.

(** What a run of the enriched [demande_avance] leaves behind. *)
Lemma demande_main_inv a as_of_date oracle d r d' l :
  main a as_of_date oracle d = (r, d', l) ->
  let found :=
    select_latest_batch (batch_dataset a) as_of_date (etl_batch_run d) in
  match r with
  | Ok _ =>
      d' = foldl demande_step d l /\ is_Some found
      /\ forall k, ~ demande_doomed d k
  | Raise e =>
      d' = d
      /\ ((e = OperationalError /\ exists n, oracle n = true)
          \/ (e = RuntimeError ("No SUCCESS batch found for dataset="
                                +:+ batch_dataset a +:+ " as_of_date=" +:+ as_of a)
              /\ found = None /\ oracle O = false)
          \/ (e = float_error /\ exists k, demande_doomed d k))
  end.
Proof.
  intros Hmain found. unfold main, main_try, get_latest_batch_id in Hmain.
  set (c0 := get_conn oracle d) in Hmain.
  set (silver := silver_dict (select_demande_with_paiement d)).
  set (gold_current := current_dict (select_current d)).
  set (P := fun e => e = float_error /\ exists k, demande_doomed d k).
  set (Q := forall k, k ∈ elements (dom gold_current ∖ dom silver) ->
                      forall g, gold_current !! k = Some g ->
                                ~ (g_is_deleted g = false /\ g_montant_demande g = None)).
  assert (forall b,
            transacts demande_step P (True /\ Q /\ True)
              (bind (for_each (elements (dom silver))
                       (upsert silver gold_current as_of_date b))
                 (fun _ =>
                    bind (for_each (elements (dom gold_current ∖ dom silver))
                            (tombstone gold_current as_of_date b))
                         (fun _ => commit)))) as Hrest.
  { intros b. apply transacts_bind.
    - apply (proceeds_weaken _ (fun _ => False) _
               (forall k, k ∈ elements (dom silver) -> True)); [done | done |].
      apply proceeds_for_each. intros k Hk%elem_of_elements.
      by apply demande_proceeds_upsert.
    - intros _. apply transacts_bind; [|intros _; apply transacts_commit].
      apply proceeds_for_each. intros k Hk.
      pose proof Hk as Hk'. apply elem_of_elements, elem_of_difference in Hk' as [Hg Hs].
      apply elem_of_dom in Hg as [g Hg]. apply not_elem_of_dom in Hs.
      apply (proceeds_weaken _
               (fun e => e = float_error
                         /\ g_is_deleted g = false /\ g_montant_demande g = None) _
               (~ (g_is_deleted g = false /\ g_montant_demande g = None))).
      + intros e (-> & Hd & Hm). split; [done|]. exists k. split; [done|]. eauto.
      + intros Hn g' Hg'. congruence.
      + by apply demande_proceeds_tombstone. }
  unfold try_run in Hmain.
  rewrite bind_assoc, bind_query in Hmain. simpl in Hmain.
  destruct (oracle O) eqn:Ho0.
  { injection Hmain as <- <- <-. split; [done|]. left. eauto. }
  fold found in Hmain. destruct found as [b|] eqn:Hfound.
  2:{ injection Hmain as <- <- <-. split; [done|]. right. by left. }
  unfold fetch_silver_demande_with_paiement, fetch_gold_current in Hmain.
  change (bind (ret b) ?k (tick c0)) with (k b (tick c0)) in Hmain.
  cbv beta in Hmain.
  rewrite bind_assoc, bind_query in Hmain. simpl in Hmain.
  destruct (oracle 1%nat) eqn:Ho1.
  { injection Hmain as <- <- <-. split; [done|]. left. eauto. }
  change (bind (ret ?x) ?k ?c) with (k x c) in Hmain. cbv beta in Hmain.
  rewrite bind_assoc, bind_query in Hmain. simpl in Hmain.
  destruct (oracle 2%nat) eqn:Ho2.
  { injection Hmain as <- <- <-. split; [done|]. left. eauto. }
  change (bind (ret ?x) ?k ?c) with (k x c) in Hmain. cbv beta in Hmain.
  fold silver gold_current in Hmain.
  match type of Hmain with
  | context [bind ?m ?k ?c] =>
      pose proof (try_run_transacts demande_step P _ (bind m k) c r d' l (Hrest b))
        as Hrun
  end.
  unfold try_run in Hrun. specialize (Hrun Hmain).
  destruct Hrun as (ws & Hl & Hr). simpl in Hl, Hr. subst l.
  destruct r as [[]|e].
  - destruct Hr as (-> & _ & HQ & _). split; [done|]. split; [done|].
    intros k (Hs & g & Hg & Hd & Hm). apply (HQ k) with g; [|done..].
    apply elem_of_elements, elem_of_difference. split.
    + apply elem_of_dom. eauto.
    + by apply not_elem_of_dom.
  - destruct Hr as (-> & [(-> & Hn)|HP]); (split; [done|]).
    + by left.
    + right. by right.
Qed.
End DemandeAvanceRun.

Section DemandeAvanceTheorems.
Context `{Amounts}.
Import DemandeAvance.

(** X. A run of the enriched [demande_avance] is atomic, whatever makes it
    raise: either it completes and all the write statements it executed are
    committed, or it raises and the committed database is the one it started
    from. *)
Theorem demande_run_atomic a as_of_date oracle d r d' l :
  main a as_of_date oracle d = (r, d', l) ->
  r = Ok tt /\ d' = foldl demande_step d l
  \/ (exists e, r = Raise e) /\ d' = d.
Proof.
  intros Hmain. apply demande_main_inv in Hmain. destruct r as [[]|e].
  - left. by destruct Hmain as (-> & _).
  - right. destruct Hmain as (-> & _). eauto.
Qed.

End DemandeAvanceTheorems.

Section SalarieMoreWitnesses.
Import Salarie SalarieSample.

Lemma salarie_tombstone_classification_witness :
  exists batch_id,
    select_latest_batch (batch_dataset cli) day1 (etl_batch_run before)
    = Some batch_id
    /\ about "S3" stmts
       = [Close "S3" day1;
          Insert (mkHisto "S3" (Some "1003") None (Some "Paul") day1
                    open_end true true
                    (md5_hash [cell (Some "1003"); cell None;
                               cell (Some "Paul"); PBool true])
                    batch_id)].
Proof.
  apply (salarie_tombstone_classification cli day1 healthy before after stmts "S3"
           (mkCurrent (Some "1003") None (Some "Paul")
              (md5_hash [PStr "1003"; PNone; PStr "Paul"; PBool false]) false));
    by vm_compute.
Defined.

Lemma fetch_silver_salarie_last_wins_witness :
  let c := get_conn healthy before in
  exists silver,
    fetch_silver_salarie c = (Ok silver, tick c)
    /\ (forall k, silver !! k
                  = silver_row_of
                      <$> last (silver_rows_of k (silver_salarie_view (pending c))))
    /\ forall k r, silver !! k = Some r ->
         ref_salarie r = k
         /\ (exists x, x ∈ silver_salarie_view (pending c)
               /\ nni r = Some (default "None" (s_nni x))
               /\ nom r = Some (default "None" (s_nom x))
               /\ prenom r = Some (default "None" (s_prenom x))).
Proof.
  apply (fetch_silver_salarie_last_wins (get_conn healthy before)). reflexivity.
Defined.

Lemma fetch_gold_current_last_wins_witness :
  let c := get_conn healthy corrupted in
  exists gold_current,
    fetch_gold_current c = (Ok gold_current, tick c)
    /\ (forall k, gold_current !! k
                  = to_current
                      <$> last (current_of k (gold_salarie_histo (pending c))))
    /\ forall k, k ∈ dom gold_current
                 <-> current_of k (gold_salarie_histo (pending c)) ≠ [].
Proof.
  apply (fetch_gold_current_last_wins (get_conn healthy corrupted)). reflexivity.
Defined.


Lemma closed_versions_untouched_witness :
  gold_salarie_histo after !! 3%nat
  = Some (mkHisto "S5" (Some "1005") (Some "Moreau") (Some "Lea") (mkDate 2023 11 1)
            (mkDate 2023 12 1) false false
            (md5_hash [PStr "1005"; PStr "Moreau"; PStr "Lea"; PBool false]) 1).
Proof.
  apply (closed_versions_untouched cli day1 healthy before (Ok tt) after stmts);
    by vm_compute.
Defined.

Lemma other_keys_untouched_witness :
  versions_of "S4" (gold_salarie_histo after)
  = versions_of "S4" (gold_salarie_histo before).
Proof.
  apply (other_keys_untouched cli day1 healthy before (Ok tt) after stmts "S4").
  - by vm_compute.
  - apply Forall_forall. vm_compute. repeat (constructor; [discriminate|]).
    constructor.
Defined.

Lemma closed_and_reopened_at_as_of_witness :
  day1 = day1
  /\ (forall i v, gold_salarie_histo before !! i = Some v ->
                  h_ref_salarie v = "S1" -> h_is_current v = true ->
                  gold_salarie_histo after !! i = Some (closed_at day1 v))
  /\ exists w, current_of "S1" (gold_salarie_histo after) = [w]
               /\ h_valid_from w = day1 /\ h_valid_to w = open_end.
Proof.
  apply (closed_and_reopened_at_as_of cli day1 healthy before after stmts "S1" day1).
  - by vm_compute.
  - vm_compute. left.
Defined.

Lemma history_in_line_with_snapshot_witness :
  match silver_dict (silver_salarie_view before) !! "S6" with
  | Some r =>
      exists g, current_dict (select_current after) !! "S6" = Some g
        /\ g_is_deleted g = false
        /\ g_record_hash g
           = md5_hash [cell (nni r); cell (nom r); cell (prenom r); PBool false]
  | None =>
      forall g, current_dict (select_current after) !! "S6" = Some g ->
                g_is_deleted g = true
  end.
Proof.
  apply (history_in_line_with_snapshot cli day1 healthy before after stmts "S6").
  by vm_compute.
Defined.

Lemma current_keys_after_run_witness :
  dom (current_dict (select_current after))
  = dom (current_dict (select_current before))
    ∪ dom (silver_dict (silver_salarie_view before)).
Proof.
  apply (current_keys_after_run cli day1 healthy before after stmts).
  by vm_compute.
Defined.

Lemma exactly_one_current_witness :
  length (current_of "S3" (gold_salarie_histo after)) = 1%nat.
Proof.
  apply (exactly_one_current cli day1 healthy before after stmts "S3").
  - by vm_compute.
  - apply I1_by_rows. repeat (constructor; [vm_compute; lia|]). constructor.
  - right. by vm_compute.
Defined.
End SalarieMoreWitnesses.

Section NullAmountWitnesses.

Lemma paiement_run_atomic_witness :
  let run := Paiement.main (H := unit_amounts) PaiementSample.cli2 day2 healthy
               PaiementSample.stored in
  fst (fst run) = Ok tt
  /\ snd (fst run) = foldl paiement_step PaiementSample.stored (snd run)
  \/ (exists e, fst (fst run) = Raise e) /\ snd (fst run) = PaiementSample.stored.
Proof.
  apply (paiement_run_atomic (H := unit_amounts) PaiementSample.cli2 day2 healthy).
  by vm_compute.
Defined.


Lemma demande_run_atomic_witness :
  let run := DemandeAvance.main (H := unit_amounts) DemandeAvanceSample.cli1 day1
               healthy DemandeAvanceSample.first_day in
  fst (fst run) = Ok tt
  /\ snd (fst run) = foldl demande_step DemandeAvanceSample.first_day (snd run)
  \/ (exists e, fst (fst run) = Raise e)
     /\ snd (fst run) = DemandeAvanceSample.first_day.
Proof.
  apply (demande_run_atomic (H := unit_amounts) DemandeAvanceSample.cli1 day1 healthy).
  by vm_compute.
Defined.

End NullAmountWitnesses.

(** ** A run of [demande_avance], the request alone *)

Section DemandeOnlyRun.
Context `{Amounts}.
Import DemandeOnly.
Implicit Types c : conn db stmt.





End DemandeOnlyRun.

Section DemandeOnlyWitness.
Import DemandeOnly.

End DemandeOnlyWitness.

(** ** Batches of the loader *)

Section TxFacts.
Context {DB Stmt : Type} (at_end : DB -> DB).
Implicit Types c : conn DB Stmt.

Lemma tbind_returns {A B} (m : Tx DB Stmt A) (k : A -> Tx DB Stmt B) c a c' :
  m c = (Returns a, c') -> tbind m k c = k a c'.
Proof. unfold tbind. by intros ->. Qed.

Lemma tbind_raises {A B} (m : Tx DB Stmt A) (k : A -> Tx DB Stmt B) c e c' :
  m c = (Raises e, c') -> tbind m k c = (Raises e, c').
Proof. unfold tbind. by intros ->. Qed.

Lemma execute_healthy {A} (w : list Stmt) (f : DB -> dberror + A * DB) c :
  outage c = healthy ->
  execute w f c =
    match f (pending c) with
    | inl e => (Raises e, tick c)
    | inr (a, d) =>
        (Returns a, mkConn (committed c) d (S (executed c)) healthy (issued c ++ w))
    end.
Proof. unfold execute. intros ->. simpl. by destruct (f _) as [|[]]. Qed.

Lemma tcommit_healthy c :
  outage c = healthy ->
  tcommit at_end c =
    (Returns tt, mkConn (at_end (pending c)) (at_end (pending c)) (S (executed c))
                        healthy (issued c)).
Proof. unfold tcommit. by intros ->. Qed.
End TxFacts.

Section Registration.
Context `{Values}.
Import Common.
Implicit Types d : db.

Lemma same_file_app dataset as_of_date checksum t1 t2 :
  same_file dataset as_of_date checksum (t1 ++ t2)
  = same_file dataset as_of_date checksum t1
    ++ same_file dataset as_of_date checksum t2.
Proof. apply filter_app. Qed.

Lemma same_file_finish dataset as_of_date checksum b status message now t :
  same_file dataset as_of_date checksum (map (finish_row b status message now) t)
  = map (finish_row b status message now) (same_file dataset as_of_date checksum t).
Proof.
  unfold same_file. induction t as [|r t IH]; [done|]. simpl.
  rewrite !filter_cons.
  assert (Hsame : r_dataset (finish_row b status message now r) = r_dataset r
                  /\ r_as_of_date (finish_row b status message now r) = r_as_of_date r
                  /\ r_source_checksum (finish_row b status message now r)
                     = r_source_checksum r)
    by (unfold finish_row; by destruct (bool_decide _)).
  destruct Hsame as (-> & -> & ->).
  destruct (decide _); simpl; by rewrite IH.
Qed.

Lemma finish_row_fresh b status message now t :
  Forall (fun r => r_batch_id r ≠ b) t ->
  map (finish_row b status message now) t = t.
Proof.
  induction 1 as [|r t Hr _ IH]; [done|]. simpl. rewrite IH. f_equal.
  unfold finish_row. by rewrite bool_decide_eq_false_2.
Qed.

(** X. The outcomes of [register_batch] on a fresh connection: the file is
    skipped and nothing is written; or a STARTED row is inserted and
    committed before its id is returned; or the connection is lost and
    nothing is committed.  The server refuses none of its statements. *)
Theorem register_batch_outcomes dataset as_of_date source checksum new_id
    oracle d r c' :
  register_batch dataset as_of_date source checksum new_id (get_conn oracle d)
  = (r, c') ->
  let files := same_file dataset as_of_date checksum (etl_batch_run d) in
  let started :=
    mkRun new_id dataset as_of_date source checksum "STARTED" None None in
  r = Returns (-1)
  /\ (exists b, b ∈ files /\ (r_status b = "SUCCESS" \/ r_status b = "SKIPPED"))
  /\ committed c' = d /\ pending c' = d /\ issued c' = []
  \/ r = Returns new_id
     /\ (files = [] \/ exists b, b ∈ files /\ r_status b ≠ "SUCCESS"
                                 /\ r_status b ≠ "SKIPPED")
     /\ committed c' = drop_tmp (set_batch_run d (etl_batch_run d ++ [started]))
     /\ pending c' = committed c' /\ issued c' = [InsertBatch started]
  \/ r = Raises ConnectionLost /\ (exists n, oracle n = true) /\ committed c' = d.
Proof.
  unfold register_batch, tbind, execute, commit, tcommit, tret, get_conn. simpl.
  destruct (oracle 0%nat) eqn:H0; simpl.
  { intros [= <- <-]. right. right. eauto. }
  destruct (head _) as [b|] eqn:Hb; simpl.
  - assert (b ∈ same_file dataset as_of_date checksum (etl_batch_run d)) as Hin.
    { destruct (same_file _ _ _ _); [done|]. injection Hb as ->. left. }
    destruct (bool_decide (r_status b = "SUCCESS")) eqn:E1; simpl.
    { intros [= <- <-]. left. apply bool_decide_eq_true in E1.
      split_and!; eauto. }
    destruct (bool_decide (r_status b = "SKIPPED")) eqn:E2; simpl.
    { intros [= <- <-]. left. apply bool_decide_eq_true in E2.
      split_and!; eauto. }
    apply bool_decide_eq_false in E1, E2.
    destruct (oracle 1%nat) eqn:H1; simpl; [intros [= <- <-]; right; right; eauto|].
    destruct (oracle 2%nat) eqn:H2; simpl; intros [= <- <-];
      [right; right; eauto|].
    right. left. split_and!; eauto.
  - destruct (oracle 1%nat) eqn:H1; simpl; [intros [= <- <-]; right; right; eauto|].
    destruct (oracle 2%nat) eqn:H2; simpl; intros [= <- <-];
      [right; right; eauto|].
    right. left. split_and!; eauto. left.
    by destruct (same_file _ _ _ _).
Qed.

(** X. A file that was never registered is registered on a healthy connection,
    and the batch row that [finish_batch] closes decides what the next
    registration of the same file does: after SUCCESS or SKIPPED it returns
    -1 and writes nothing, after any other status it inserts a second
    STARTED row. *)
Theorem register_batch_after_finish dataset as_of_date source checksum new_id
    status message now source' new_id' d :
  same_file dataset as_of_date checksum (etl_batch_run d) = [] ->
  Forall (fun r => r_batch_id r ≠ new_id) (etl_batch_run d) ->
  let finished :=
    mkRun new_id dataset as_of_date source checksum status (Some message)
          (Some now) in
  let started :=
    mkRun new_id' dataset as_of_date source' checksum "STARTED" None None in
  let skip :=
    bool_decide (status = "SUCCESS") || bool_decide (status = "SKIPPED") in
  exists c1,
    (id ← register_batch dataset as_of_date source checksum new_id;
     finish_batch id status message now)%tx (get_conn healthy d)
    = (Returns tt, c1)
    /\ committed c1 = pending c1
    /\ etl_batch_run (committed c1) = etl_batch_run d ++ [finished]
    /\ tables (committed c1) = tables d
    /\ let run := register_batch dataset as_of_date source' checksum new_id' c1 in
       fst run = Returns (if skip then -1 else new_id')
       /\ etl_batch_run (committed (snd run))
          = etl_batch_run d ++ finished :: (if skip then [] else [started])
       /\ tables (committed (snd run)) = tables d
       /\ issued (snd run)
          = issued c1 ++ (if skip then [] else [InsertBatch started]).
Proof.
  intros Hfile Hid finished started skip.
  eexists. split.
  { unfold register_batch, finish_batch, tbind, execute, commit, tcommit, tret,
      get_conn. simpl. rewrite Hfile. simpl. reflexivity. }
  assert (Hrows : map (finish_row new_id status message now)
            (etl_batch_run d ++
             [mkRun new_id dataset as_of_date source checksum "STARTED" None None])
          = etl_batch_run d ++ [finished]).
  { rewrite map_app, (finish_row_fresh _ _ _ _ _ Hid). simpl.
    unfold finish_row. simpl. by rewrite bool_decide_eq_true_2. }
  simpl. rewrite Hrows. split_and!; try done.
  all: unfold register_batch, tbind, execute, commit, tcommit, tret; simpl.
  all: rewrite same_file_app, Hfile; simpl; unfold same_file.
  all: rewrite filter_cons; simpl; rewrite decide_True by done; simpl.
  all: fold skip; destruct skip; simpl; try done.
  all: by rewrite <- ?app_assoc, ?app_nil_r.
Qed.

(** the batch lookup of the reconcilers when a row is appended *)
Lemma latest_batch_app dataset as_of_date t b :
  select_latest_batch dataset as_of_date (t ++ [b])
  = if bool_decide (b_dataset b = dataset /\ b_as_of_date b = as_of_date
                    /\ b_status b = "SUCCESS")
    then Some (match select_latest_batch dataset as_of_date t with
               | Some n => Z.max n (b_batch_id b)
               | None => b_batch_id b
               end)
    else select_latest_batch dataset as_of_date t.
Proof.
  unfold select_latest_batch, success_batches. rewrite filter_app, filter_cons.
  rewrite filter_nil. case_bool_decide as Hb.
  - rewrite decide_True by done. rewrite map_app. simpl.
    destruct (map b_batch_id _) as [|x xs]; [done|]. simpl. f_equal.
    clear. induction xs as [|y ys IH]; simpl; [lia|]. rewrite IH. lia.
  - rewrite decide_False by done. by rewrite app_nil_r.
Qed.

(** X. A batch becomes the one that the reconcilers resolve for its dataset and
    date when [finish_batch] closes it as SUCCESS, and not before: while it
    is STARTED, and when it is closed with another status, the batch lookup
    of the reconcilers gives what it gave before the registration. *)
Theorem finished_batch_is_resolved dataset as_of_date source checksum new_id
    status message now d :
  same_file dataset as_of_date checksum (etl_batch_run d) = [] ->
  Forall (fun r => r_batch_id r < new_id) (etl_batch_run d) ->
  let resolved (c : conn db stmt) :=
    select_latest_batch dataset as_of_date
      (as_batch_run <$> etl_batch_run (committed c)) in
  exists c1 c2,
    register_batch dataset as_of_date source checksum new_id (get_conn healthy d)
    = (Returns new_id, c1)
    /\ resolved c1 = resolved (get_conn healthy d)
    /\ finish_batch new_id status message now c1 = (Returns tt, c2)
    /\ resolved c2 = if bool_decide (status = "SUCCESS") then Some new_id
                     else resolved (get_conn healthy d).
Proof.
  intros Hfile Hid resolved.
  assert (Hfresh : Forall (fun r => r_batch_id r ≠ new_id) (etl_batch_run d))
    by (eapply Forall_impl; [done|]; simpl; lia).
  eexists _, _. split.
  { unfold register_batch, tbind, execute, commit, tcommit, tret, get_conn.
    simpl. rewrite Hfile. simpl. reflexivity. }
  split.
  { unfold resolved. simpl. rewrite fmap_app. simpl.
    rewrite latest_batch_app. simpl. by rewrite bool_decide_eq_false_2 by naive_solver. }
  split.
  { unfold finish_batch, tbind, execute, commit, tcommit. simpl. reflexivity. }
  assert (Hrows : map (finish_row new_id status message now)
            (etl_batch_run d ++
             [mkRun new_id dataset as_of_date source checksum "STARTED" None None])
          = etl_batch_run d ++
            [mkRun new_id dataset as_of_date source checksum status
                   (Some message) (Some now)]).
  { rewrite map_app, (finish_row_fresh _ _ _ _ _ Hfresh). simpl.
    unfold finish_row. simpl. by rewrite bool_decide_eq_true_2. }
  unfold resolved. simpl. rewrite Hrows.
  rewrite fmap_app. simpl. rewrite latest_batch_app. simpl.
  destruct (decide (status = "SUCCESS")) as [Hs|Hs].
  - rewrite !bool_decide_eq_true_2 by done. f_equal.
    destruct (select_latest_batch _ _ _) as [n|] eqn:Hn; [|done].
    apply (select_latest_batch_Some (mkArgs "" dataset)) in Hn
      as [(b & Hb & _ & <-) _].
    apply list_elem_of_fmap in Hb as (r & -> & Hr).
    rewrite Forall_forall in Hid. specialize (Hid r Hr). simpl. lia.
  - rewrite !bool_decide_eq_false_2; [done..|]. by intros (_ & _ & ?).
Qed.

End Registration.

(** ** Loading a snapshot *)

Lemma pages_concat {A} (n : nat) (l : list A) fuel :
  (0 < n)%nat -> (length l <= fuel)%nat -> concat (pages fuel n l) = l.
Proof.
  intros Hn. revert l. induction fuel as [|fuel IH]; intros l Hl.
  - destruct l; simpl in *; [done|lia].
  - destruct l as [|x l]; [done|]. cbn [pages concat].
    rewrite IH; [apply take_drop|].
    rewrite length_drop. simpl in *. lia.
Qed.

Lemma pages_cons {A} (n : nat) (x : A) (l : list A) fuel :
  pages (S fuel) n (x :: l) = take n (x :: l) :: pages fuel n (drop n (x :: l)).
Proof. done. Qed.

Section Snapshot.
Context `{Values}.
Import Common.
Implicit Types c : conn db stmt.
Implicit Types t : table.

Lemma kept_nil pk rows : kept pk [] rows = [].
Proof.
  unfold kept. induction rows as [|x rows IH]; [done|].
  rewrite filter_cons, decide_False; [done|]. simpl. by intros ?%elem_of_nil.
Qed.

Lemma insert_tmp_keys_run (pgs : list (list string)) c ks :
  outage c = healthy -> tmp_keys (pending c) = Some ks ->
  tfor_each pgs
    (fun page =>
       execute [InsertTmpKeys page]
         (fun d => match tmp_keys d with
                   | None => inl ProgrammingError
                   | Some ks =>
                       inr (tt, mkDb (etl_batch_run d) (tables d)
                                     (Some (ks ++ page)%list))
                   end)) c
  = (Returns tt,
     mkConn (committed c)
            (mkDb (etl_batch_run (pending c)) (tables (pending c))
                  (Some (ks ++ concat pgs)))
            (length pgs + executed c) healthy
            (issued c ++ map InsertTmpKeys pgs)).
Proof.
  revert c ks. induction pgs as [|pg pgs IH]; intros c ks Hc Hks.
  - simpl. unfold tret. rewrite !app_nil_r, <- Hks, <- Hc.
    by destruct c as [? [] ? ? ?].
  - cbn [tfor_each]. unfold tbind at 1. rewrite execute_healthy, Hks by done.
    rewrite (IH _ (ks ++ pg)) by done. simpl.
    rewrite <- !app_assoc. do 2 f_equal. lia.
Qed.

(** what a call of [sync_deletions_snapshot] does on a healthy connection *)
Lemma sync_run name pk pk_values c t :
  outage c = healthy ->
  tables (pending c) !! name = Some t ->
  tmp_keys (pending c) = None ->
  pk ∈ t_cols t ->
  exists c',
    sync_deletions_snapshot name pk pk_values c
    = (Returns (Z.of_nat (length (t_rows t))
                - Z.of_nat (length (kept pk pk_values (t_rows t)))), c')
    /\ committed c' = committed c /\ outage c' = healthy
    /\ pending c'
       = mkDb (etl_batch_run (pending c))
              (<[name := mkTable (t_cols t) (t_key t)
                                 (kept pk pk_values (t_rows t))]>
                 (tables (pending c)))
              (match pk_values with [] => None | _ => Some pk_values end).
Proof.
  intros Hc Ht Hk Hpk. unfold sync_deletions_snapshot.
  destruct pk_values as [|v vs].
  - rewrite execute_healthy, Ht by done. eexists. split; [|split_and!].
    + rewrite kept_nil. simpl. rewrite Z.sub_0_r. reflexivity.
    + done.
    + done.
    + simpl. unfold set_rows. by rewrite kept_nil, Hk.
  - assert (Hne : v :: vs ≠ []) by done.
    remember (v :: vs) as vals eqn:Hv. clear Hv.
    unfold tbind at 1. rewrite execute_healthy, Hk by done.
    unfold tbind at 1. erewrite insert_tmp_keys_run; [|done..].
    rewrite execute_healthy by done.
    cbn [pending tables tmp_keys app]. rewrite Ht.
    rewrite pages_concat by lia.
    rewrite bool_decide_eq_true_2 by done.
    eexists. split; [reflexivity|]. split_and!; [done..|].
    by destruct vals.
Qed.

Lemma length_filter_split {A} (P : A -> Prop) `{!forall x, Decision (P x)}
    (l : list A) :
  length l = (length (filter P l) + length (filter (fun x => ~ P x) l))%nat.
Proof.
  induction l as [|x l IH]; [done|]. rewrite !filter_cons.
  destruct (decide (P x)).
  - rewrite decide_False by tauto. simpl. lia.
  - rewrite decide_True by done. simpl. lia.
Qed.

(** X. On a healthy connection, [sync_deletions_snapshot] keeps the rows of
    the table whose key is the text of one of [pk_values], in their order,
    deletes the others, and returns how many it deleted; this holds for the
    empty list as for the others.  It touches no other table, and commits
    nothing. *)
Theorem sync_deletions_snapshot_keeps_listed name pk pk_values c t :
  outage c = healthy ->
  tables (pending c) !! name = Some t ->
  tmp_keys (pending c) = None ->
  pk ∈ t_cols t ->
  let listed (x : gmap string val) := x !! pk ∈ (Some ∘ text) <$> pk_values in
  exists c' t',
    sync_deletions_snapshot name pk pk_values c
    = (Returns (Z.of_nat (length (filter (fun x => ~ listed x) (t_rows t)))), c')
    /\ tables (pending c') !! name = Some t'
    /\ t_rows t' = filter listed (t_rows t)
    /\ t_cols t' = t_cols t /\ t_key t' = t_key t
    /\ (forall other, other ≠ name ->
          tables (pending c') !! other = tables (pending c) !! other)
    /\ etl_batch_run (pending c') = etl_batch_run (pending c)
    /\ committed c' = committed c.
Proof.
  intros Hc Ht Hk Hpk listed.
  destruct (sync_run name pk pk_values c t Hc Ht Hk Hpk)
    as (c' & Hrun & Hcom & _ & Hpend).
  exists c', (mkTable (t_cols t) (t_key t) (kept pk pk_values (t_rows t))).
  rewrite Hrun, Hpend. simpl. split_and!; try done.
  - do 2 f_equal. rewrite (length_filter_split listed (t_rows t)).
    unfold kept, listed. lia.
  - by rewrite lookup_insert_eq.
  - intros other Ho. by rewrite lookup_insert_ne.
Qed.

(** X. [tmp_keys] lives until the commit: a second call of
    [sync_deletions_snapshot] in the same transaction, with keys to keep,
    is refused by the server when the first one had keys to keep too, and
    nothing is committed. *)
Theorem sync_deletions_snapshot_once_per_transaction name pk pk_values
    name' pk' pk_values' c t :
  outage c = healthy ->
  tables (pending c) !! name = Some t ->
  tmp_keys (pending c) = None ->
  pk ∈ t_cols t ->
  pk_values ≠ [] -> pk_values' ≠ [] ->
  exists c',
    (sync_deletions_snapshot name pk pk_values ;;
     sync_deletions_snapshot name' pk' pk_values')%tx c
    = (Raises ProgrammingError, c')
    /\ committed c' = committed c.
Proof.
  intros Hc Ht Hk Hpk Hne Hne'.
  destruct (sync_run name pk pk_values c t Hc Ht Hk Hpk)
    as (c' & Hrun & Hcom & Hout & Hpend).
  exists (tick c'). split; [|done].
  rewrite (tbind_returns _ _ _ _ _ Hrun).
  unfold sync_deletions_snapshot. destruct pk_values' as [|v' vs']; [done|].
  unfold tbind. rewrite execute_healthy, Hpend by done. simpl.
  by destruct pk_values.
Qed.

End Snapshot.

Lemma filter_agree {A} (P Q : A -> Prop) `{!forall a, Decision (P a)}
    `{!forall a, Decision (Q a)} (l : list A) :
  (forall a, a ∈ l -> P a <-> Q a) -> filter P l = filter Q l.
Proof.
  induction l as [|a l IH]; intros Hl; [done|]. rewrite !filter_cons.
  rewrite IH by (intros y Hy; apply Hl; by right).
  destruct (decide (P a)) as [HP|HP].
  - rewrite decide_True; [done|]. apply Hl; [left|done].
  - rewrite decide_False; [done|]. intros HQ. apply HP, Hl; [left|done].
Qed.

Section Upsert.
Context `{Values}.
Import Common.
Implicit Types c : conn db stmt.
Implicit Types t : list (gmap string val).
Implicit Types p r x : gmap string val.
Implicit Types col pk : string.

Lemma proposed_fold cols r col p0 :
  foldl (fun p cv => match cv.2 with
                     | Some v => <[cv.1 := v]> p
                     | None => delete cv.1 p
                     end) p0 (zip cols (map (fun a => r !! a) cols)) !! col
  = if decide (col ∈ cols) then r !! col else p0 !! col.
Proof.
  revert p0. induction cols as [|a cols IH]; intros p0.
  - by destruct (decide _) as [?%elem_of_nil|].
  - cbn [map zip zip_with foldl]. rewrite IH. cbn [fst snd].
    destruct (decide (col ∈ cols)) as [Hin|Hin].
    + rewrite decide_True; [done|]. by right.
    + destruct (decide (col = a)) as [->|Hne].
      * rewrite decide_True by left.
        destruct (r !! a) eqn:E;
          [by rewrite lookup_insert_eq|by rewrite lookup_delete_eq].
      * rewrite decide_False by (by intros [?|?]%elem_of_cons).
        destruct (r !! a) eqn:E;
          [by rewrite lookup_insert_ne|by rewrite lookup_delete_ne].
Qed.

Lemma proposed_lookup cols r col :
  proposed cols (map (fun a => r !! a) cols) !! col
  = if decide (col ∈ cols) then r !! col else None.
Proof. unfold proposed. rewrite proposed_fold. by destruct (decide _). Qed.

Lemma overwrite_lookup pk cols p x col :
  overwrite pk cols p x !! col
  = if decide (col ∈ cols /\ col ≠ pk) then p !! col else x !! col.
Proof.
  unfold overwrite. revert x. induction cols as [|a cols IH]; intros x.
  - by destruct (decide _) as [[?%elem_of_nil _]|].
  - cbn [foldl]. rewrite IH.
    destruct (decide (col ∈ cols /\ col ≠ pk)) as [[Hin Hne]|Hn].
    + rewrite decide_True; [done|]. split; [by right|done].
    + case_bool_decide as Ha.
      * subst a. rewrite decide_False; [done|].
        intros [[?|?]%elem_of_cons ?]; tauto.
      * destruct (decide (col = a)) as [->|Hne].
        -- rewrite decide_True by (split; [left|done]).
           destruct (p !! a) eqn:E;
             [by rewrite lookup_insert_eq|by rewrite lookup_delete_eq].
        -- rewrite decide_False by (intros [[?|?]%elem_of_cons ?]; tauto).
           destruct (p !! a) eqn:E;
             [by rewrite lookup_insert_ne|by rewrite lookup_delete_ne].
Qed.

Lemma overwrite_key pk cols p x : overwrite pk cols p x !! pk = x !! pk.
Proof. rewrite overwrite_lookup. rewrite decide_False; [done|]. tauto. Qed.

Lemma upsert_one_keys pk cols t p :
  (fun x => x !! pk) <$> upsert_one pk cols t p
  = ((fun x => x !! pk) <$> t)
    ++ (if decide (p !! pk ∈ (fun x => x !! pk) <$> t) then [] else [p !! pk]).
Proof.
  unfold upsert_one. case_bool_decide as He.
  - rewrite decide_True.
    2:{ apply Exists_exists in He as (x & Hx & Hk).
        apply list_elem_of_fmap. eauto. }
    rewrite app_nil_r. rewrite <- list_fmap_compose. apply list_fmap_ext.
    intros i x _. simpl. case_bool_decide; [apply overwrite_key|done].
  - rewrite decide_False.
    2:{ intros (x & Hk & Hx)%list_elem_of_fmap. apply He, Exists_exists. eauto. }
    by rewrite fmap_app.
Qed.

Lemma upsert_one_elem pk cols t p x' :
  x' ∈ upsert_one pk cols t p ->
  (x' ∈ t /\ x' !! pk ≠ p !! pk)
  \/ (exists x, x ∈ t /\ x !! pk = p !! pk /\ x' = overwrite pk cols p x)
  \/ (x' = p /\ p !! pk ∉ (fun x => x !! pk) <$> t).
Proof.
  unfold upsert_one. case_bool_decide as He.
  - intros (x & -> & Hx)%list_elem_of_fmap. case_bool_decide; eauto 10.
  - intros [Hx|Hx%list_elem_of_singleton]%elem_of_app; [|subst x'].
    + left. split; [done|]. intros Hk. apply He, Exists_exists. eauto.
    + right. right. split; [done|].
      intros (x & Hk & Hx)%list_elem_of_fmap. apply He, Exists_exists. eauto.
Qed.

Lemma upsert_one_lookup pk cols t p i x :
  t !! i = Some x ->
  upsert_one pk cols t p !! i
  = Some (if bool_decide (x !! pk = p !! pk) then overwrite pk cols p x else x).
Proof.
  intros Hi. unfold upsert_one. case_bool_decide as He.
  - by rewrite list_lookup_fmap, Hi.
  - rewrite lookup_app_l by (by apply lookup_lt_Some in Hi). rewrite Hi.
    rewrite bool_decide_eq_false_2; [done|].
    intros Hk. apply He, Exists_exists. exists x. split; [|done].
    by eapply list_elem_of_lookup_2.
Qed.

(** the keys after the rows [ps] have been upserted one by one *)
Lemma upsert_all_keys pk cols t ps :
  NoDup ((fun x => x !! pk) <$> ps) ->
  (fun x => x !! pk) <$> foldl (upsert_one pk cols) t ps
  = ((fun x => x !! pk) <$> t)
    ++ filter (fun k => k ∉ (fun x => x !! pk) <$> t) ((fun x => x !! pk) <$> ps).
Proof.
  revert t. induction ps as [|p ps IH]; intros t Hnd.
  - simpl. by rewrite app_nil_r.
  - rewrite fmap_cons in Hnd. apply NoDup_cons in Hnd as [Hp Hnd].
    cbn [foldl]. rewrite IH by done. rewrite upsert_one_keys.
    rewrite fmap_cons, filter_cons.
    destruct (decide (p !! pk ∈ (fun x => x !! pk) <$> t)) as [Hin|Hin].
    + rewrite decide_False by tauto. by rewrite app_nil_r.
    + rewrite decide_True by done. rewrite <- app_assoc. simpl. do 2 f_equal.
      apply filter_agree. intros k Hk. rewrite elem_of_app, list_elem_of_singleton.
      split; [tauto|]. intros Hn [?| ->]; tauto.
Qed.

(** a row of the table keeps its position, its key and its columns outside
    [cols], and is not modified at all when no row of [ps] has its key *)
Lemma upsert_all_lookup pk cols t ps i x :
  t !! i = Some x ->
  exists x', foldl (upsert_one pk cols) t ps !! i = Some x'
    /\ x' !! pk = x !! pk
    /\ (forall col, col ∉ cols -> x' !! col = x !! col)
    /\ (x !! pk ∉ (fun p => p !! pk) <$> ps -> x' = x).
Proof.
  revert t x. induction ps as [|p ps IH]; intros t x Hi.
  - exists x. by split_and!.
  - cbn [foldl].
    destruct (IH _ _ (upsert_one_lookup pk cols t p i x Hi))
      as (x' & Hx' & Hk & Hc & Hs).
    exists x'. split; [done|]. case_bool_decide as Hp.
    + rewrite overwrite_key in Hk. split_and!; [done| |].
      * intros col Hcol. rewrite Hc by done. rewrite overwrite_lookup.
        rewrite decide_False; [done|]. tauto.
      * intros Hn. destruct Hn. rewrite fmap_cons, Hp. left.
    + split_and!; [done..|].
      intros Hn. apply Hs. intros Hin. apply Hn. rewrite fmap_cons. by right.
Qed.

(** a row that has the key of one of the rows [ps] agrees with it on
    [cols] *)
Lemma upsert_all_agree pk cols t ps p x' :
  NoDup ((fun x => x !! pk) <$> ps) ->
  p ∈ ps -> x' ∈ foldl (upsert_one pk cols) t ps -> x' !! pk = p !! pk ->
  forall col, col ∈ cols -> x' !! col = p !! col.
Proof.
  revert p x'. induction ps as [|pl ps IH] using rev_ind; intros p x' Hnd Hp Hx' Hk.
  { by apply elem_of_nil in Hp. }
  rewrite fmap_app in Hnd. apply NoDup_app in Hnd as (Hnd & Hdisj & _).
  rewrite foldl_app in Hx'. cbn [foldl] in Hx'.
  assert (Hpl : forall q, q ∈ ps -> q !! pk ≠ pl !! pk).
  { intros q Hq Heq. apply (Hdisj (q !! pk)).
    - apply list_elem_of_fmap. eauto.
    - rewrite Heq. simpl. left. }
  apply elem_of_app in Hp as [Hp|Hp%list_elem_of_singleton].
  - apply upsert_one_elem in Hx' as [[Hx' Hne]|[(x & Hx & Hkx & ->)|[-> Hn]]].
    + by apply IH.
    + rewrite overwrite_key in Hk. destruct (Hpl p Hp). congruence.
    + by destruct (Hpl p Hp).
  - subst p. apply upsert_one_elem in Hx' as [[Hx' Hne]|[(x & Hx & Hkx & ->)|[-> Hn]]].
    + done.
    + intros col Hcol. rewrite overwrite_lookup.
      destruct (decide (col ∈ cols /\ col ≠ pk)) as [_|Hn]; [done|].
      assert (col = pk) as -> by (destruct (decide (col = pk)); tauto). done.
    + done.
Qed.

(** a row whose key was not in the table has nothing outside [cols], when
    the rows [ps] have nothing there *)
Lemma upsert_all_new pk cols t ps x' :
  (forall p col, p ∈ ps -> col ∉ cols -> p !! col = None) ->
  x' ∈ foldl (upsert_one pk cols) t ps ->
  x' !! pk ∉ (fun x => x !! pk) <$> t ->
  forall col, col ∉ cols -> x' !! col = None.
Proof.
  revert x'. induction ps as [|pl ps IH] using rev_ind; intros x' Hps Hx' Hk col Hcol.
  { destruct Hk. apply list_elem_of_fmap. eauto. }
  rewrite foldl_app in Hx'. cbn [foldl] in Hx'.
  assert (Hps' : forall p col, p ∈ ps -> col ∉ cols -> p !! col = None).
  { intros q a Hq. apply Hps, elem_of_app. by left. }
  apply upsert_one_elem in Hx' as [[Hx' Hne]|[(x & Hx & Hkx & ->)|[-> Hn]]].
  - by apply IH.
  - rewrite overwrite_key in Hk. rewrite overwrite_lookup.
    rewrite decide_False by tauto. by apply IH.
  - apply Hps; [|done]. apply elem_of_app. right. left.
Qed.

(** a page whose keys are not NULL, differ from one another and from the
    keys touched so far is upserted row by row *)
Lemma upsert_rows_ok pk cols ps touched t :
  Forall (fun p => is_Some (p !! pk)) ps ->
  NoDup ((fun p => p !! pk) <$> ps) ->
  (forall k, k ∈ touched -> Some k ∉ (fun p => p !! pk) <$> ps) ->
  upsert_rows pk cols ps touched t = inr (foldl (upsert_one pk cols) t ps).
Proof.
  revert touched t. induction ps as [|p ps IH]; intros touched t Hs Hnd Ht; [done|].
  apply Forall_cons in Hs as [[k Hk] Hs].
  rewrite fmap_cons in Hnd. apply NoDup_cons in Hnd as [Hp Hnd].
  cbn [upsert_rows foldl]. rewrite Hk.
  rewrite bool_decide_eq_false_2.
  2:{ intros Hin. apply (Ht k Hin). rewrite fmap_cons, Hk. left. }
  apply IH; [done..|].
  intros k' [->|Hk']%elem_of_cons.
  - by rewrite <- Hk.
  - intros Hin. apply (Ht k' Hk'). rewrite fmap_cons. by right.
Qed.

(** a page in which a key comes twice, or comes after the statement has
    touched it, is refused *)
Lemma upsert_rows_twice pk cols ps touched t :
  Forall (fun p => is_Some (p !! pk)) ps ->
  ~ NoDup ((fun p => p !! pk) <$> ps)
  \/ (exists k, k ∈ touched /\ Some k ∈ (fun p => p !! pk) <$> ps) ->
  upsert_rows pk cols ps touched t = inl ProgrammingError.
Proof.
  revert touched t. induction ps as [|p ps IH]; intros touched t Hs Hdup.
  { destruct Hdup as [Hdup|(k & _ & Hk)].
    - destruct Hdup. constructor.
    - by apply elem_of_nil in Hk. }
  apply Forall_cons in Hs as [[k Hk] Hs].
  cbn [upsert_rows]. rewrite Hk. case_bool_decide as Hin; [done|].
  apply IH; [done|].
  destruct (decide (Some k ∈ (fun p => p !! pk) <$> ps)) as [Hk'|Hk'].
  { right. exists k. split; [left|done]. }
  destruct Hdup as [Hdup|(k' & Hk1 & Hk2)].
  - left. intros Hnd. apply Hdup. rewrite fmap_cons, Hk. by constructor.
  - right. exists k'. rewrite fmap_cons, Hk in Hk2.
    apply elem_of_cons in Hk2 as [[= ->]|Hk2]; [done|].
    split; [by right|done].
Qed.

Lemma insert_on_conflict_ok name pk cols (pg : list (list (option val))) d tb :
  tables d !! name = Some tb ->
  filter (fun a => a ≠ pk) cols ≠ [] ->
  Forall (fun a => a ∈ t_cols tb) cols -> NoDup cols -> pk = t_key tb ->
  Forall (fun v => is_Some (proposed cols v !! pk)) pg ->
  NoDup ((fun v => proposed cols v !! pk) <$> pg) ->
  insert_on_conflict name pk cols pg d
  = inr (tt, set_rows d name tb
               (foldl (upsert_one pk cols) (t_rows tb) (map (proposed cols) pg))).
Proof.
  intros Ht Hset Hcols Hnd Hkey Hs Hk. unfold insert_on_conflict. rewrite Ht.
  rewrite bool_decide_eq_true_2 by done.
  rewrite upsert_rows_ok; [done|..].
  - apply Forall_fmap. by apply (Forall_impl _ _ _ Hs).
  - by rewrite <- list_fmap_compose.
  - by intros k ?%elem_of_nil.
Qed.

(** the pages of [upsert_table] on a healthy connection, when the server
    accepts the statement and the keys of the rows are not NULL and differ
    from one another *)
Lemma upsert_pages_run name pk cols (pgs : list (list (list (option val)))) c tb :
  outage c = healthy ->
  tables (pending c) !! name = Some tb ->
  filter (fun a => a ≠ pk) cols ≠ [] ->
  Forall (fun a => a ∈ t_cols tb) cols -> NoDup cols -> pk = t_key tb ->
  Forall (fun v => is_Some (proposed cols v !! pk)) (concat pgs) ->
  NoDup ((fun v => proposed cols v !! pk) <$> concat pgs) ->
  exists c',
    tfor_each pgs
      (fun page => execute [UpsertPage name (map (proposed cols) page)]
                           (insert_on_conflict name pk cols page)) c
    = (Returns tt, c')
    /\ outage c' = healthy /\ committed c' = committed c
    /\ etl_batch_run (pending c') = etl_batch_run (pending c)
    /\ tmp_keys (pending c') = tmp_keys (pending c)
    /\ tables (pending c')
       = <[name := mkTable (t_cols tb) (t_key tb)
                     (foldl (upsert_one pk cols) (t_rows tb)
                            (map (proposed cols) (concat pgs)))]>
           (tables (pending c)).
Proof.
  intros Hc Ht Hset Hcols Hnd Hkey. revert c tb Hc Ht Hcols Hkey.
  induction pgs as [|pg pgs IH]; intros c tb Hc Ht Hcols Hkey Hs Hk.
  - exists c. simpl. split_and!; try done.
    rewrite insert_id; [done|]. by destruct tb.
  - cbn [concat] in Hs, Hk. apply Forall_app in Hs as [Hs1 Hs2].
    rewrite fmap_app in Hk. apply NoDup_app in Hk as (Hk1 & Hdisj & Hk2).
    cbn [tfor_each]. unfold tbind at 1. rewrite execute_healthy by done.
    rewrite (insert_on_conflict_ok name pk cols pg _ tb) by done.
    set (tb1 := mkTable (t_cols tb) (t_key tb)
                  (foldl (upsert_one pk cols) (t_rows tb) (map (proposed cols) pg))).
    match goal with |- context [tfor_each _ _ ?c0] => set (c1 := c0) end.
    destruct (IH c1 tb1) as (c' & -> & Hout & Hcom & Hetl & Htmp & Htab);
      [done| |done|done|done|done|].
    { simpl. by rewrite lookup_insert_eq. }
    exists c'. split; [done|]. split_and!; [done..|].
    rewrite Htab. simpl. rewrite insert_insert_eq.
    by rewrite map_app, foldl_app.
Qed.

Lemma proposed_key pk cols r :
  pk ∈ cols -> proposed cols (map (fun a => r !! a) cols) !! pk = r !! pk.
Proof. intros Hpk. rewrite proposed_lookup. by rewrite decide_True. Qed.

(** what a call of [upsert_table] does on a healthy connection, when the
    server accepts the statement and the keys of the rows are not NULL and
    differ from one another *)
Lemma upsert_table_run name pk rows cols c tb :
  outage c = healthy ->
  tables (pending c) !! name = Some tb ->
  filter (fun a => a ≠ pk) cols ≠ [] ->
  Forall (fun a => a ∈ t_cols tb) cols -> NoDup cols -> pk = t_key tb ->
  pk ∈ cols ->
  rows ≠ [] ->
  Forall (fun r => is_Some (r !! pk)) rows ->
  NoDup ((fun r => r !! pk) <$> rows) ->
  exists c',
    upsert_table name pk rows cols c = (Returns tt, c')
    /\ outage c' = healthy /\ committed c' = pending c'
    /\ etl_batch_run (pending c') = etl_batch_run (pending c)
    /\ tmp_keys (pending c') = None
    /\ tables (pending c')
       = <[name := mkTable (t_cols tb) (t_key tb)
                     (foldl (upsert_one pk cols) (t_rows tb)
                        (map (fun r => proposed cols (map (fun a => r !! a) cols))
                             rows))]>
           (tables (pending c)).
Proof.
  intros Hc Ht Hset Hcols Hnd Hkey Hpk Hne Hs Hk. unfold upsert_table.
  destruct rows as [|r0 rows0] eqn:Hrows; [done|]. rewrite <- Hrows in *.
  clear Hrows r0 rows0.
  set (values := map (fun r => map (fun a => r !! a) cols) rows).
  destruct (upsert_pages_run name pk cols (pages (length values) 100 values) c tb)
    as (c1 & Hrun & Hout & Hcom & Hetl & Htmp & Htab); try done.
  { rewrite pages_concat by lia. unfold values. apply Forall_fmap.
    apply (Forall_impl _ _ _ Hs). intros r Hr. simpl. by rewrite proposed_key. }
  { rewrite pages_concat by lia. unfold values. rewrite <- list_fmap_compose.
    erewrite list_fmap_ext; [exact Hk|]. intros i r _. simpl. by apply proposed_key. }
  rewrite pages_concat in Htab by lia.
  unfold tbind. rewrite Hrun. unfold commit. rewrite tcommit_healthy by done.
  eexists. split; [reflexivity|]. simpl. split_and!; try done.
  rewrite Htab. unfold values. by rewrite map_map.
Qed.

(** where a row of the result comes from: a row of the table, or one of
    the rows [ps] whose key the table did not have *)
Lemma upsert_all_origin pk cols t ps x' :
  NoDup ((fun p => p !! pk) <$> ps) ->
  x' ∈ foldl (upsert_one pk cols) t ps ->
  (exists x, x ∈ t /\ x' !! pk = x !! pk
     /\ (forall col, col ∉ cols -> x' !! col = x !! col)
     /\ (x !! pk ∉ (fun p => p !! pk) <$> ps -> x' = x))
  \/ ((x' !! pk ∉ (fun x => x !! pk) <$> t)
      /\ (x' !! pk ∈ (fun p => p !! pk) <$> ps)).
Proof.
  intros Hnd (i & Hi)%list_elem_of_lookup_1.
  destruct (t !! i) as [x|] eqn:Hx.
  - left. destruct (upsert_all_lookup pk cols t ps i x Hx)
      as (x'' & Hx'' & Hk & Hc & Hs).
    assert (x'' = x') as -> by congruence.
    exists x. split; [by eapply list_elem_of_lookup_2|]. by split_and!.
  - right. apply lookup_ge_None in Hx.
    assert (((fun x => x !! pk) <$> foldl (upsert_one pk cols) t ps) !! i
            = Some (x' !! pk)) as Hki by (by rewrite list_lookup_fmap, Hi).
    rewrite upsert_all_keys in Hki by done.
    rewrite lookup_app_r in Hki by (by rewrite length_fmap).
    apply list_elem_of_lookup_2, list_elem_of_filter in Hki. done.
Qed.

(** X. On a healthy connection, when the server accepts its statement and the
    keys of the rows are not NULL and differ from one another,
    [upsert_table] commits a table that is to be read by key, whatever the
    order of its rows: its keys are the old keys and the new keys of
    [rows], each as many times as before; a row that has the key of a
    record agrees with it on [cols]; the rows whose key no record has are
    those that the table had; a row that has an old key comes from an old
    row of that key and keeps its columns outside [cols]; a row that has a
    new key is NULL outside [cols]. *)
Theorem upsert_table_loads_rows name pk rows cols c tb :
  outage c = healthy ->
  tables (pending c) !! name = Some tb ->
  filter (fun a => a ≠ pk) cols ≠ [] ->
  Forall (fun a => a ∈ t_cols tb) cols -> NoDup cols -> pk = t_key tb ->
  pk ∈ cols ->
  rows ≠ [] ->
  Forall (fun r => is_Some (r !! pk)) rows ->
  NoDup ((fun r => r !! pk) <$> rows) ->
  exists c' rows',
    upsert_table name pk rows cols c = (Returns tt, c')
    /\ committed c' = pending c'
    /\ tables (pending c')
       = <[name := mkTable (t_cols tb) (t_key tb) rows']> (tables (pending c))
    /\ etl_batch_run (pending c') = etl_batch_run (pending c)
    /\ (fun x => x !! pk) <$> rows'
       ≡ₚ ((fun x => x !! pk) <$> t_rows tb)
          ++ filter (fun k => k ∉ (fun x => x !! pk) <$> t_rows tb)
                    ((fun r => r !! pk) <$> rows)
    /\ (forall r x', r ∈ rows -> x' ∈ rows' -> x' !! pk = r !! pk ->
          forall col, col ∈ cols -> x' !! col = r !! col)
    /\ (forall x, x !! pk ∉ (fun r => r !! pk) <$> rows ->
          (x ∈ rows' <-> x ∈ t_rows tb))
    /\ (forall x', x' ∈ rows' -> x' !! pk ∈ (fun x => x !! pk) <$> t_rows tb ->
          exists x, x ∈ t_rows tb /\ x !! pk = x' !! pk
            /\ forall col, col ∉ cols -> x' !! col = x !! col)
    /\ (forall x', x' ∈ rows' -> x' !! pk ∉ (fun x => x !! pk) <$> t_rows tb ->
          forall col, col ∉ cols -> x' !! col = None).
Proof.
  intros Hc Ht Hset Hcols Hnd Hkey Hpk Hne Hs Hk.
  destruct (upsert_table_run name pk rows cols c tb)
    as (c' & Hrun & _ & Hcom & Hetl & _ & Htab); try done.
  set (ps := map (fun r => proposed cols (map (fun a => r !! a) cols)) rows) in *.
  assert (Hkeys : (fun p => p !! pk) <$> ps = (fun r => r !! pk) <$> rows).
  { unfold ps. rewrite <- list_fmap_compose. apply list_fmap_ext.
    intros i r _. simpl. by apply proposed_key. }
  assert (Hnd' : NoDup ((fun p => p !! pk) <$> ps)) by (by rewrite Hkeys).
  exists c', (foldl (upsert_one pk cols) (t_rows tb) ps).
  split_and!; try done.
  - rewrite upsert_all_keys by done. by rewrite Hkeys.
  - intros r x' Hr Hx' Hkx col Hcol.
    rewrite (upsert_all_agree pk cols (t_rows tb) ps
               (proposed cols (map (fun a => r !! a) cols)) x'); try done.
    + rewrite proposed_lookup. by rewrite decide_True.
    + apply list_elem_of_fmap. eauto.
    + by rewrite proposed_key.
  - intros x Hx. rewrite <- Hkeys in Hx. split.
    + intros Hin.
      destruct (upsert_all_origin pk cols (t_rows tb) ps x Hnd' Hin)
        as [(x0 & Hx0 & Hk0 & _ & Hsame)|[_ Hnew]]; [|done].
      rewrite Hk0 in Hx. by rewrite (Hsame Hx).
    + intros (i & Hi)%list_elem_of_lookup_1.
      destruct (upsert_all_lookup pk cols (t_rows tb) ps i x Hi)
        as (x' & Hx' & _ & _ & Hsame).
      rewrite (Hsame Hx) in Hx'. by eapply list_elem_of_lookup_2.
  - intros x' Hx' Hold.
    destruct (upsert_all_origin pk cols (t_rows tb) ps x' Hnd' Hx')
      as [(x0 & Hx0 & Hk0 & Hout & _)|[Hnew _]]; [|done].
    exists x0. by split_and!.
  - intros x' Hx' Hn col Hcol.
    apply (upsert_all_new pk cols (t_rows tb) ps x'); try done.
    intros p a (r & -> & _)%list_elem_of_fmap Ha.
    rewrite proposed_lookup. by rewrite decide_False.
Qed.

(** X. [execute_values] sends 100 rows per statement, and a statement may not
    touch a key twice: when a key comes twice among the first 100 records,
    the server refuses the first statement, and nothing is written. *)
Theorem upsert_table_repeated_key name pk rows cols c tb :
  outage c = healthy ->
  tables (pending c) !! name = Some tb ->
  filter (fun a => a ≠ pk) cols ≠ [] ->
  Forall (fun a => a ∈ t_cols tb) cols -> NoDup cols -> pk = t_key tb ->
  pk ∈ cols ->
  Forall (fun r => is_Some (r !! pk)) rows ->
  ~ NoDup ((fun r => r !! pk) <$> take 100 rows) ->
  upsert_table name pk rows cols c = (Raises ProgrammingError, tick c).
Proof.
  intros Hc Ht Hset Hcols Hnd Hkey Hpk Hs Hdup. unfold upsert_table.
  destruct rows as [|r0 rows0] eqn:Hrows.
  { destruct Hdup. constructor. }
  rewrite <- Hrows in *.
  assert (Hpages : exists rest,
    pages (length (map (fun r => map (fun a => r !! a) cols) rows)) 100
          (map (fun r => map (fun a => r !! a) cols) rows)
    = take 100 (map (fun r => map (fun a => r !! a) cols) rows) :: rest).
  { rewrite Hrows. cbn [map length]. rewrite pages_cons. eauto. }
  destruct Hpages as [rest ->]. clear Hrows r0 rows0.
  cbn [tfor_each]. unfold tbind. rewrite execute_healthy by done.
  unfold insert_on_conflict. rewrite Ht.
  rewrite bool_decide_eq_true_2 by done.
  rewrite upsert_rows_twice; [done| |].
  - apply Forall_fmap, Forall_take, Forall_fmap.
    apply (Forall_impl _ _ _ Hs). intros r Hr. simpl. by rewrite proposed_key.
  - left. intros Hn. apply Hdup. rewrite <- list_fmap_compose in Hn.
    rewrite <- fmap_take, <- list_fmap_compose in Hn.
    erewrite list_fmap_ext; [exact Hn|]. intros i r _. simpl.
    by rewrite proposed_key.
Qed.

Lemma filter_fmap_key pk (P : option val -> Prop) `{!forall k, Decision (P k)} t :
  (fun x => x !! pk) <$> filter (fun x => P (x !! pk)) t
  = filter P ((fun x => x !! pk) <$> t).
Proof.
  induction t as [|x t IH]; [done|]. rewrite fmap_cons, !filter_cons.
  destruct (decide (P (x !! pk))); [rewrite fmap_cons|]; by rewrite IH.
Qed.

Lemma filter_all {A} (P : A -> Prop) `{!forall a, Decision (P a)} (l : list A) :
  (forall a, a ∈ l -> P a) -> filter P l = l.
Proof.
  induction l as [|a l IH]; intros Hl; [done|]. rewrite filter_cons.
  rewrite decide_True by (apply Hl; left). rewrite IH; [done|].
  intros b Hb. apply Hl. by right.
Qed.

Lemma filter_none {A} (P : A -> Prop) `{!forall a, Decision (P a)} (l : list A) :
  (forall a, a ∈ l -> ~ P a) -> filter P l = [].
Proof.
  induction l as [|a l IH]; intros Hl; [done|]. rewrite filter_cons.
  rewrite decide_False by (apply Hl; left). apply IH.
  intros b Hb. apply Hl. by right.
Qed.

(** X. The load of a snapshot, as [main] of bronze/load_file.py chains it:
    [upsert_table] of the records, [sync_deletions_snapshot] of their keys,
    and the commit.  On a healthy connection, when the server accepts the
    statements and the keys of the records differ from one another, the
    committed table is to be read by key, whatever the order of its rows:
    its keys are those of the old rows that the file lists and the new
    ones, which makes them the keys of the file, each once, when the old
    keys differ from one another; a row that has the key of a record agrees
    with it on [cols]; the count of deletions is the number of old rows
    that the file does not list; and the temporary table is gone. *)
Theorem snapshot_load_mirrors_file name pk rows cols pk_values c tb :
  outage c = healthy ->
  tables (pending c) !! name = Some tb ->
  tmp_keys (pending c) = None ->
  filter (fun a => a ≠ pk) cols ≠ [] ->
  Forall (fun a => a ∈ t_cols tb) cols -> NoDup cols -> pk = t_key tb ->
  pk ∈ cols ->
  (fun r => r !! pk) <$> rows = (Some ∘ text) <$> pk_values ->
  NoDup ((fun r => r !! pk) <$> rows) ->
  let listed (k : option val) := k ∈ (Some ∘ text) <$> pk_values in
  exists c1 c2 c3 rows',
    upsert_table name pk rows cols c = (Returns tt, c1)
    /\ sync_deletions_snapshot name pk pk_values c1
       = (Returns (Z.of_nat (length (filter (fun x => ~ listed (x !! pk))
                                            (t_rows tb)))), c2)
    /\ commit c2 = (Returns tt, c3)
    /\ committed c3 = pending c3
    /\ tmp_keys (committed c3) = None
    /\ tables (committed c3)
       = <[name := mkTable (t_cols tb) (t_key tb) rows']> (tables (pending c))
    /\ (fun x => x !! pk) <$> rows'
       ≡ₚ filter listed ((fun x => x !! pk) <$> t_rows tb)
          ++ filter (fun k => k ∉ (fun x => x !! pk) <$> t_rows tb)
                    ((Some ∘ text) <$> pk_values)
    /\ (NoDup ((fun x => x !! pk) <$> t_rows tb) ->
        (fun x => x !! pk) <$> rows' ≡ₚ (Some ∘ text) <$> pk_values)
    /\ (forall r x', r ∈ rows -> x' ∈ rows' -> x' !! pk = r !! pk ->
          forall col, col ∈ cols -> x' !! col = r !! col).
Proof.
  intros Hc Ht Hk Hset Hcols Hnd Hkey Hpk Hfile Hdup listed.
  set (ps := map (fun r => proposed cols (map (fun a => r !! a) cols)) rows).
  set (rows1 := foldl (upsert_one pk cols) (t_rows tb) ps).
  assert (Hkeys : (fun p => p !! pk) <$> ps = (fun r => r !! pk) <$> rows).
  { unfold ps. rewrite <- list_fmap_compose. apply list_fmap_ext.
    intros i r _. simpl. by apply proposed_key. }
  assert (Hup : exists c1,
    upsert_table name pk rows cols c = (Returns tt, c1)
    /\ outage c1 = healthy /\ tmp_keys (pending c1) = None
    /\ tables (pending c1)
       = <[name := mkTable (t_cols tb) (t_key tb) rows1]> (tables (pending c))).
  { destruct (decide (rows = [])) as [->|Hne].
    - exists c. split_and!; try done. unfold rows1. simpl.
      rewrite insert_id; [done|]. by destruct tb.
    - destruct (upsert_table_run name pk rows cols c tb)
        as (c1 & Hrun & Hout & _ & _ & Htmp & Htab); try done.
      + assert (Hsome : Forall is_Some ((fun r => r !! pk) <$> rows)).
        { rewrite Hfile. apply Forall_fmap, Forall_forall. intros k _. by eexists. }
        rewrite Forall_forall in Hsome. apply Forall_forall. intros r Hr.
        apply Hsome, list_elem_of_fmap. eauto.
      + by exists c1. }
  destruct Hup as (c1 & Hrun1 & Hout1 & Htmp1 & Htab1).
  destruct (sync_run name pk pk_values c1
              (mkTable (t_cols tb) (t_key tb) rows1))
    as (c2 & Hrun2 & _ & Hout2 & Hpend2); try done.
  { by rewrite Htab1, lookup_insert_eq. }
  { simpl. rewrite Forall_forall in Hcols. by apply Hcols. }
  simpl in Hrun2, Hpend2.
  assert (Hrows1 : (fun x => x !! pk) <$> rows1
                   = ((fun x => x !! pk) <$> t_rows tb)
                     ++ filter (fun k => k ∉ (fun x => x !! pk) <$> t_rows tb)
                               ((Some ∘ text) <$> pk_values)).
  { unfold rows1. rewrite upsert_all_keys by (by rewrite Hkeys).
    by rewrite Hkeys, Hfile. }
  assert (Hnew : forall k,
            k ∈ filter (fun k => k ∉ (fun x => x !! pk) <$> t_rows tb)
                       ((Some ∘ text) <$> pk_values) -> listed k).
  { by intros k [_ ?]%list_elem_of_filter. }
  exists c1, c2,
    (mkConn (drop_tmp (pending c2)) (drop_tmp (pending c2)) (S (executed c2))
            healthy (issued c2)),
    (kept pk pk_values rows1).
  split; [done|]. split.
  { rewrite Hrun2. do 2 f_equal.
    pose proof (length_filter_split (fun x => listed (x !! pk)) rows1) as Hsplit.
    change (filter (fun x => listed (x !! pk)) rows1)
      with (kept pk pk_values rows1) in Hsplit.
    assert (length (filter (fun x => ~ listed (x !! pk)) rows1)
            = length (filter (fun x => ~ listed (x !! pk)) (t_rows tb))) as <-; [|lia].
    assert (Hf : forall t,
      length (filter (fun x => ~ listed (x !! pk)) t)
      = length (filter (fun k => ~ listed k) ((fun x => x !! pk) <$> t))).
    { intros t. rewrite <- (filter_fmap_key pk (fun k => ~ listed k)).
      by rewrite length_fmap. }
    rewrite !Hf, Hrows1, filter_app, length_app.
    rewrite (filter_none (fun k => ~ listed k) (filter _ _)); [simpl; lia|].
    intros k Hk' Hn. by specialize (Hnew k Hk'). }
  split.
  { unfold commit. rewrite tcommit_healthy by done. reflexivity. }
  simpl. rewrite Hpend2. simpl. split_and!; try done.
  - by rewrite Htab1, insert_insert_eq.
  - pose proof (filter_fmap_key pk listed rows1) as Hfk.
    change (filter (fun x => listed (x !! pk)) rows1)
      with (kept pk pk_values rows1) in Hfk.
    rewrite Hfk, Hrows1, filter_app. by rewrite (filter_all listed (filter _ _)).
  - intros Hold.
    pose proof (filter_fmap_key pk listed rows1) as Hfk.
    change (filter (fun x => listed (x !! pk)) rows1)
      with (kept pk pk_values rows1) in Hfk.
    rewrite Hfk, Hrows1, filter_app, (filter_all listed (filter _ _)) by done.
    assert (Hdup' : NoDup ((Some ∘ text) <$> pk_values)) by (by rewrite <- Hfile).
    apply NoDup_Permutation.
    + apply NoDup_app. split_and!.
      * exact (NoDup_filter _ _ Hold).
      * intros k [_ Hin]%list_elem_of_filter [Hn _]%list_elem_of_filter. done.
      * exact (NoDup_filter _ _ Hdup').
    + done.
    + intros k. rewrite elem_of_app, !list_elem_of_filter. unfold listed.
      destruct (decide (k ∈ (fun x => x !! pk) <$> t_rows tb)); tauto.
  - intros r x' Hr Hx' Hkx col Hcol.
    apply list_elem_of_filter in Hx' as [_ Hx'].
    rewrite (upsert_all_agree pk cols (t_rows tb) ps
               (proposed cols (map (fun a => r !! a) cols)) x'); try done.
    + rewrite proposed_lookup. by rewrite decide_True.
    + by rewrite Hkeys.
    + apply list_elem_of_fmap. eauto.
    + by rewrite proposed_key.
Qed.

End Upsert.

Section LoaderWitnesses.
Import Common LoaderSample.

Lemma register_batch_outcomes_witness :
  let run := register_batch (H := string_values) "salarie" day2 "erp" "a91d" 2
               (get_conn healthy loaded) in
  let files := same_file "salarie" day2 "a91d" (etl_batch_run loaded) in
  let started := mkRun 2 "salarie" day2 "erp" "a91d" "STARTED" None None in
  fst run = Returns (-1)
  /\ (exists b, b ∈ files /\ (r_status b = "SUCCESS" \/ r_status b = "SKIPPED"))
  /\ committed (snd run) = loaded /\ pending (snd run) = loaded
  /\ issued (snd run) = []
  \/ fst run = Returns 2
     /\ (files = [] \/ exists b, b ∈ files /\ r_status b ≠ "SUCCESS"
                                 /\ r_status b ≠ "SKIPPED")
     /\ committed (snd run)
        = drop_tmp (set_batch_run loaded (etl_batch_run loaded ++ [started]))
     /\ pending (snd run) = committed (snd run)
     /\ issued (snd run) = [InsertBatch started]
  \/ fst run = Raises ConnectionLost /\ (exists n, healthy n = true)
     /\ committed (snd run) = loaded.
Proof.
  apply (register_batch_outcomes (H := string_values) "salarie" day2 "erp" "a91d"
           2 healthy loaded).
  by vm_compute.
Defined.

Lemma register_batch_after_finish_witness :
  let finished :=
    mkRun 2 "salarie" day2 "erp" "a91d" "SUCCESS"
          (Some "Ingestion salarie OK (2 rows)") (Some 200) in
  let started :=
    mkRun 3 "salarie" day2 "erp2" "a91d" "STARTED"
          None None in
  let skip :=
    bool_decide ("SUCCESS" = "SUCCESS") || bool_decide ("SUCCESS" = "SKIPPED") in
  exists c1,
    (id ← register_batch "salarie" day2 "erp" "a91d" 2;
     finish_batch id "SUCCESS" "Ingestion salarie OK (2 rows)" 200)%tx
      (get_conn healthy loaded)
    = (Returns tt, c1)
    /\ committed c1 = pending c1
    /\ etl_batch_run (committed c1) = etl_batch_run loaded ++ [finished]
    /\ tables (committed c1) = tables loaded
    /\ let run := register_batch "salarie" day2 "erp2" "a91d" 3 c1 in
       fst run = Returns (if skip then -1 else 3)
       /\ etl_batch_run (committed (snd run))
          = etl_batch_run loaded ++ finished :: (if skip then [] else [started])
       /\ tables (committed (snd run)) = tables loaded
       /\ issued (snd run)
          = issued c1 ++ (if skip then [] else [InsertBatch started]).
Proof.
  apply (register_batch_after_finish (H := string_values) "salarie" day2 "erp"
           "a91d" 2 "SUCCESS" "Ingestion salarie OK (2 rows)" 200 "erp2" 3 loaded).
  - by vm_compute.
  - repeat constructor. by vm_compute.
Defined.

Lemma finished_batch_is_resolved_witness :
  let resolved (c : conn (db (H := string_values)) stmt) :=
    select_latest_batch "salarie" day2
      (as_batch_run <$> etl_batch_run (committed c)) in
  exists c1 c2,
    register_batch "salarie" day2 "erp" "a91d" 2 (get_conn healthy loaded)
    = (Returns 2, c1)
    /\ resolved c1 = resolved (get_conn healthy loaded)
    /\ finish_batch 2 "SUCCESS" "Ingestion salarie OK (2 rows)" 200 c1
       = (Returns tt, c2)
    /\ resolved c2 = if bool_decide ("SUCCESS" = "SUCCESS") then Some 2
                     else resolved (get_conn healthy loaded).
Proof.
  apply (finished_batch_is_resolved (H := string_values) "salarie" day2 "erp"
           "a91d" 2 "SUCCESS" "Ingestion salarie OK (2 rows)" 200 loaded).
  - by vm_compute.
  - repeat constructor.
Defined.

Lemma sync_deletions_snapshot_keeps_listed_witness :
  let c := get_conn healthy loaded in
  let listed (x : gmap string (val (Values := string_values))) :=
    x !! "ref_salarie" ∈ (Some ∘ text) <$> file_keys in
  exists c' t',
    sync_deletions_snapshot "silver_raw.salarie" "ref_salarie" file_keys c
    = (Returns (Z.of_nat
                  (length (filter (fun x => ~ listed x)
                             [record "S1" "1001" "Diallo" "Awa" "MR01";
                              record "S2" "1002" "Sow" "Ali" "MR02"]))), c')
    /\ tables (pending c') !! "silver_raw.salarie" = Some t'
    /\ t_rows t' = filter listed [record "S1" "1001" "Diallo" "Awa" "MR01";
                                  record "S2" "1002" "Sow" "Ali" "MR02"]
    /\ t_cols t' = salarie_cols /\ t_key t' = "ref_salarie"
    /\ (forall other, other ≠ "silver_raw.salarie" ->
          tables (pending c') !! other = tables (pending c) !! other)
    /\ etl_batch_run (pending c') = etl_batch_run (pending c)
    /\ committed c' = committed c.
Proof.
  apply (sync_deletions_snapshot_keeps_listed (H := string_values)
           "silver_raw.salarie" "ref_salarie" file_keys (get_conn healthy loaded)
           (mkTable salarie_cols "ref_salarie"
              [record "S1" "1001" "Diallo" "Awa" "MR01";
               record "S2" "1002" "Sow" "Ali" "MR02"])).
  - reflexivity.
  - by vm_compute.
  - reflexivity.
  - left.
Defined.

Lemma sync_deletions_snapshot_once_per_transaction_witness :
  let c := get_conn healthy loaded in
  exists c',
    (sync_deletions_snapshot (H := string_values) "silver_raw.salarie"
       "ref_salarie" file_keys ;;
     sync_deletions_snapshot "silver_raw.salarie" "ref_salarie" ["S2"])%tx c
    = (Raises ProgrammingError, c')
    /\ committed c' = committed c.
Proof.
  apply (sync_deletions_snapshot_once_per_transaction (H := string_values)
           "silver_raw.salarie" "ref_salarie" file_keys
           "silver_raw.salarie" "ref_salarie" ["S2"] (get_conn healthy loaded)
           (mkTable salarie_cols "ref_salarie"
              [record "S1" "1001" "Diallo" "Awa" "MR01";
               record "S2" "1002" "Sow" "Ali" "MR02"])).
  - reflexivity.
  - by vm_compute.
  - reflexivity.
  - left.
  - done.
  - done.
Defined.

Lemma upsert_table_loads_rows_witness :
  let c := get_conn healthy loaded in
  let old := [record "S1" "1001" "Diallo" "Awa" "MR01";
              record "S2" "1002" "Sow" "Ali" "MR02"] in
  exists c' rows',
    upsert_table (H := string_values) "silver_raw.salarie" "ref_salarie" file
                 salarie_cols c
    = (Returns tt, c')
    /\ committed c' = pending c'
    /\ tables (pending c')
       = <["silver_raw.salarie" := mkTable salarie_cols "ref_salarie" rows']>
           (tables (pending c))
    /\ etl_batch_run (pending c') = etl_batch_run (pending c)
    /\ (fun x => x !! "ref_salarie") <$> rows'
       ≡ₚ ((fun x => x !! "ref_salarie") <$> old)
          ++ filter (fun k => k ∉ (fun x => x !! "ref_salarie") <$> old)
                    ((fun r => r !! "ref_salarie") <$> file)
    /\ (forall r x', r ∈ file -> x' ∈ rows' ->
          x' !! "ref_salarie" = r !! "ref_salarie" ->
          forall col, col ∈ salarie_cols -> x' !! col = r !! col)
    /\ (forall x, x !! "ref_salarie" ∉ (fun r => r !! "ref_salarie") <$> file ->
          (x ∈ rows' <-> x ∈ old))
    /\ (forall x', x' ∈ rows' ->
          x' !! "ref_salarie" ∈ (fun x => x !! "ref_salarie") <$> old ->
          exists x, x ∈ old /\ x !! "ref_salarie" = x' !! "ref_salarie"
            /\ forall col, col ∉ salarie_cols -> x' !! col = x !! col)
    /\ (forall x', x' ∈ rows' ->
          x' !! "ref_salarie" ∉ (fun x => x !! "ref_salarie") <$> old ->
          forall col, col ∉ salarie_cols -> x' !! col = None).
Proof.
  apply (upsert_table_loads_rows (H := string_values) "silver_raw.salarie"
           "ref_salarie" file salarie_cols (get_conn healthy loaded)
           (mkTable salarie_cols "ref_salarie"
              [record "S1" "1001" "Diallo" "Awa" "MR01";
               record "S2" "1002" "Sow" "Ali" "MR02"])).
  - reflexivity.
  - by vm_compute.
  - by vm_compute.
  - apply (bool_decide_unpack _). by vm_compute.
  - apply (bool_decide_unpack _). by vm_compute.
  - reflexivity.
  - left.
  - done.
  - apply (bool_decide_unpack _). by vm_compute.
  - apply (bool_decide_unpack _). by vm_compute.
Defined.

Lemma upsert_table_repeated_key_witness :
  let c := get_conn healthy loaded in
  upsert_table (H := string_values) "silver_raw.salarie" "ref_salarie" repeated
               salarie_cols c
  = (Raises ProgrammingError, tick c).
Proof.
  apply (upsert_table_repeated_key (H := string_values) "silver_raw.salarie"
           "ref_salarie" repeated salarie_cols (get_conn healthy loaded)
           (mkTable salarie_cols "ref_salarie"
              [record "S1" "1001" "Diallo" "Awa" "MR01";
               record "S2" "1002" "Sow" "Ali" "MR02"])).
  - reflexivity.
  - by vm_compute.
  - by vm_compute.
  - apply (bool_decide_unpack _). by vm_compute.
  - apply (bool_decide_unpack _). by vm_compute.
  - reflexivity.
  - left.
  - apply (bool_decide_unpack _). by vm_compute.
  - apply (bool_decide_unpack _). by vm_compute.
Defined.

Lemma snapshot_load_mirrors_file_witness :
  let c := get_conn healthy loaded in
  let old := [record "S1" "1001" "Diallo" "Awa" "MR01";
              record "S2" "1002" "Sow" "Ali" "MR02"] in
  let listed (k : option (val (Values := string_values))) :=
    k ∈ (Some ∘ text) <$> file_keys in
  exists c1 c2 c3 rows',
    upsert_table "silver_raw.salarie" "ref_salarie" file salarie_cols c
    = (Returns tt, c1)
    /\ sync_deletions_snapshot "silver_raw.salarie" "ref_salarie" file_keys c1
       = (Returns (Z.of_nat
                     (length (filter
                                (fun x => ~ listed (x !! "ref_salarie")) old))),
          c2)
    /\ commit c2 = (Returns tt, c3)
    /\ committed c3 = pending c3
    /\ tmp_keys (committed c3) = None
    /\ tables (committed c3)
       = <["silver_raw.salarie" := mkTable salarie_cols "ref_salarie" rows']>
           (tables (pending c))
    /\ (fun x => x !! "ref_salarie") <$> rows'
       ≡ₚ filter listed ((fun x => x !! "ref_salarie") <$> old)
          ++ filter (fun k => k ∉ (fun x => x !! "ref_salarie") <$> old)
                    ((Some ∘ text) <$> file_keys)
    /\ (NoDup ((fun x => x !! "ref_salarie") <$> old) ->
        (fun x => x !! "ref_salarie") <$> rows' ≡ₚ (Some ∘ text) <$> file_keys)
    /\ (forall r x', r ∈ file -> x' ∈ rows' ->
          x' !! "ref_salarie" = r !! "ref_salarie" ->
          forall col, col ∈ salarie_cols -> x' !! col = r !! col).
Proof.
  apply (snapshot_load_mirrors_file (H := string_values) "silver_raw.salarie"
           "ref_salarie" file salarie_cols file_keys (get_conn healthy loaded)
           (mkTable salarie_cols "ref_salarie"
              [record "S1" "1001" "Diallo" "Awa" "MR01";
               record "S2" "1002" "Sow" "Ali" "MR02"])).
  - reflexivity.
  - by vm_compute.
  - reflexivity.
  - by vm_compute.
  - apply (bool_decide_unpack _). by vm_compute.
  - apply (bool_decide_unpack _). by vm_compute.
  - reflexivity.
  - left.
  - by vm_compute.
  - apply (bool_decide_unpack _). by vm_compute.
Defined.

End LoaderWitnesses.
